(** * FAA Part 117 FDP tracker: the duty-time core of [flightTracker.py]

    A shallow embedding of the time codec, the FDP limit lookup, the
    per-role progress evaluation, the aircraft card header and the fleet
    counters of [flightTracker.py], together with the properties the
    specification states about them.

    Python values are embedded as follows.
    - [int] is [Z]; [str] is [string], one [ascii] per code point, so the
      strings covered are those whose code points are below 256;
    - [float] is [pyfloat]: NaN, the two infinities, or a finite double given
      by the rational it denotes; arithmetic rounds to the nearest double,
      ties to even ([round_double]); the sign of zero is not kept;
    - a raised exception is the [Raise] case of [result]; [try]/[except]
      is a match on it. *)

From Stdlib Require Import ZArith QArith Qround Qabs Qpower Qminmax Bool List.
From Stdlib Require Import Lia Lqa.
From Stdlib Require Import Ascii String DecimalString.
From Stdlib Require DecimalPos DecimalFacts DecimalN.
Import ListNotations.

Local Open Scope string_scope.
Local Open Scope Z_scope.

(** ** Exceptions and results *)

Inductive exn : Type :=
| ValueError
| TypeError
| OverflowError
| KeyError
| ZeroDivisionError.

Inductive result (A : Type) : Type :=
| Ok (a : A)
| Raise (e : exn).

Arguments Ok {A} a.
Arguments Raise {A} e.

Definition bind {A B : Type} (r : result A) (k : A -> result B) : result B :=
  match r with
  | Ok a => k a
  | Raise e => Raise e
  end.

Notation "x <- r ;; k" := (bind r (fun x => k))
  (at level 61, r at next level, right associativity).

(** [except (ValueError, TypeError): return d] *)
Definition except_value_type {A : Type} (r : result A) (d : A) : result A :=
  match r with
  | Raise ValueError => Ok d
  | Raise TypeError => Ok d
  | _ => r
  end.

(** ** Python values *)

Inductive pyfloat : Type :=
| FNan
| FInf (neg : bool)
| FFin (q : Q).

Inductive pyval : Type :=
| VNone
| VInt (z : Z)
| VFloat (f : pyfloat)
| VStr (s : string).

(** ** Characters and strings *)

Module Str.

Definition code (c : ascii) : N := N_of_ascii c.

Definition is_digit (c : ascii) : bool :=
  ((48 <=? code c) && (code c <=? 57))%N.

Definition digit_val (c : ascii) : Z := Z.of_N (code c) - 48.

(** The characters [int()] and [float()] strip: the six ASCII blanks, and
    NEL and NBSP (the only other blanks below 256). *)
Definition is_space (c : ascii) : bool :=
  let n := code c in
  (((9 <=? n) && (n <=? 13)) || (n =? 32) || (n =? 133) || (n =? 160))%N.

Definition is_plus (c : ascii) : bool := (code c =? 43)%N.
Definition is_minus (c : ascii) : bool := (code c =? 45)%N.
Definition is_underscore (c : ascii) : bool := (code c =? 95)%N.
Definition is_dot (c : ascii) : bool := (code c =? 46)%N.
Definition is_e (c : ascii) : bool := ((code c =? 101) || (code c =? 69))%N.

(** ASCII lower-casing, as the case-insensitive match of [inf] and [nan]. *)
Definition lower (c : ascii) : ascii :=
  let n := code c in
  if ((65 <=? n) && (n <=? 90))%N then ascii_of_N (n + 32) else c.

Fixpoint drop_while (p : ascii -> bool) (cs : list ascii) : list ascii :=
  match cs with
  | [] => []
  | c :: r => if p c then drop_while p r else cs
  end.

Definition strip (cs : list ascii) : list ascii :=
  rev (drop_while is_space (rev (drop_while is_space cs))).

(** An optional leading sign. *)
Definition split_sign (cs : list ascii) : bool * list ascii :=
  match cs with
  | c :: r => if is_minus c then (true, r)
              else if is_plus c then (false, r)
              else (false, cs)
  | [] => (false, [])
  end.

(** [break p cs]: the characters before the first one satisfying [p], and
    those after it when there is one. *)
Fixpoint break (p : ascii -> bool) (cs : list ascii)
  : list ascii * option (list ascii) :=
  match cs with
  | [] => ([], None)
  | c :: r =>
      if p c then ([], Some r)
      else let '(a, b) := break p r in (c :: a, b)
  end.

(** A run of decimal digits, where single underscores may separate digits.
    Yields the value and the number of digits read. *)
Fixpoint digitpart_from (acc : Z) (n : nat) (prev_digit : bool)
  (cs : list ascii) : option (Z * nat) :=
  match cs with
  | [] => if prev_digit then Some (acc, n) else None
  | c :: r =>
      if is_digit c then digitpart_from (10 * acc + digit_val c) (S n) true r
      else if is_underscore c && prev_digit then digitpart_from acc n false r
      else None
  end.

Definition digitpart (cs : list ascii) : option (Z * nat) :=
  digitpart_from 0 0%nat false cs.

(** [s[:n]] and [s[n:]] *)
Fixpoint take (n : nat) (s : string) : string :=
  match n, s with
  | S n', String c r => String c (take n' r)
  | _, _ => EmptyString
  end.

Fixpoint drop (n : nat) (s : string) : string :=
  match n, s with
  | S n', String c r => drop n' r
  | _, _ => s
  end.

Fixpoint zeros (n : nat) : string :=
  match n with
  | O => EmptyString
  | S n' => String "0" (zeros n')
  end.

(** [s.zfill(width)]: zeros are inserted after a leading sign. *)
Definition zfill (width : nat) (s : string) : string :=
  let n := String.length s in
  if (width <=? n)%nat then s
  else
    match s with
    | String c r =>
        if is_plus c || is_minus c then String c (zeros (width - n) ++ r)
        else zeros (width - n) ++ s
    | EmptyString => zeros width
    end.

(** [s * n] for a string [s] *)
Fixpoint repeat_str (s : string) (n : nat) : string :=
  match n with
  | O => EmptyString
  | S n' => s ++ repeat_str s n'
  end.

End Str.

(** ** Integers *)

(** [str(n)] for an [int]. *)
Definition str_of_int (n : Z) : string := NilZero.string_of_int (Z.to_int n).

(** [int(s)] for a [str], base 10. *)
Definition int_of_str (s : string) : result Z :=
  let '(neg, ds) := Str.split_sign (Str.strip (list_ascii_of_string s)) in
  match Str.digitpart ds with
  | Some (n, _) => Ok (if neg then - n else n)
  | None => Raise ValueError
  end.

(** [f"{n:02d}"] *)
Definition format_02d (n : Z) : string := Str.zfill 2 (str_of_int n).

(** ** FDP limit lookup *)

(** The body of the [try] of [calculate_fdp_limits].  [main] passes the text
    of a check-in field, so [str(start_time_hhmm)] is the text itself. *)
Definition calculate_fdp_limits_try (start_time_hhmm : string) (segments : Z)
  : result Z :=
  hours <- int_of_str (Str.take 2 (Str.zfill 4 start_time_hhmm)) ;;
  if (500 <=? hours) && (hours <=? 759) then
    Ok (if segments <=? 2 then 14 else 13)
  else if (800 <=? hours) && (hours <=? 1259) then
    Ok (if segments <=? 2 then 13 else 12)
  else if (1300 <=? hours) && (hours <=? 1659) then
    Ok (if segments <=? 2 then 12 else 11)
  else
    Ok (if segments <=? 2 then 11 else 10).

Definition calculate_fdp_limits (start_time_hhmm : string) (segments : Z) : Z :=
  match calculate_fdp_limits_try start_time_hhmm segments with
  | Ok v => v
  | Raise _ => 9
  end.

(** ** Floats *)

Module Float.

Local Open Scope Q_scope.

(** [floor (log2 a)] for a rational [a > 0]. *)
Definition ilog2 (a : Q) : Z :=
  let d := (Z.log2 (Qnum a) - Z.log2 (Zpos (Qden a)))%Z in
  if Qle_bool (2 ^ d) a then d else (d - 1)%Z.

(** The integer nearest to [a >= 0], a tie going to the even one. *)
Definition round_half_even (a : Q) : Z :=
  let n := Qfloor a in
  match Qcompare (a - inject_Z n) (1 # 2) with
  | Lt => n
  | Gt => (n + 1)%Z
  | Eq => if Z.even n then n else (n + 1)%Z
  end.

(** The double nearest to the rational [q]: 53 significant bits, exponents
    down to [2^-1074] (subnormals), infinity from [2^1024] on. *)
Definition round_double (q : Q) : pyfloat :=
  if Qeq_bool q 0 then FFin 0
  else
    let a := Qabs q in
    let e := Z.max (ilog2 a - 52) (-1074) in
    let r := inject_Z (round_half_even (a / 2 ^ e)) * 2 ^ e in
    let neg := negb (Qle_bool 0 q) in
    if Qle_bool (2 ^ 1024) r then FInf neg
    else FFin (if neg then - r else r).

(** [float(n)] for an [int]: too large an integer raises. *)
Definition of_int (n : Z) : result pyfloat :=
  match round_double (inject_Z n) with
  | FInf _ => Raise OverflowError
  | f => Ok f
  end.

(** [int(f)]: truncation toward zero. *)
Definition to_int (f : pyfloat) : result Z :=
  match f with
  | FNan => Raise ValueError
  | FInf _ => Raise OverflowError
  | FFin q => Ok (Z.quot (Qnum q) (Zpos (Qden q)))
  end.

Definition is_zero (f : pyfloat) : bool :=
  match f with
  | FFin q => Qeq_bool q 0
  | _ => false
  end.

(** The sign bit of a float that is not NaN. *)
Definition is_neg (f : pyfloat) : bool :=
  match f with
  | FNan => false
  | FInf neg => neg
  | FFin q => negb (Qle_bool 0 q)
  end.

Definition mul (x y : pyfloat) : pyfloat :=
  match x, y with
  | FNan, _ | _, FNan => FNan
  | FFin a, FFin b => round_double (a * b)
  | _, _ =>
      if is_zero x || is_zero y then FNan
      else FInf (xorb (is_neg x) (is_neg y))
  end.

Definition sub (x y : pyfloat) : pyfloat :=
  match x, y with
  | FNan, _ | _, FNan => FNan
  | FFin a, FFin b => round_double (a - b)
  | FInf n, FInf m => if Bool.eqb n m then FNan else FInf n
  | FInf n, FFin _ => FInf n
  | FFin _, FInf m => FInf (negb m)
  end.

(** [x / y]: Python raises on a zero divisor. *)
Definition div (x y : pyfloat) : result pyfloat :=
  if is_zero y then Raise ZeroDivisionError
  else
    Ok match x, y with
       | FNan, _ | _, FNan => FNan
       | FFin a, FFin b => round_double (a / b)
       | FInf _, FInf _ => FNan
       | FInf n, FFin _ => FInf (xorb n (is_neg y))
       | FFin _, FInf _ => FFin 0
       end.

(** [x < k], [x <= k] and [x > k] for an integer [k]; false on NaN. *)
Definition ltb (x : pyfloat) (k : Z) : bool :=
  match x with
  | FNan => false
  | FInf neg => neg
  | FFin q => negb (Qle_bool (inject_Z k) q)
  end.

Definition leb (x : pyfloat) (k : Z) : bool :=
  match x with
  | FNan => false
  | FInf neg => neg
  | FFin q => Qle_bool q (inject_Z k)
  end.

Definition gtb (x : pyfloat) (k : Z) : bool :=
  match x with
  | FNan => false
  | FInf neg => negb neg
  | FFin q => negb (Qle_bool q (inject_Z k))
  end.

(** The decimal literal grammar of [float()]: digits with an optional
    fraction and an optional exponent; at least one digit before the
    exponent.  Yields the rational written. *)
Definition mantissa (cs : list ascii) : option (Z * nat) :=
  match Str.break Str.is_dot cs with
  | ([], None) => None
  | ([], Some []) => None
  | ([], Some fp) => Str.digitpart fp
  | (ip, None) | (ip, Some []) =>
      match Str.digitpart ip with
      | Some (i, _) => Some (i, O)
      | None => None
      end
  | (ip, Some fp) =>
      match Str.digitpart ip, Str.digitpart fp with
      | Some (i, _), Some (f, k) => Some ((i * 10 ^ Z.of_nat k + f)%Z, k)
      | _, _ => None
      end
  end.

Definition exponent (es : option (list ascii)) : option Z :=
  match es with
  | None => Some 0%Z
  | Some cs =>
      let '(neg, ds) := Str.split_sign cs in
      match Str.digitpart ds with
      | Some (n, _) => Some (if neg then (- n)%Z else n)
      | None => None
      end
  end.

Definition decimal (cs : list ascii) : option Q :=
  let '(ms, es) := Str.break Str.is_e cs in
  match mantissa ms, exponent es with
  | Some (m, k), Some e => Some (inject_Z m * 10 ^ (e - Z.of_nat k))
  | _, _ => None
  end.

(** [float(s)] for a [str]. *)
Definition of_str (s : string) : result pyfloat :=
  let '(neg, cs) := Str.split_sign (Str.strip (list_ascii_of_string s)) in
  let word := string_of_list_ascii (map Str.lower cs) in
  if String.eqb word "inf" || String.eqb word "infinity" then Ok (FInf neg)
  else if String.eqb word "nan" then Ok FNan
  else
    match decimal cs with
    | Some q => Ok (round_double (if neg then - q else q))
    | None => Raise ValueError
    end.

End Float.

(** [float(v)] *)
Definition py_float (v : pyval) : result pyfloat :=
  match v with
  | VNone => Raise TypeError
  | VInt z => Float.of_int z
  | VFloat f => Ok f
  | VStr s => Float.of_str s
  end.

(** [int(v)] *)
Definition py_int (v : pyval) : result Z :=
  match v with
  | VNone => Raise TypeError
  | VInt z => Ok z
  | VFloat f => Float.to_int f
  | VStr s => int_of_str s
  end.

(** [int(float(v))] *)
Definition int_float (v : pyval) : result Z :=
  f <- py_float v ;; Float.to_int f.

(** [pd.isna(v)] for a scalar. *)
Definition pd_isna (v : pyval) : bool :=
  match v with
  | VNone => true
  | VFloat FNan => true
  | _ => false
  end.

(** [v == ''] and [v is None] *)
Definition is_empty_str (v : pyval) : bool :=
  match v with
  | VStr EmptyString => true
  | _ => false
  end.

Definition is_none (v : pyval) : bool :=
  match v with
  | VNone => true
  | _ => false
  end.

(** ** Time codec *)

(** The [try] of [hhmm_to_minutes] from [hhmm_str] on, [n] being
    [int(float(hhmm))]. *)
Definition hours_minutes (n : Z) : result Z :=
  let hhmm_str := Str.zfill 4 (str_of_int n) in
  hours <- int_of_str (Str.take 2 hhmm_str) ;;
  minutes <- int_of_str (Str.drop 2 hhmm_str) ;;
  if (hours <? 0) || (hours >? 23) || (minutes <? 0) || (minutes >? 59) then Ok 0
  else Ok (hours * 60 + minutes).

Definition hhmm_to_minutes_try (hhmm : pyval) : result Z :=
  n <- int_float hhmm ;; hours_minutes n.

Definition hhmm_to_minutes (hhmm : pyval) : result Z :=
  if pd_isna hhmm || is_empty_str hhmm || is_none hhmm then Ok 0
  else except_value_type (hhmm_to_minutes_try hhmm) 0.

(** [v <= 0], [v > 0]: a comparison of a number with an [int]. *)
Definition py_le (v : pyval) (k : Z) : result bool :=
  match v with
  | VInt z => Ok (z <=? k)
  | VFloat f => Ok (Float.leb f k)
  | _ => Raise TypeError
  end.

Definition py_lt (v : pyval) (k : Z) : result bool :=
  match v with
  | VInt z => Ok (z <? k)
  | VFloat f => Ok (Float.ltb f k)
  | _ => Raise TypeError
  end.

Definition py_gt (v : pyval) (k : Z) : result bool :=
  match v with
  | VInt z => Ok (z >? k)
  | VFloat f => Ok (Float.gtb f k)
  | _ => Raise TypeError
  end.

Definition minutes_to_hhmm (total_minutes : pyval) : result string :=
  le0 <- py_le total_minutes 0 ;;
  if le0 : bool then Ok "0000"
  else
    total_minutes <- py_int total_minutes ;;
    let hours := total_minutes / 60 in
    let minutes := total_minutes mod 60 in
    let hours := if hours >=? 24 then hours mod 24 else hours in
    Ok (format_02d hours ++ format_02d minutes).

(** ** Arithmetic on cell values *)

(** [v * k] for an [int] [k]: a string is repeated. *)
Definition py_mul (v : pyval) (k : Z) : result pyval :=
  match v with
  | VNone => Raise TypeError
  | VInt z => Ok (VInt (z * k))
  | VFloat f => k' <- Float.of_int k ;; Ok (VFloat (Float.mul f k'))
  | VStr s => Ok (VStr (Str.repeat_str s (Z.to_nat k)))
  end.

(** [v - k] for an [int] [k]. *)
Definition py_sub (v : pyval) (k : Z) : result pyval :=
  match v with
  | VInt z => Ok (VInt (z - k))
  | VFloat f => k' <- Float.of_int k ;; Ok (VFloat (Float.sub f k'))
  | _ => Raise TypeError
  end.

(** [k / v] for an [int] [k]: true division, always a float. *)
Definition py_rtruediv (k : Z) (v : pyval) : result pyval :=
  match v with
  | VInt z =>
      if z =? 0 then Raise ZeroDivisionError
      else
        match Float.round_double (inject_Z k / inject_Z z) with
        | FInf _ => Raise OverflowError
        | f => Ok (VFloat f)
        end
  | VFloat f =>
      k' <- Float.of_int k ;; q <- Float.div k' f ;; Ok (VFloat q)
  | _ => Raise TypeError
  end.

(** [max(k, v)] and [min(k, v)] with the [int] [k] first: [v] is returned
    only when it compares strictly beyond [k]. *)
Definition py_max (k : Z) (v : pyval) : result pyval :=
  above <- py_gt v k ;; Ok (if above : bool then v else VInt k).

Definition py_min (k : Z) (v : pyval) : result pyval :=
  below <- py_lt v k ;; Ok (if below : bool then v else VInt k).

(** ** Duty status evaluation *)

(** A row of the aircraft table: the ten columns of
    [initialize_aircraft_data], each cell a Python value. *)
Record aircraft_row : Type := {
  Tail_Number : pyval;
  CA_Check_in : pyval;
  CA_Max_FDP_hours : pyval;
  CA_Elapsed_FDP_HHMM : pyval;
  FO_Check_in : pyval;
  FO_Max_FDP_hours : pyval;
  FO_Elapsed_FDP_HHMM : pyval;
  Cabin_Check_in : pyval;
  Cabin_Max_FDP_hours : pyval;
  Cabin_Elapsed_FDP_HHMM : pyval
}.

(** The dictionary [calculate_progress_data] returns. *)
Record progress_data : Type := {
  progress_percent : pyval;
  remaining_hhmm : string;
  elapsed_hhmm : pyval;
  max_hhmm : string;
  color : string;
  status : string
}.

(** The two cells a crew type selects. *)
Definition crew_cells (row : aircraft_row) (crew_type : string) : pyval * pyval :=
  if String.eqb crew_type "CA" then
    (CA_Max_FDP_hours row, CA_Elapsed_FDP_HHMM row)
  else if String.eqb crew_type "FO" then
    (FO_Max_FDP_hours row, FO_Elapsed_FDP_HHMM row)
  else
    (Cabin_Max_FDP_hours row, Cabin_Elapsed_FDP_HHMM row).

(** [max_minutes], [remaining_minutes] and [progress_percent]. *)
Definition progress_numbers (max_time elapsed : pyval)
  : result (pyval * pyval * pyval) :=
  max_minutes <- py_mul max_time 60 ;;
  elapsed_minutes <- hhmm_to_minutes elapsed ;;
  difference <- py_sub max_minutes elapsed_minutes ;;
  remaining_minutes <- py_max 0 difference ;;
  positive <- py_gt max_minutes 0 ;;
  progress_percent <-
    (if positive : bool then
       ratio <- py_rtruediv elapsed_minutes max_minutes ;;
       scaled <- py_mul ratio 100 ;;
       py_min 100 scaled
     else Ok (VInt 0)) ;;
  Ok (max_minutes, remaining_minutes, progress_percent).

(** The colour and the status of a remaining time. *)
Definition color_status (remaining_minutes : pyval) : result (string * string) :=
  within_hour <- py_le remaining_minutes 60 ;;
  if within_hour : bool then Ok ("#e74c3c", "critical")
  else
    within_two <- py_le remaining_minutes 120 ;;
    if within_two : bool then Ok ("#f39c12", "warning")
    else Ok ("#2ecc71", "ok").

(** The body of the [try] of [calculate_progress_data]. *)
Definition calculate_progress_data_try (row : aircraft_row) (crew_type : string)
  : result progress_data :=
  let '(max_time, elapsed) := crew_cells row crew_type in
  numbers <- progress_numbers max_time elapsed ;;
  let '(max_minutes, remaining_minutes, percent) := numbers in
  tier <- color_status remaining_minutes ;;
  remaining <- minutes_to_hhmm remaining_minutes ;;
  maximum <- minutes_to_hhmm max_minutes ;;
  Ok {| progress_percent := percent;
        remaining_hhmm := remaining;
        elapsed_hhmm := elapsed;
        max_hhmm := maximum;
        color := fst tier;
        status := snd tier |}.

(** The dictionary of the [except Exception] branch. *)
Definition error_data : progress_data :=
  {| progress_percent := VInt 0;
     remaining_hhmm := "0000";
     elapsed_hhmm := VStr "0000";
     max_hhmm := "0000";
     color := "#95a5a6";
     status := "error" |}.

Definition calculate_progress_data (row : aircraft_row) (crew_type : string)
  : progress_data :=
  match calculate_progress_data_try row crew_type with
  | Ok data => data
  | Raise _ => error_data
  end.

(** ** Aircraft card *)

(** The pictograph in front of the tail number. *)
Inductive emoji : Type :=
| Rotating_light
| Warning_sign
| Check_mark.

(** What [create_aircraft_card] puts in the card besides the progress bars:
    the class of the card, and the pictograph, tail number and remaining time
    of its heading line. *)
Record aircraft_card : Type := {
  card_class : string;
  status_emoji : emoji;
  card_tail : pyval;
  card_remaining : string
}.

(** A dictionary with string keys, in insertion order. *)
Definition dict (A : Type) : Type := list (string * A).

Fixpoint dict_get {A : Type} (d : dict A) (key : string) : result A :=
  match d with
  | [] => Raise KeyError
  | (k, v) :: r => if String.eqb k key then Ok v else dict_get r key
  end.

Definition dict_values {A : Type} (d : dict A) : list A := map snd d.

(** [x in statuses] *)
Definition py_in (x : string) (l : list string) : bool :=
  existsb (String.eqb x) l.

(** The class and the pictograph of a card, from the statuses of its crew. *)
Definition card_style (statuses : list string) : string * emoji :=
  if py_in "critical" statuses then ("critical-card", Rotating_light)
  else if py_in "warning" statuses then ("warning-card", Warning_sign)
  else ("aircraft-card", Check_mark).

Definition create_aircraft_card (tail_number : pyval)
  (aircraft_data : dict progress_data) : result aircraft_card :=
  let statuses := map status (dict_values aircraft_data) in
  let '(class, pictograph) := card_style statuses in
  captain <- dict_get aircraft_data "CA" ;;
  Ok {| card_class := class;
        status_emoji := pictograph;
        card_tail := tail_number;
        card_remaining := remaining_hhmm captain |}.

(** ** The loops of [main] *)

(** The three evaluations [main] makes for an aircraft. *)
Definition crew_data (aircraft : aircraft_row) : list progress_data :=
  [calculate_progress_data aircraft "CA";
   calculate_progress_data aircraft "FO";
   calculate_progress_data aircraft "Cabin"].

(** [any(data['status'] == s for data in l)] *)
Definition any_status (s : string) (l : list progress_data) : bool :=
  existsb (fun data => String.eqb (status data) s) l.

(** One turn of the loop of the statistics panel. *)
Definition count_alert (counts : Z * Z) (aircraft : aircraft_row) : Z * Z :=
  let '(critical_count, warning_count) := counts in
  if any_status "critical" (crew_data aircraft) then
    (critical_count + 1, warning_count)
  else if any_status "warning" (crew_data aircraft) then
    (critical_count, warning_count + 1)
  else counts.

(** The statistics panel: total, critical and warning counts; nothing is
    shown for an empty table. *)
Definition statistics (table : list aircraft_row) : option (Z * Z * Z) :=
  match table with
  | [] => None
  | _ =>
      let '(critical_count, warning_count) := fold_left count_alert table (0, 0) in
      Some (Z.of_nat (List.length table), critical_count, warning_count)
  end.

(** One turn of the loop of the alert summary. *)
Definition list_alert (lists : list pyval * list pyval) (aircraft : aircraft_row)
  : list pyval * list pyval :=
  let '(critical_aircraft, warning_aircraft) := lists in
  let tail_number := Tail_Number aircraft in
  if any_status "critical" (crew_data aircraft) then
    ((critical_aircraft ++ [tail_number])%list, warning_aircraft)
  else if any_status "warning" (crew_data aircraft) then
    (critical_aircraft, (warning_aircraft ++ [tail_number])%list)
  else lists.

(** The alert summary: the critical and the warning tail numbers; nothing
    is listed for an empty table. *)
Definition alert_summary (table : list aircraft_row)
  : option (list pyval * list pyval) :=
  match table with
  | [] => None
  | _ => Some (fold_left list_alert table ([], []))
  end.

(** The dictionary the dashboard builds for an aircraft. *)
Definition aircraft_progress (aircraft : aircraft_row) : dict progress_data :=
  [("CA", calculate_progress_data aircraft "CA");
   ("FO", calculate_progress_data aircraft "FO");
   ("Cabin", calculate_progress_data aircraft "Cabin")].

(** The cards of the dashboard, one per row. *)
Definition dashboard (table : list aircraft_row) : list (result aircraft_card) :=
  map (fun aircraft =>
         create_aircraft_card (Tail_Number aircraft) (aircraft_progress aircraft))
      table.

(** The class of the card the dashboard draws for an aircraft: its
    aggregate status. *)
Definition aircraft_class (aircraft : aircraft_row) : string :=
  fst (card_style (map status (dict_values (aircraft_progress aircraft)))).

Definition critical_rows (table : list aircraft_row) : list aircraft_row :=
  filter (fun a => String.eqb (aircraft_class a) "critical-card") table.

Definition warning_rows (table : list aircraft_row) : list aircraft_row :=
  filter (fun a => String.eqb (aircraft_class a) "warning-card") table.

Definition normal_rows (table : list aircraft_row) : list aircraft_row :=
  filter (fun a => String.eqb (aircraft_class a) "aircraft-card") table.

(** The severity the aggregation gives a status: it looks for "critical",
    then for "warning", and for nothing else. *)
Definition severity (s : string) : nat :=
  if String.eqb s "critical" then 2
  else if String.eqb s "warning" then 1
  else 0.

Definition class_of_severity (n : nat) : string :=
  match n with
  | O => "aircraft-card"
  | S O => "warning-card"
  | _ => "critical-card"
  end.

(** ** Sample data *)

Definition sample_row (tail ca_in fo_in cabin_in : string) (ca_max fo_max cabin_max : Q)
  (ca_el fo_el cabin_el : string) : aircraft_row :=
  {| Tail_Number := VStr tail;
     CA_Check_in := VStr ca_in;
     CA_Max_FDP_hours := VFloat (FFin ca_max);
     CA_Elapsed_FDP_HHMM := VStr ca_el;
     FO_Check_in := VStr fo_in;
     FO_Max_FDP_hours := VFloat (FFin fo_max);
     FO_Elapsed_FDP_HHMM := VStr fo_el;
     Cabin_Check_in := VStr cabin_in;
     Cabin_Max_FDP_hours := VFloat (FFin cabin_max);
     Cabin_Elapsed_FDP_HHMM := VStr cabin_el |}.

(** The three rows of [initialize_aircraft_data]. *)
Definition N123AA : aircraft_row :=
  sample_row "N123AA" "0800" "0800" "0730" 13 13 14 "0430" "0430" "0500".

Definition N456BB : aircraft_row :=
  sample_row "N456BB" "0600" "0600" "0530" 14 14 14 "0830" "0830" "0900".

Definition N789CC : aircraft_row :=
  sample_row "N789CC" "1200" "1200" "1130" 12 12 13 "0230" "0230" "0300".


(** A captain whose maximum is not a number, and first officers with
    less time left than their captain. *)
Definition unreadable_captain : aircraft_row :=
  {| Tail_Number := VStr "N123AA";
     CA_Check_in := VStr "0800";
     CA_Max_FDP_hours := VStr "abc";
     CA_Elapsed_FDP_HHMM := VStr "0430";
     FO_Check_in := VStr "0800";
     FO_Max_FDP_hours := VFloat (FFin 13);
     FO_Elapsed_FDP_HHMM := VStr "0430";
     Cabin_Check_in := VStr "0730";
     Cabin_Max_FDP_hours := VFloat (FFin 14);
     Cabin_Elapsed_FDP_HHMM := VStr "0500" |}.

Definition late_first_officer : aircraft_row :=
  sample_row "N321FO" "0800" "0800" "0800" 13 13 13 "0100" "0900" "0100".

(** Three aircraft: one critical, one warning, one normal. *)
Definition tail1 : aircraft_row :=
  sample_row "tail1" "0800" "0800" "0730" 13 13 14 "1230" "0430" "0500".

Definition tail2 : aircraft_row :=
  sample_row "tail2" "0800" "0800" "0730" 13 13 14 "1130" "0430" "0500".

Definition tail3 : aircraft_row :=
  sample_row "tail3" "0800" "0800" "0730" 13 13 14 "0430" "0430" "0500".

(** ** Reading a cell as a number *)

Definition is_number (v : pyval) : Prop :=
  match v with
  | VInt _ | VFloat _ => True
  | _ => False
  end.

(** A float that is at least 0: NaN is not, the positive infinity is. *)
Definition nonneg_float (x : pyfloat) : Prop :=
  match x with
  | FNan => False
  | FInf neg => neg = false
  | FFin r => (0 <= r)%Q
  end.

Definition nonneg (v : pyval) : Prop :=
  match v with
  | VInt z => 0 <= z
  | VFloat x => nonneg_float x
  | _ => False
  end.

(** A finite number between two integers. *)
Definition within (lo hi : Z) (v : pyval) : Prop :=
  match v with
  | VInt z => lo <= z <= hi
  | VFloat (FFin r) => (inject_Z lo <= r /\ r <= inject_Z hi)%Q
  | _ => False
  end.

(** A number that is at most the integer [k]. *)
Definition at_most (v : pyval) (k : Z) : Prop :=
  match v with
  | VInt z => z <= k
  | VFloat (FFin r) => (r <= inject_Z k)%Q
  | VFloat (FInf neg) => neg = true
  | _ => False
  end.

(** ** The decoding in the words of the specification *)

(** Missing, empty or unparseable input gives 0; a value that parses is
    padded to four digits, the hour is its first two digits and the minute
    its last two; an hour above 23 or a minute above 59 gives 0. *)
Definition decode_as_specified (hhmm : pyval) : result Z :=
  if pd_isna hhmm || is_empty_str hhmm || is_none hhmm then Ok 0
  else
    match int_float hhmm with
    | Raise _ => Ok 0
    | Ok n =>
        let padded := Str.zfill 4 (str_of_int n) in
        hour <- int_of_str (Str.take 2 padded) ;;
        minute <- int_of_str (Str.drop (String.length padded - 2) padded) ;;
        if (hour >? 23) || (minute >? 59) then Ok 0
        else Ok (hour * 60 + minute)
    end.

(** The hour and minute of a number of at most four digits. *)
Definition split_four (n : Z) : Z :=
  if (n / 100 >? 23) || (n mod 100 >? 59) then 0
  else (n / 100) * 60 + n mod 100.

(** The integers below [n], in order. *)
Definition below (n : Z) : list Z := map Z.of_nat (seq 0 (Z.to_nat n)).

(** ** Numbers up to rounding *)

(** The rational a finite number denotes. *)
Definition number (v : pyval) : option Q :=
  match v with
  | VInt z => Some (inject_Z z)
  | VFloat (FFin q) => Some q
  | _ => None
  end.

(** The distance float arithmetic may put between the rational [t] and the
    result of up to three operations that should give [t]: the relative
    error [2^-51], and [2^-1068] among the subnormals. *)
Definition rounding (t : Q) : Q :=
  (Qabs t * (1 # 2251799813685248) + 2 ^ (-1068))%Q.

(** A finite number that is [t] up to rounding. *)
Definition near (v : pyval) (t : Q) : Prop :=
  match number v with
  | Some x => (Qabs (x - t) <= rounding t)%Q
  | None => False
  end.

(** ** Cells by column label *)

(** [row[col]] *)
Definition get_cell (row : aircraft_row) (col : string) : result pyval :=
  if String.eqb col "Tail Number" then Ok (Tail_Number row)
  else if String.eqb col "CA Check-in" then Ok (CA_Check_in row)
  else if String.eqb col "CA Max FDP (hours)" then Ok (CA_Max_FDP_hours row)
  else if String.eqb col "CA Elapsed FDP (HHMM)" then Ok (CA_Elapsed_FDP_HHMM row)
  else if String.eqb col "FO Check-in" then Ok (FO_Check_in row)
  else if String.eqb col "FO Max FDP (hours)" then Ok (FO_Max_FDP_hours row)
  else if String.eqb col "FO Elapsed FDP (HHMM)" then Ok (FO_Elapsed_FDP_HHMM row)
  else if String.eqb col "Cabin Check-in" then Ok (Cabin_Check_in row)
  else if String.eqb col "Cabin Max FDP (hours)" then Ok (Cabin_Max_FDP_hours row)
  else if String.eqb col "Cabin Elapsed FDP (HHMM)" then Ok (Cabin_Elapsed_FDP_HHMM row)
  else Raise KeyError.

(** The row with its cell in the elapsed column [col] replaced by [v]; the
    other columns are never assigned. *)
Definition set_cell (row : aircraft_row) (col : string) (v : pyval) : aircraft_row :=
  if String.eqb col "CA Elapsed FDP (HHMM)" then
    {| Tail_Number := Tail_Number row;
       CA_Check_in := CA_Check_in row;
       CA_Max_FDP_hours := CA_Max_FDP_hours row;
       CA_Elapsed_FDP_HHMM := v;
       FO_Check_in := FO_Check_in row;
       FO_Max_FDP_hours := FO_Max_FDP_hours row;
       FO_Elapsed_FDP_HHMM := FO_Elapsed_FDP_HHMM row;
       Cabin_Check_in := Cabin_Check_in row;
       Cabin_Max_FDP_hours := Cabin_Max_FDP_hours row;
       Cabin_Elapsed_FDP_HHMM := Cabin_Elapsed_FDP_HHMM row |}
  else if String.eqb col "FO Elapsed FDP (HHMM)" then
    {| Tail_Number := Tail_Number row;
       CA_Check_in := CA_Check_in row;
       CA_Max_FDP_hours := CA_Max_FDP_hours row;
       CA_Elapsed_FDP_HHMM := CA_Elapsed_FDP_HHMM row;
       FO_Check_in := FO_Check_in row;
       FO_Max_FDP_hours := FO_Max_FDP_hours row;
       FO_Elapsed_FDP_HHMM := v;
       Cabin_Check_in := Cabin_Check_in row;
       Cabin_Max_FDP_hours := Cabin_Max_FDP_hours row;
       Cabin_Elapsed_FDP_HHMM := Cabin_Elapsed_FDP_HHMM row |}
  else if String.eqb col "Cabin Elapsed FDP (HHMM)" then
    {| Tail_Number := Tail_Number row;
       CA_Check_in := CA_Check_in row;
       CA_Max_FDP_hours := CA_Max_FDP_hours row;
       CA_Elapsed_FDP_HHMM := CA_Elapsed_FDP_HHMM row;
       FO_Check_in := FO_Check_in row;
       FO_Max_FDP_hours := FO_Max_FDP_hours row;
       FO_Elapsed_FDP_HHMM := FO_Elapsed_FDP_HHMM row;
       Cabin_Check_in := Cabin_Check_in row;
       Cabin_Max_FDP_hours := Cabin_Max_FDP_hours row;
       Cabin_Elapsed_FDP_HHMM := v |}
  else row.

(** ** The "+30min" button *)

Definition elapsed_columns : list string :=
  ["CA Elapsed FDP (HHMM)"; "FO Elapsed FDP (HHMM)"; "Cabin Elapsed FDP (HHMM)"].

(** [v != s] for a text [s]: a value that is no text differs. *)
Definition py_ne_str (v : pyval) (s : string) : bool :=
  match v with
  | VStr t => negb (String.eqb t s)
  | _ => true
  end.

(** What the button leaves in a cell holding [current]: the cell itself
    when it is the text "0000", the clock thirty minutes later otherwise. *)
Definition advance_cell (current : pyval) : result pyval :=
  if py_ne_str current "0000" then
    current_minutes <- hhmm_to_minutes current ;;
    let new_minutes := current_minutes + 30 in
    new_hhmm <- minutes_to_hhmm (VInt new_minutes) ;;
    Ok (VStr new_hhmm)
  else Ok current.

(** [table.at[idx, col] = text], on the row at [idx].  A column of the
    table has a dtype: built from texts, as [initialize_aircraft_data] and
    the form build the elapsed columns, it holds any value; built from
    numbers only it is [int64] or [float64], and then pandas refuses the
    text with [TypeError] and leaves the table as it is.  [numeric col]
    tells that the column [col] of the table is of the second kind. *)
Definition at_set (numeric : string -> bool) (row : aircraft_row)
  (col text : string) : result aircraft_row :=
  if numeric col then Raise TypeError else Ok (set_cell row col (VStr text)).

(** The inner loop, over the columns [cols] of the row [aircraft] that
    [iterrows] yielded; [row] is that row as the table holds it by now.
    A cell that is the text "0000" is not written.  An exception ends the
    loop and leaves the cells written so far. *)
Fixpoint advance_columns (numeric : string -> bool) (cols : list string)
  (aircraft row : aircraft_row) : aircraft_row * option exn :=
  match cols with
  | [] => (row, None)
  | col :: rest =>
      match get_cell aircraft col with
      | Raise e => (row, Some e)
      | Ok current =>
          if py_ne_str current "0000" then
            match
              current_minutes <- hhmm_to_minutes current ;;
              let new_minutes := current_minutes + 30 in
              new_hhmm <- minutes_to_hhmm (VInt new_minutes) ;;
              at_set numeric row col new_hhmm
            with
            | Ok row' => advance_columns numeric rest aircraft row'
            | Raise e => (row, Some e)
            end
          else advance_columns numeric rest aircraft row
      end
  end.

(** The outer loop: the table after the click and the exception that cut
    it short, if any ([st.rerun()] follows only without one). *)
Fixpoint simulate_30min (numeric : string -> bool) (table : list aircraft_row)
  : list aircraft_row * option exn :=
  match table with
  | [] => ([], None)
  | aircraft :: rest =>
      match advance_columns numeric elapsed_columns aircraft aircraft with
      | (row, Some e) => (row :: rest, Some e)
      | (row, None) =>
          let '(rest', e) := simulate_30min numeric rest in (row :: rest', e)
      end
  end.

(** [n] clicks on one cell. *)
Fixpoint advance_cell_times (n : nat) (current : pyval) : result pyval :=
  match n with
  | O => Ok current
  | S n' => next <- advance_cell current ;; advance_cell_times n' next
  end.

(** ** The form of the sidebar *)

(** The dictionary [new_aircraft] of the form, for the seven texts typed. *)
Definition new_aircraft
  (tail_number ca_checkin fo_checkin cabin_checkin
   ca_elapsed fo_elapsed cabin_elapsed : string) : aircraft_row :=
  {| Tail_Number := VStr tail_number;
     CA_Check_in := VStr ca_checkin;
     CA_Max_FDP_hours := VInt (calculate_fdp_limits ca_checkin 2);
     CA_Elapsed_FDP_HHMM := VStr ca_elapsed;
     FO_Check_in := VStr fo_checkin;
     FO_Max_FDP_hours := VInt (calculate_fdp_limits fo_checkin 2);
     FO_Elapsed_FDP_HHMM := VStr fo_elapsed;
     Cabin_Check_in := VStr cabin_checkin;
     Cabin_Max_FDP_hours := VInt (calculate_fdp_limits cabin_checkin 2);
     Cabin_Elapsed_FDP_HHMM := VStr cabin_elapsed |}.

(** Submitting the form: with a tail number the row goes to the end of the
    table, without one nothing happens.  (A numeric column of the table
    holds the limit as the float of the same value.) *)
Definition add_aircraft (table : list aircraft_row)
  (tail_number ca_checkin fo_checkin cabin_checkin
   ca_elapsed fo_elapsed cabin_elapsed : string) : list aircraft_row :=
  match tail_number with
  | EmptyString => table
  | _ =>
      (table ++ [new_aircraft tail_number ca_checkin fo_checkin cabin_checkin
                              ca_elapsed fo_elapsed cabin_elapsed])%list
  end.

(** ** Clock texts *)

(** The clock text of the minute [k] of a day. *)
Definition clock (k : Z) : string :=
  format_02d (k / 60) ++ format_02d (k mod 60).

(** Four digits, the first two below 24 and the last two below 60. *)
Definition clock_text (t : string) : bool :=
  match t with
  | String a (String b (String c (String d EmptyString))) =>
      Str.is_digit a && Str.is_digit b && Str.is_digit c && Str.is_digit d
      && (10 * Str.digit_val a + Str.digit_val b <? 24)
      && (10 * Str.digit_val c + Str.digit_val d <? 60)
  | _ => false
  end.

(** ** Infinite input *)

(** [float(hhmm)] is an infinity, or raises for an integer beyond the
    floats. *)
Definition overflows (hhmm : pyval) : Prop :=
  py_float hhmm = Raise OverflowError \/ exists neg, py_float hhmm = Ok (FInf neg).

(** ** Rows under the button *)

(** The inner loop on a row of the table. *)
Definition advance_row (numeric : string -> bool) (aircraft : aircraft_row)
  : aircraft_row * option exn :=
  advance_columns numeric elapsed_columns aircraft aircraft.

(** The columns the button does not write agree. *)
Definition same_fixed_cells (a b : aircraft_row) : Prop :=
  Tail_Number a = Tail_Number b /\
  CA_Check_in a = CA_Check_in b /\
  CA_Max_FDP_hours a = CA_Max_FDP_hours b /\
  FO_Check_in a = FO_Check_in b /\
  FO_Max_FDP_hours a = FO_Max_FDP_hours b /\
  Cabin_Check_in a = Cabin_Check_in b /\
  Cabin_Max_FDP_hours a = Cabin_Max_FDP_hours b.

(** Each elapsed cell of [b] is what a click leaves of that of [a]. *)
Definition advanced_cells (a b : aircraft_row) : Prop :=
  advance_cell (CA_Elapsed_FDP_HHMM a) = Ok (CA_Elapsed_FDP_HHMM b) /\
  advance_cell (FO_Elapsed_FDP_HHMM a) = Ok (FO_Elapsed_FDP_HHMM b) /\
  advance_cell (Cabin_Elapsed_FDP_HHMM a) = Ok (Cabin_Elapsed_FDP_HHMM b).

(** A cell the click gets past: it is not infinite, and in a numeric
    column it is the text "0000", which is not written. *)
Definition cell_passes (numeric : string -> bool) (col : string) (c : pyval)
  : Prop :=
  ~ overflows c /\ (numeric col = true -> c = VStr "0000").

Definition row_passes (numeric : string -> bool) (a : aircraft_row) : Prop :=
  cell_passes numeric "CA Elapsed FDP (HHMM)" (CA_Elapsed_FDP_HHMM a) /\
  cell_passes numeric "FO Elapsed FDP (HHMM)" (FO_Elapsed_FDP_HHMM a) /\
  cell_passes numeric "Cabin Elapsed FDP (HHMM)" (Cabin_Elapsed_FDP_HHMM a).

(** The exception a cell that the click does not get past raises. *)
Definition raised_by (c : pyval) (e : exn) : Prop :=
  (overflows c -> e = OverflowError) /\ (~ overflows c -> e = TypeError).

(** The elapsed columns hold texts, as the application builds them. *)
Definition text_columns (numeric : string -> bool) : Prop :=
  forall col, In col elapsed_columns -> numeric col = false.

(** A row with an infinite first-officer cell. *)
Definition endless_first_officer : aircraft_row :=
  sample_row "N456BB" "0600" "0600" "0530" 14 14 14 "0830" "inf" "0900".

(** ** Cards by class *)

(** The number of cards of the class [c] among those drawn. *)
Definition cards_of_class (c : string) (cards : list (result aircraft_card)) : nat :=
  List.length
    (filter (fun r => match r with
                      | Ok card => String.eqb (card_class card) c
                      | Raise _ => false
                      end) cards).

(** Some entry of the dictionary has the status [s]. *)
Definition has_status (s : string) (d : dict progress_data) : Prop :=
  exists key data, In (key, data) d /\ status data = s.

(** ** Tiers of whole minutes *)

(** The colour and status [calculate_progress_data] gives [r] minutes. *)
Definition tier_of_minutes (r : Z) : string * string :=
  if r <=? 60 then ("#e74c3c", "critical")
  else if r <=? 120 then ("#f39c12", "warning")
  else ("#2ecc71", "ok").

(** A maximum that is a number and is not above 0. *)
Definition not_positive (v : pyval) : Prop :=
  match v with
  | VInt h => h <= 0
  | VFloat f => Float.leb f 0 = true
  | _ => False
  end.

(** The dictionary for a maximum that is not above 0. *)
Definition spent_data (elapsed : pyval) : progress_data :=
  {| progress_percent := VInt 0;
     remaining_hhmm := "0000";
     elapsed_hhmm := elapsed;
     max_hhmm := "0000";
     color := "#e74c3c";
     status := "critical" |}.

(** * Properties *)

(** ** Results *)

Lemma bind_ok {A B : Type} (r : result A) (k : A -> result B) (b : B) :
  bind r k = Ok b -> exists a, r = Ok a /\ k a = Ok b.
Proof.
  destruct r as [a | e]; simpl; intros H.
  - exists a. split; [reflexivity | exact H].
  - discriminate H.
Qed.

(** ** Digits *)

Lemma digit_val_range (c : ascii) :
  Str.is_digit c = true -> 0 <= Str.digit_val c <= 9.
Proof.
  unfold Str.is_digit, Str.digit_val. intros H.
  apply andb_true_iff in H. destruct H as [H1 H2].
  apply N.leb_le in H1. apply N.leb_le in H2. lia.
Qed.

(** A digit run of [length cs] characters, started at [acc], stays within
    the numbers that begin with [acc]. *)
Lemma digitpart_from_bound (cs : list ascii) :
  forall acc n b z k,
    0 <= acc ->
    Str.digitpart_from acc n b cs = Some (z, k) ->
    acc <= z < (acc + 1) * 10 ^ Z.of_nat (List.length cs).
Proof.
  induction cs as [| c r IH]; intros acc n b z k Hacc H.
  - simpl in H. destruct b; [| discriminate H].
    injection H as <- _. simpl. lia.
  - cbn [Str.digitpart_from] in H.
    replace (Z.of_nat (List.length (c :: r))) with (1 + Z.of_nat (List.length r))
      by (simpl List.length; lia).
    rewrite Z.pow_add_r by lia. change (10 ^ 1) with 10.
    assert (Hp : 0 < 10 ^ Z.of_nat (List.length r)) by (apply Z.pow_pos_nonneg; lia).
    destruct (Str.is_digit c) eqn:Hd.
    + pose proof (digit_val_range c Hd) as Hv.
      apply IH in H; [| lia]. nia.
    + destruct (Str.is_underscore c && b)%bool; [| discriminate H].
      apply IH in H; [| lia]. nia.
Qed.

Lemma drop_while_length (p : ascii -> bool) (cs : list ascii) :
  (List.length (Str.drop_while p cs) <= List.length cs)%nat.
Proof.
  induction cs as [| c r IH]; simpl; [lia |].
  destruct (p c); simpl; lia.
Qed.

Lemma strip_length (cs : list ascii) :
  (List.length (Str.strip cs) <= List.length cs)%nat.
Proof.
  unfold Str.strip. rewrite length_rev.
  etransitivity; [apply drop_while_length |].
  rewrite length_rev. apply drop_while_length.
Qed.

Lemma split_sign_length (cs : list ascii) :
  (List.length (snd (Str.split_sign cs)) <= List.length cs)%nat.
Proof.
  destruct cs as [| c r]; simpl; [lia |].
  destruct (Str.is_minus c); simpl; [lia |].
  destruct (Str.is_plus c); simpl; lia.
Qed.

(** [int(s)] of a text of [n] characters lies strictly between [-10^n] and
    [10^n]. *)
Lemma int_of_str_bound (s : string) (z : Z) :
  int_of_str s = Ok z ->
  Z.abs z < 10 ^ Z.of_nat (String.length s).
Proof.
  unfold int_of_str.
  pose proof (split_sign_length (Str.strip (list_ascii_of_string s))) as Hl.
  pose proof (strip_length (list_ascii_of_string s)) as Hs.
  destruct (Str.split_sign (Str.strip (list_ascii_of_string s))) as [neg ds].
  simpl in Hl.
  destruct (Str.digitpart ds) as [[n k] |] eqn:Hd; [| discriminate].
  intros H. injection H as <-.
  apply digitpart_from_bound in Hd; [| lia].
  assert (Hle : 10 ^ Z.of_nat (List.length ds) <= 10 ^ Z.of_nat (String.length s)).
  { apply Z.pow_le_mono_r; [lia |].
    assert (Hlen : String.length s = List.length (list_ascii_of_string s)).
    { clear. induction s as [| c r IH]; simpl; congruence. }
    lia. }
  destruct neg; lia.
Qed.

Lemma take_length (n : nat) (s : string) :
  (String.length (Str.take n s) <= n)%nat.
Proof.
  revert s. induction n as [| n IH]; intros [| c r]; simpl; try lia.
  specialize (IH r). lia.
Qed.

(** The hour [calculate_fdp_limits] reads has at most two digits. *)
Lemma fdp_hours_below_100 (start_time_hhmm : string) (hours : Z) :
  int_of_str (Str.take 2 (Str.zfill 4 start_time_hhmm)) = Ok hours ->
  -100 < hours < 100.
Proof.
  intros H. apply int_of_str_bound in H.
  pose proof (take_length 2 (Str.zfill 4 start_time_hhmm)) as Hl.
  assert (10 ^ Z.of_nat (String.length (Str.take 2 (Str.zfill 4 start_time_hhmm)))
          <= 10 ^ 2) by (apply Z.pow_le_mono_r; lia).
  change (10 ^ 2) with 100 in *. lia.
Qed.

(** Whatever the check-in text, only the last row of the table or the
    fallback is ever returned. *)
Lemma calculate_fdp_limits_values (start_time_hhmm : string) (segments : Z) :
  calculate_fdp_limits start_time_hhmm segments = 9 \/
  calculate_fdp_limits start_time_hhmm segments = (if segments <=? 2 then 11 else 10).
Proof.
  unfold calculate_fdp_limits, calculate_fdp_limits_try.
  destruct (int_of_str (Str.take 2 (Str.zfill 4 start_time_hhmm))) as [hours | e] eqn:Hh;
    simpl; [| left; reflexivity].
  apply fdp_hours_below_100 in Hh. right.
  replace (500 <=? hours) with false by (symmetry; apply Z.leb_gt; lia).
  replace (800 <=? hours) with false by (symmetry; apply Z.leb_gt; lia).
  replace (1300 <=? hours) with false by (symmetry; apply Z.leb_gt; lia).
  reflexivity.
Qed.

(** C1. At the check-in times the band table names, [calculate_fdp_limits]
    with two segments returns 11 hours: the hour it compares is the first two
    digits (05, 08, 13, 04), never within 500..759, 800..1259 or 1300..1659,
    so the bands of 14, 13 and 12 hours are not taken for "0500", "0800" and
    "1300", and no check-in text at all yields 12, 13 or 14. *)
Theorem calculate_fdp_limits_table_edges :
  calculate_fdp_limits "0500" 2 = 11 /\
  calculate_fdp_limits "0800" 2 = 11 /\
  calculate_fdp_limits "1300" 2 = 11 /\
  calculate_fdp_limits "0459" 2 = 11 /\
  calculate_fdp_limits "0759" 3 = 10 /\
  forall start_time_hhmm segments,
    calculate_fdp_limits start_time_hhmm segments < 12.
Proof.
  repeat (split; [reflexivity |]).
  intros s n. destruct (calculate_fdp_limits_values s n) as [-> | ->]; [lia |].
  destruct (n <=? 2); lia.
Qed.

(** ** Time codec *)

Lemma below_forallb (p : Z -> bool) (n : Z) :
  forallb p (below n) = true ->
  forall z, 0 <= z < n -> p z = true.
Proof.
  intros H z Hz. rewrite forallb_forall in H. apply H.
  unfold below. apply in_map_iff. exists (Z.to_nat z). split; [lia |].
  apply in_seq. lia.
Qed.

(** Whenever the decoder returns, it returns a minute of the day. *)
Lemma hhmm_to_minutes_try_range (hhmm : pyval) (m : Z) :
  hhmm_to_minutes_try hhmm = Ok m -> 0 <= m <= 1439.
Proof.
  unfold hhmm_to_minutes_try, hours_minutes. intros H.
  apply bind_ok in H as (n & _ & H).
  apply bind_ok in H as (hours & _ & H).
  apply bind_ok in H as (minutes & _ & H).
  destruct ((hours <? 0) || (hours >? 23) || (minutes <? 0) || (minutes >? 59))%bool
    eqn:Hc; injection H as <-; [lia |].
  repeat (apply orb_false_iff in Hc; destruct Hc as [Hc ?]).
  lia.
Qed.

Lemma hhmm_to_minutes_range (hhmm : pyval) (m : Z) :
  hhmm_to_minutes hhmm = Ok m -> 0 <= m <= 1439.
Proof.
  unfold hhmm_to_minutes.
  destruct (pd_isna hhmm || is_empty_str hhmm || is_none hhmm)%bool.
  - intros H. injection H as <-. lia.
  - destruct (hhmm_to_minutes_try hhmm) as [k | e] eqn:Ht; simpl.
    + intros H. injection H as <-. exact (hhmm_to_minutes_try_range _ _ Ht).
    + destruct e; intros H; try discriminate H; injection H as <-; lia.
Qed.

Lemma of_str_raises (s : string) (e : exn) :
  Float.of_str s = Raise e -> e = ValueError.
Proof.
  unfold Float.of_str.
  destruct (Str.split_sign (Str.strip (list_ascii_of_string s))) as [neg cs].
  destruct (_ || _)%bool; [discriminate |].
  destruct (String.eqb _ "nan"); [discriminate |].
  destruct (Float.decimal cs); [discriminate |].
  intros H. injection H as <-. reflexivity.
Qed.

(** A value that [int(float(.))] converts is neither missing nor empty. *)
Lemma int_float_present (hhmm : pyval) (n : Z) :
  int_float hhmm = Ok n ->
  (pd_isna hhmm || is_empty_str hhmm || is_none hhmm)%bool = false.
Proof.
  destruct hhmm as [| z | [| neg | q] | [| c r]]; try reflexivity;
    cbv; discriminate.
Qed.

Lemma hours_minutes_four_digits_check :
  forallb
    (fun n =>
       match hours_minutes n with
       | Ok m => m =? split_four n
       | Raise _ => false
       end)
    (below 10000) = true.
Proof. vm_compute. reflexivity. Qed.

Lemma hours_minutes_four_digits (n : Z) :
  0 <= n <= 9999 -> hours_minutes n = Ok (split_four n).
Proof.
  intros Hn.
  pose proof (below_forallb _ _ hours_minutes_four_digits_check n) as H.
  cbv beta in H. destruct (hours_minutes n) as [m | e].
  - f_equal. apply Z.eqb_eq. apply H. lia.
  - discriminate H. lia.
Qed.

(** ** Decimal texts *)

(** The value of a run of digits read after the number [acc]. *)
Lemma of_uint_acc_value (d : Decimal.uint) :
  forall acc,
    Z.pos (Pos.of_uint_acc d acc)
    = Z.pos acc * 10 ^ Z.of_nat (Decimal.nb_digits d) + Z.of_N (Pos.of_uint d).
Proof.
  induction d; intros acc;
    cbn [Pos.of_uint_acc Pos.of_uint Decimal.nb_digits];
    try (rewrite Nat2Z.inj_succ, Z.pow_succ_r by lia);
    try rewrite IHd;
    try (rewrite N2Z.inj_pos, (IHd (_ : positive)));
    simpl Z.of_N; try rewrite Z.pow_0_r; lia.
Qed.

Lemma of_uint_bound (d : Decimal.uint) :
  0 <= Z.of_N (Pos.of_uint d) < 10 ^ Z.of_nat (Decimal.nb_digits d).
Proof.
  induction d;
    cbn [Pos.of_uint Decimal.nb_digits];
    try (rewrite Nat2Z.inj_succ, Z.pow_succ_r by lia);
    try (rewrite N2Z.inj_pos, of_uint_acc_value);
    simpl Z.of_N; try rewrite Z.pow_0_r; lia.
Qed.

(** Reading the digits of [d] back, from a number already read. *)
Lemma digitpart_from_uint_acc (d : Decimal.uint) :
  forall acc n,
    Str.digitpart_from (Z.pos acc) n true
      (list_ascii_of_string (NilEmpty.string_of_uint d))
    = Some (Z.pos (Pos.of_uint_acc d acc), (n + Decimal.nb_digits d)%nat).
Proof.
  induction d; intros acc n;
    cbn [NilEmpty.string_of_uint list_ascii_of_string Str.digitpart_from
         Pos.of_uint_acc Decimal.nb_digits];
    [ f_equal; f_equal; lia
    | change (Str.is_digit _) with true; cbv iota;
      match goal with
      | |- Str.digitpart_from ?a _ _ _ = _ =>
          match goal with
          | |- _ = Some (Z.pos (Pos.of_uint_acc _ ?p), _) =>
              replace a with (Z.pos p)
                by (match goal with
                    | |- context [Str.digit_val ?c] =>
                        let v := eval vm_compute in (Str.digit_val c) in
                        change (Str.digit_val c) with v
                    end; lia)
          end
      end;
      rewrite IHd; f_equal; f_equal; lia .. ].
Qed.

Lemma digitpart_from_uint (d : Decimal.uint) :
  forall n b,
    b = true \/ d <> Decimal.Nil ->
    Str.digitpart_from 0 n b
      (list_ascii_of_string (NilEmpty.string_of_uint d))
    = Some (Z.of_N (Pos.of_uint d), (n + Decimal.nb_digits d)%nat).
Proof.
  induction d; intros n b Hb;
    cbn [NilEmpty.string_of_uint list_ascii_of_string Str.digitpart_from
         Pos.of_uint Decimal.nb_digits];
    [ destruct Hb as [-> | Hb]; [| contradiction]; f_equal; f_equal; lia
    | change (Str.is_digit _) with true; cbv iota;
      change (10 * 0 + Str.digit_val "0") with 0;
      rewrite IHd by (left; reflexivity); f_equal; f_equal; lia
    | change (Str.is_digit _) with true; cbv iota;
      match goal with
      | |- context [10 * 0 + Str.digit_val ?c] =>
          let v := eval vm_compute in (10 * 0 + Str.digit_val c) in
          change (10 * 0 + Str.digit_val c) with v
      end;
      rewrite digitpart_from_uint_acc; f_equal; f_equal; lia .. ].
Qed.

Lemma digit_not_blank (c : ascii) :
  Str.is_digit c = true ->
  Str.is_space c = false /\ Str.is_minus c = false /\ Str.is_plus c = false.
Proof.
  unfold Str.is_digit, Str.is_space, Str.is_minus, Str.is_plus.
  intros H. apply andb_true_iff in H as [H1 H2].
  apply N.leb_le in H1. apply N.leb_le in H2. cbv zeta.
  repeat split.
  - repeat (apply orb_false_iff; split);
      [ apply andb_false_iff; right; apply N.leb_gt; lia
      | apply N.eqb_neq; lia .. ].
  - apply N.eqb_neq. lia.
  - apply N.eqb_neq. lia.
Qed.

Lemma uint_chars_digits (d : Decimal.uint) :
  Forall (fun c => Str.is_digit c = true)
         (list_ascii_of_string (NilEmpty.string_of_uint d)).
Proof.
  induction d; cbn [NilEmpty.string_of_uint list_ascii_of_string];
    constructor; solve [reflexivity | assumption].
Qed.

Lemma drop_while_digits (cs : list ascii) :
  Forall (fun c => Str.is_digit c = true) cs ->
  Str.drop_while Str.is_space cs = cs.
Proof.
  intros H. destruct H as [| c r Hc _]; [reflexivity |].
  simpl. destruct (digit_not_blank c Hc) as (-> & _). reflexivity.
Qed.

Lemma strip_digits (cs : list ascii) :
  Forall (fun c => Str.is_digit c = true) cs -> Str.strip cs = cs.
Proof.
  intros H. unfold Str.strip.
  rewrite (drop_while_digits cs H).
  rewrite drop_while_digits by (apply Forall_rev; exact H).
  apply rev_involutive.
Qed.

Lemma split_sign_digits (cs : list ascii) :
  Forall (fun c => Str.is_digit c = true) cs ->
  Str.split_sign cs = (false, cs).
Proof.
  intros H. destruct H as [| c r Hc _]; [reflexivity |].
  simpl. destruct (digit_not_blank c Hc) as (_ & -> & ->). reflexivity.
Qed.

(** [int()] reads the digits of a decimal back. *)
Lemma int_of_str_uint (d : Decimal.uint) :
  d <> Decimal.Nil ->
  int_of_str (NilEmpty.string_of_uint d) = Ok (Z.of_N (Pos.of_uint d)).
Proof.
  intros Hd. unfold int_of_str.
  rewrite (strip_digits _ (uint_chars_digits d)).
  rewrite (split_sign_digits _ (uint_chars_digits d)).
  unfold Str.digitpart.
  rewrite digitpart_from_uint by (right; exact Hd). reflexivity.
Qed.

(** The decimal of a positive number has no leading zero. *)
Lemma to_uint_leading (p : positive) (l : Decimal.uint) :
  Pos.to_uint p <> Decimal.D0 l.
Proof.
  intros E.
  pose proof (DecimalPos.Unsigned.to_of (Pos.to_uint p)) as H.
  rewrite DecimalPos.Unsigned.of_to in H. simpl N.to_uint in H.
  rewrite E in H. rewrite DecimalFacts.unorm_D0 in H.
  destruct (Decimal.nzhead l) eqn:Hz;
    [ assert (H0 : Decimal.unorm l = Decimal.D0 Decimal.Nil)
        by (apply DecimalFacts.unorm_0; exact Hz);
      rewrite H0 in H; rewrite <- E in H;
      exact (DecimalPos.Unsigned.to_uint_nonzero p H)
    | exact (DecimalFacts.nzhead_nonzero l _ Hz)
    | rewrite DecimalFacts.unorm_nzhead in H by congruence; symmetry in H;
      exact (DecimalFacts.nzhead_nonzero l l H) .. ].
Qed.

Lemma string_of_uint_length (d : Decimal.uint) :
  String.length (NilEmpty.string_of_uint d) = Decimal.nb_digits d.
Proof. induction d; simpl; congruence. Qed.

(** Cutting a decimal after its first [j] digits: the two texts are the
    decimals of the two parts, and the value is that of the first part
    shifted by the digits of the second, plus that of the second. *)
Lemma uint_split (j : nat) :
  forall d,
    (j <= Decimal.nb_digits d)%nat ->
    exists d1 d2,
      Decimal.nb_digits d1 = j /\
      (Decimal.nb_digits d = j + Decimal.nb_digits d2)%nat /\
      Str.take j (NilEmpty.string_of_uint d) = NilEmpty.string_of_uint d1 /\
      Str.drop j (NilEmpty.string_of_uint d) = NilEmpty.string_of_uint d2 /\
      Z.of_N (Pos.of_uint d)
      = Z.of_N (Pos.of_uint d1) * 10 ^ Z.of_nat (Decimal.nb_digits d2)
        + Z.of_N (Pos.of_uint d2) /\
      (forall l, d1 = Decimal.D0 l -> exists l', d = Decimal.D0 l').
Proof.
  induction j as [| j IH]; intros d Hj.
  - exists Decimal.Nil, d.
    split; [reflexivity |]. split; [reflexivity |].
    split; [destruct (NilEmpty.string_of_uint d); reflexivity |].
    split; [reflexivity |].
    split; [simpl; lia |].
    intros l E. discriminate E.
  - destruct d as [| l | l | l | l | l | l | l | l | l | l];
      [simpl in Hj; lia | ..];
      (destruct (IH l) as (l1 & l2 & H1 & H2 & H3 & H4 & H5 & _);
       [simpl in Hj; lia |]);
      [ exists (Decimal.D0 l1), l2 | exists (Decimal.D1 l1), l2
      | exists (Decimal.D2 l1), l2 | exists (Decimal.D3 l1), l2
      | exists (Decimal.D4 l1), l2 | exists (Decimal.D5 l1), l2
      | exists (Decimal.D6 l1), l2 | exists (Decimal.D7 l1), l2
      | exists (Decimal.D8 l1), l2 | exists (Decimal.D9 l1), l2 ];
      (split; [simpl; congruence |];
       split; [simpl; lia |];
       split; [simpl; congruence |];
       split; [simpl; exact H4 |];
       split;
         [ cbn [Pos.of_uint];
           first
             [ exact H5
             | rewrite !N2Z.inj_pos, !of_uint_acc_value;
               rewrite H5; rewrite H2, <- H1;
               rewrite Nat2Z.inj_add, Z.pow_add_r by lia; ring ]
         | intros l0 E; try discriminate E; eexists; reflexivity ]).
Qed.

(** A decimal that starts with a digit other than 0 is at least the power
    of ten of its length. *)
Lemma of_uint_leading (d : Decimal.uint) :
  d <> Decimal.Nil ->
  (forall l, d <> Decimal.D0 l) ->
  10 ^ (Z.of_nat (Decimal.nb_digits d) - 1) <= Z.of_N (Pos.of_uint d).
Proof.
  intros Hn Hz.
  destruct d as [| l | l | l | l | l | l | l | l | l | l];
    [contradiction | exfalso; exact (Hz l eq_refl) | ..];
    cbn [Pos.of_uint Decimal.nb_digits];
    rewrite N2Z.inj_pos, of_uint_acc_value;
    replace (Z.of_nat (S (Decimal.nb_digits l)) - 1)
      with (Z.of_nat (Decimal.nb_digits l)) by lia;
    pose proof (of_uint_bound l);
    assert (0 < 10 ^ Z.of_nat (Decimal.nb_digits l))
      by (apply Z.pow_pos_nonneg; lia);
    nia.
Qed.

(** The text of a positive number: its length is its number of digits. *)
Lemma str_of_int_pos (p : positive) :
  str_of_int (Z.pos p) = NilEmpty.string_of_uint (Pos.to_uint p) /\
  Z.of_N (Pos.of_uint (Pos.to_uint p)) = Z.pos p /\
  forall k, 0 <= k -> 10 ^ k <= Z.pos p < 10 ^ (k + 1) ->
            Z.of_nat (Decimal.nb_digits (Pos.to_uint p)) = k + 1.
Proof.
  split; [| split].
  - unfold str_of_int. simpl Z.to_int. unfold NilZero.string_of_int.
    unfold NilZero.string_of_uint.
    pose proof (DecimalPos.Unsigned.to_uint_nonnil p) as Hn.
    destruct (Pos.to_uint p); [contradiction | reflexivity ..].
  - rewrite DecimalPos.Unsigned.of_to. reflexivity.
  - intros k Hk [Hlo Hhi].
    pose proof (of_uint_bound (Pos.to_uint p)) as [_ Hb].
    pose proof (of_uint_leading (Pos.to_uint p)
                  (DecimalPos.Unsigned.to_uint_nonnil p)
                  (fun l => to_uint_leading p l)) as Hl.
    rewrite DecimalPos.Unsigned.of_to in Hb, Hl. simpl Z.of_N in Hb, Hl.
    set (L := Z.of_nat (Decimal.nb_digits (Pos.to_uint p))) in *.
    assert (HL : 0 <= L) by (unfold L; lia).
    assert (k < L).
    { apply (Z.pow_lt_mono_r_iff 10); lia. }
    assert (L - 1 < k + 1).
    { destruct (Z.eq_dec L 0) as [E | E]; [lia |].
      apply (Z.pow_lt_mono_r_iff 10); lia. }
    lia.
Qed.

(** A number of [k + 2] digits, [k >= 2]: the hour is the number made of
    its first two digits, the minute the number made of all the others. *)
Lemma hours_minutes_long (n k : Z) :
  2 <= k ->
  10 ^ (k + 1) <= n < 10 ^ (k + 2) ->
  hours_minutes n
  = Ok (if (n / 10 ^ k >? 23) || (n mod 10 ^ k >? 59) then 0
        else n / 10 ^ k * 60 + n mod 10 ^ k).
Proof.
  intros Hk Hn.
  assert (Hp : 0 < 10 ^ (k + 1)) by (apply Z.pow_pos_nonneg; lia).
  destruct n as [| p | p]; try lia.
  destruct (str_of_int_pos p) as (Hs & Hv & Hlen).
  specialize (Hlen (k + 1) ltac:(lia)).
  replace (k + 1 + 1) with (k + 2) in Hlen by lia.
  specialize (Hlen Hn).
  destruct (uint_split 2 (Pos.to_uint p) ltac:(lia))
    as (d1 & d2 & H1 & H2 & H3 & H4 & H5 & H6).
  assert (Hk2 : Z.of_nat (Decimal.nb_digits d2) = k) by lia.
  rewrite Hv, Hk2 in H5.
  pose proof (of_uint_bound d1) as B1. rewrite H1 in B1.
  change (10 ^ Z.of_nat 2) with 100 in B1.
  pose proof (of_uint_bound d2) as B2. rewrite Hk2 in B2.
  assert (Hq : Z.pos p / 10 ^ k = Z.of_N (Pos.of_uint d1)).
  { symmetry. apply Z.div_unique with (r := Z.of_N (Pos.of_uint d2)); lia. }
  assert (Hr : Z.pos p mod 10 ^ k = Z.of_N (Pos.of_uint d2)).
  { symmetry. apply Z.mod_unique with (q := Z.of_N (Pos.of_uint d1)); lia. }
  rewrite Hq, Hr.
  unfold hours_minutes. cbv zeta. rewrite Hs.
  assert (Hz : Str.zfill 4 (NilEmpty.string_of_uint (Pos.to_uint p))
               = NilEmpty.string_of_uint (Pos.to_uint p)).
  { unfold Str.zfill. rewrite string_of_uint_length.
    replace (4 <=? Decimal.nb_digits (Pos.to_uint p))%nat with true;
      [reflexivity |].
    symmetry. apply Nat.leb_le. lia. }
  rewrite Hz, H3, H4.
  rewrite (int_of_str_uint d1) by (intros E; rewrite E in H1; discriminate H1).
  rewrite (int_of_str_uint d2)
    by (intros E; rewrite E in Hk2; simpl in Hk2; lia).
  cbn [bind].
  replace (Z.of_N (Pos.of_uint d1) <? 0) with false
    by (symmetry; apply Z.ltb_ge; lia).
  replace (Z.of_N (Pos.of_uint d2) <? 0) with false
    by (symmetry; apply Z.ltb_ge; lia).
  cbn [orb].
  rewrite orb_false_r.
  destruct ((Z.of_N (Pos.of_uint d1) >? 23) || (Z.of_N (Pos.of_uint d2) >? 59))%bool;
    reflexivity.
Qed.

Lemma hours_minutes_small_negative_check :
  forallb
    (fun i =>
       match hours_minutes (- i) with
       | Ok m => m =? (if i <=? 59 then i else 0)
       | Raise _ => false
       end)
    (below 100) = true.
Proof. vm_compute. reflexivity. Qed.

Lemma int_of_str_minus_uint (d : Decimal.uint) :
  d <> Decimal.Nil ->
  int_of_str (String "-" (NilEmpty.string_of_uint d))
  = Ok (- Z.of_N (Pos.of_uint d)).
Proof.
  intros Hd. unfold int_of_str.
  pose proof (uint_chars_digits d) as Hf.
  set (cs := list_ascii_of_string (NilEmpty.string_of_uint d)) in *.
  assert (Hne : cs <> []).
  { unfold cs. destruct d; try contradiction; discriminate. }
  assert (Hs : Str.strip (list_ascii_of_string
                            (String "-" (NilEmpty.string_of_uint d)))
               = "-"%char :: cs).
  { cbn [list_ascii_of_string]. fold cs. unfold Str.strip.
    change (Str.drop_while Str.is_space ("-"%char :: cs)) with ("-"%char :: cs).
    cbn [rev].
    assert (Hr : Forall (fun c => Str.is_digit c = true) (rev cs))
      by (apply Forall_rev; exact Hf).
    destruct (rev cs) as [| c r] eqn:E.
    - exfalso. apply Hne. rewrite <- (rev_involutive cs), E. reflexivity.
    - inversion Hr as [| ? ? Hc _]; subst.
      cbn [app Str.drop_while].
      destruct (digit_not_blank c Hc) as (-> & _).
      change (c :: r ++ ["-"%char])%list with ((c :: r) ++ ["-"%char])%list.
      rewrite <- E, rev_app_distr, rev_involutive. reflexivity. }
  rewrite Hs.
  change (Str.split_sign ("-"%char :: cs)) with (true, cs).
  unfold Str.digitpart, cs.
  rewrite digitpart_from_uint by (right; exact Hd). reflexivity.
Qed.

(** A negative number: down to -59 the minute is its absolute value and the
    hour "-0"; from -100 on the hour is negative. *)
Lemma hours_minutes_negative (n : Z) :
  n < 0 ->
  hours_minutes n = Ok (if -59 <=? n then - n else 0).
Proof.
  intros Hn. destruct (Z_le_gt_dec (-99) n) as [Hs | Hl].
  - pose proof (below_forallb _ _ hours_minutes_small_negative_check (- n)
                  ltac:(lia)) as H.
    cbv beta in H. rewrite Z.opp_involutive in H.
    destruct (hours_minutes n) as [m | e]; [| discriminate H].
    apply Z.eqb_eq in H. subst m. f_equal.
    destruct (Z.leb_spec (- n) 59); destruct (Z.leb_spec (-59) n);
      solve [reflexivity | lia].
  - replace (-59 <=? n) with false by (symmetry; apply Z.leb_gt; lia).
    destruct n as [| p | p]; try lia.
    assert (Hs : str_of_int (Z.neg p)
                 = String "-" (NilEmpty.string_of_uint (Pos.to_uint p))).
    { unfold str_of_int. simpl Z.to_int. unfold NilZero.string_of_int.
      unfold NilZero.string_of_uint.
      pose proof (DecimalPos.Unsigned.to_uint_nonnil p) as Hnn.
      destruct (Pos.to_uint p); [contradiction | reflexivity ..]. }
    destruct (str_of_int_pos p) as (_ & Hv & _).
    pose proof (of_uint_bound (Pos.to_uint p)) as [_ Hb].
    rewrite Hv in Hb.
    assert (Hlen : (3 <= Decimal.nb_digits (Pos.to_uint p))%nat).
    { destruct (Decimal.nb_digits (Pos.to_uint p)) as [| [| [| j]]];
        try lia; simpl in Hb; lia. }
    destruct (uint_split 1 (Pos.to_uint p) ltac:(lia))
      as (d1 & d2 & H1 & H2 & H3 & H4 & H5 & H6).
    assert (Hd1 : d1 <> Decimal.Nil)
      by (intros E; rewrite E in H1; discriminate H1).
    assert (Hd2 : d2 <> Decimal.Nil)
      by (intros E; rewrite E in H2; simpl in H2; lia).
    assert (Hlead : 1 <= Z.of_N (Pos.of_uint d1)).
    { pose proof (of_uint_leading d1 Hd1) as Hl1. rewrite H1 in Hl1.
      apply Hl1. intros l E. destruct (H6 l E) as (l' & E').
      exact (to_uint_leading p l' E'). }
    unfold hours_minutes. cbv zeta. rewrite Hs.
    assert (Hz : Str.zfill 4 (String "-" (NilEmpty.string_of_uint (Pos.to_uint p)))
                 = String "-" (NilEmpty.string_of_uint (Pos.to_uint p))).
    { unfold Str.zfill. cbn [String.length]. rewrite string_of_uint_length.
      replace (4 <=? S (Decimal.nb_digits (Pos.to_uint p)))%nat with true;
        [reflexivity |].
      symmetry. apply Nat.leb_le. lia. }
    rewrite Hz.
    change (Str.take 2 (String "-" ?s)) with (String "-" (Str.take 1 s)).
    change (Str.drop 2 (String "-" ?s)) with (Str.drop 1 s).
    rewrite H3, H4.
    rewrite (int_of_str_minus_uint d1 Hd1), (int_of_str_uint d2 Hd2).
    cbn [bind].
    replace (- Z.of_N (Pos.of_uint d1) <? 0) with true
      by (symmetry; apply Z.ltb_lt; lia).
    reflexivity.
Qed.

(** C5, as the code has it.  Missing ([None], NaN), empty and unparseable
    input ([float()] raising [ValueError] or [TypeError], or giving NaN)
    decodes to 0 without raising.  Otherwise the result depends on the
    integer part [n] of the input, whose text is padded to four characters:
    the hour is read from the first two characters and the minute from all
    the others, and an hour above 23 or a minute above 59 gives 0.
    - [0 <= n <= 9999]: the hour is [n / 100], the minute [n mod 100].
    - [n] of [k + 2] digits, [k >= 2]: the hour is [n / 10 ^ k], the number
      of the first two digits, and the minute [n mod 10 ^ k], the number of
      all the others, not of the last two; 10000 decodes to 600, 23059 to
      1439 and 12345 to 0.
    - [n < 0]: from -1 to -59 the hour is "-0" and the result [- n]; below,
      the minute exceeds 59 or the hour is negative, and the result is 0.
    Input that [float()] turns into an infinity, or an integer beyond the
    floats, is not decoded: [OverflowError] is raised. *)
Theorem hhmm_to_minutes_decoding (hhmm : pyval) :
  ((pd_isna hhmm || is_empty_str hhmm || is_none hhmm)%bool = true ->
   hhmm_to_minutes hhmm = Ok 0) /\
  (py_float hhmm = Raise ValueError \/ py_float hhmm = Raise TypeError \/
   py_float hhmm = Ok FNan ->
   hhmm_to_minutes hhmm = Ok 0) /\
  (forall n, int_float hhmm = Ok n -> 0 <= n <= 9999 ->
   hhmm_to_minutes hhmm = Ok (split_four n)) /\
  (forall n k, int_float hhmm = Ok n ->
   2 <= k -> 10 ^ (k + 1) <= n < 10 ^ (k + 2) ->
   hhmm_to_minutes hhmm
   = Ok (if (n / 10 ^ k >? 23) || (n mod 10 ^ k >? 59) then 0
         else n / 10 ^ k * 60 + n mod 10 ^ k)) /\
  (forall n, int_float hhmm = Ok n -> n < 0 ->
   hhmm_to_minutes hhmm = Ok (if -59 <=? n then - n else 0)) /\
  (py_float hhmm = Raise OverflowError \/
   (exists neg, py_float hhmm = Ok (FInf neg)) ->
   hhmm_to_minutes hhmm = Raise OverflowError) /\
  hhmm_to_minutes (VInt 12345) = Ok 0 /\
  hhmm_to_minutes (VInt 10000) = Ok 600 /\
  hhmm_to_minutes (VInt 23059) = Ok 1439 /\
  hhmm_to_minutes (VInt (-30)) = Ok 30 /\
  hhmm_to_minutes (VInt (-430)) = Ok 0.
Proof.
  assert (Hint : forall n m, int_float hhmm = Ok n -> hours_minutes n = Ok m ->
                             hhmm_to_minutes hhmm = Ok m).
  { intros n m Hn Hm. unfold hhmm_to_minutes, hhmm_to_minutes_try.
    rewrite (int_float_present _ _ Hn), Hn. cbn [bind]. rewrite Hm.
    reflexivity. }
  split; [| split; [| split; [| split; [| split; [| split]]]]].
  - unfold hhmm_to_minutes. intros ->. reflexivity.
  - unfold hhmm_to_minutes, hhmm_to_minutes_try, int_float.
    destruct (pd_isna hhmm || is_empty_str hhmm || is_none hhmm)%bool;
      [reflexivity |].
    intros [-> | [-> | ->]]; reflexivity.
  - intros n Hn Hr. apply (Hint n _ Hn). exact (hours_minutes_four_digits n Hr).
  - intros n k Hn Hk Hr. apply (Hint n _ Hn).
    exact (hours_minutes_long n k Hk Hr).
  - intros n Hn Hneg. apply (Hint n _ Hn).
    exact (hours_minutes_negative n Hneg).
  - intros H. unfold hhmm_to_minutes, hhmm_to_minutes_try, int_float.
    assert (G : (pd_isna hhmm || is_empty_str hhmm || is_none hhmm)%bool = false).
    { destruct hhmm as [| z | [| neg | q] | [| c r]]; try reflexivity;
        destruct H as [H | [neg' H]]; cbv in H; discriminate H. }
    rewrite G. destruct H as [-> | [neg ->]]; reflexivity.
  - repeat split; vm_compute; reflexivity.
Qed.

Lemma hhmm_to_minutes_decoding_witness :
  hhmm_to_minutes (VStr "0430") = Ok 270.
Proof.
  apply (proj1 (proj2 (proj2 (hhmm_to_minutes_decoding (VStr "0430")))) 430);
    [reflexivity | lia].
Defined.

(** C5, as worded, fails on a five-digit value: the minute of 12345 is 345
    in the code (so the result is 0), where the last two digits would give
    12 h 45 min. *)
Lemma hhmm_to_minutes_five_digits :
  hhmm_to_minutes (VInt 12345) = Ok 0 /\
  decode_as_specified (VInt 12345) = Ok 765 /\
  hhmm_to_minutes (VInt 12345) <> decode_as_specified (VInt 12345).
Proof.
  assert (H1 : hhmm_to_minutes (VInt 12345) = Ok 0) by reflexivity.
  assert (H2 : decode_as_specified (VInt 12345) = Ok 765) by reflexivity.
  rewrite H1, H2. repeat split. discriminate.
Qed.

(** C10. On the text "inf" (and on any value [float()] turns into an
    infinity) [hhmm_to_minutes] returns no integer: [int()] raises
    [OverflowError], which its [except (ValueError, TypeError)] lets through. *)
Theorem hhmm_to_minutes_infinity :
  hhmm_to_minutes (VStr "inf") = Raise OverflowError /\
  hhmm_to_minutes (VStr "1e400") = Raise OverflowError /\
  hhmm_to_minutes (VFloat (FInf false)) = Raise OverflowError.
Proof. repeat split; vm_compute; reflexivity. Qed.

Lemma decode_encode_day_check :
  forallb
    (fun k =>
       match hhmm_to_minutes
               (VStr (format_02d (k / 60) ++ format_02d (k mod 60))) with
       | Ok m => m =? k
       | Raise _ => false
       end)
    (below 1440) = true.
Proof. vm_compute. reflexivity. Qed.

Lemma decode_encode_day (k : Z) :
  0 <= k < 1440 ->
  hhmm_to_minutes (VStr (format_02d (k / 60) ++ format_02d (k mod 60))) = Ok k.
Proof.
  intros Hk.
  pose proof (below_forallb _ _ decode_encode_day_check k Hk) as H.
  cbv beta in H.
  destruct (hhmm_to_minutes _) as [m | e]; [| discriminate H].
  f_equal. apply Z.eqb_eq. exact H.
Qed.

(** The clock an integer number of minutes encodes to. *)
Lemma minutes_to_hhmm_int (m : Z) :
  0 < m ->
  minutes_to_hhmm (VInt m)
  = Ok (format_02d ((m mod 1440) / 60) ++ format_02d ((m mod 1440) mod 60)).
Proof.
  intros Hm. unfold minutes_to_hhmm. simpl py_le. simpl bind.
  replace (m <=? 0) with false by (symmetry; apply Z.leb_gt; lia).
  simpl py_int. simpl bind. cbv zeta.
  assert (E : m mod 1440 = m mod 60 + 60 * ((m / 60) mod 24))
    by (change 1440 with (60 * 24); apply Z.rem_mul_r; lia).
  pose proof (Z.mod_pos_bound m 60 ltac:(lia)) as B1.
  pose proof (Z.mod_pos_bound (m / 60) 24 ltac:(lia)) as B2.
  assert (Hh : (m mod 1440) / 60 = (m / 60) mod 24).
  { rewrite E. symmetry. apply Z.div_unique with (r := m mod 60); lia. }
  assert (Hr : (m mod 1440) mod 60 = m mod 60).
  { rewrite E. symmetry.
    apply Z.mod_unique with (q := (m / 60) mod 24); lia. }
  rewrite Hh, Hr.
  destruct (m / 60 >=? 24) eqn:Hc; [reflexivity |].
  rewrite Z.geb_leb in Hc. apply Z.leb_gt in Hc.
  rewrite (Z.mod_small (m / 60) 24); [reflexivity |].
  split; [apply Z.div_pos; lia | lia].
Qed.

(** C6. For every integer [m >= 0], encoding succeeds and decoding the
    clock text gives [m mod 1440]. *)
Theorem decode_encode_wraps (m : Z) :
  0 <= m ->
  exists clock,
    minutes_to_hhmm (VInt m) = Ok clock /\
    hhmm_to_minutes (VStr clock) = Ok (m mod 1440).
Proof.
  intros Hm. destruct (Z.eq_dec m 0) as [-> | Hz].
  - exists "0000". split; reflexivity.
  - eexists. split; [apply minutes_to_hhmm_int; lia |].
    apply decode_encode_day. apply Z.mod_pos_bound. lia.
Qed.

Lemma decode_encode_wraps_witness :
  exists clock,
    minutes_to_hhmm (VInt 1500) = Ok clock /\
    hhmm_to_minutes (VStr clock) = Ok (1500 mod 1440).
Proof. apply (decode_encode_wraps 1500). lia. Defined.

(** ** Rounding *)

Module FloatFacts.

Local Open Scope Q_scope.

Lemma round_half_even_bounds (a : Q) :
  0 <= a ->
  (0 <= Float.round_half_even a)%Z /\
  inject_Z (Float.round_half_even a) <= a + 1.
Proof.
  intros Ha. unfold Float.round_half_even.
  assert (H0 : (0 <= Qfloor a)%Z).
  { change 0%Z with (Qfloor 0). apply Qfloor_resp_le. exact Ha. }
  pose proof (Qfloor_le a) as Hf.
  assert (H1 : inject_Z (Qfloor a + 1) <= a + 1).
  { rewrite inject_Z_plus. apply Qplus_le_compat; [exact Hf | apply Qle_refl]. }
  assert (H2 : inject_Z (Qfloor a) <= a + 1).
  { apply Qle_trans with a; [exact Hf |].
    rewrite <- (Qplus_0_r a) at 1. apply Qplus_le_compat; [apply Qle_refl | discriminate]. }
  destruct (Qcompare _ _); [destruct (Z.even _) | |]; split; try assumption; lia.
Qed.

Lemma pow2_pos (e : Z) : 0 < 2 ^ e.
Proof. apply Qpower_0_lt. reflexivity. Qed.

(** The double nearest to a rational that is not negative is not negative
    either. *)
Lemma round_double_nonneg (q : Q) :
  0 <= q ->
  match Float.round_double q with
  | FFin r => 0 <= r
  | FInf neg => neg = false
  | FNan => False
  end.
Proof.
  intros Hq. unfold Float.round_double.
  destruct (Qeq_bool q 0); [apply Qle_refl |].
  assert (Hb : Qle_bool 0 q = true) by (apply Qle_bool_iff; exact Hq).
  rewrite Hb. clear Hb. cbn [negb].
  set (e := Z.max (Float.ilog2 (Qabs q) - 52) (-1074)).
  destruct (Qle_bool _ _); cbv iota; [reflexivity |].
  apply Qmult_le_0_compat; [| apply Qlt_le_weak, pow2_pos].
  change 0 with (inject_Z 0). rewrite <- Zle_Qle.
  apply round_half_even_bounds.
  apply Qle_shift_div_l; [apply pow2_pos |].
  rewrite Qmult_0_l. apply Qabs_nonneg.
Qed.

Lemma ilog2_le (a : Q) (k : Z) :
  (0 <= k)%Z -> a <= 2 ^ k -> (Float.ilog2 a <= k)%Z.
Proof.
  intros Hk Ha.
  assert (Hd : (Z.log2 (Qnum a) - Z.log2 (Zpos (Qden a)) <= k)%Z).
  { change 2 with (inject_Z 2) in Ha. rewrite <- Zpower_Qpower in Ha by exact Hk.
    unfold Qle in Ha. simpl in Ha. rewrite Z.mul_1_r in Ha.
    apply Z.log2_le_mono in Ha.
    rewrite Z.mul_comm, Z.log2_mul_pow2 in Ha by lia. lia. }
  unfold Float.ilog2. destruct (Qle_bool _ _); lia.
Qed.

(** A rational between 0 and [2^k], [k <= 1000], rounds to a finite double. *)
Lemma round_double_finite (q : Q) (k : Z) :
  (0 <= k <= 1000)%Z -> 0 <= q -> q <= 2 ^ k ->
  exists r, Float.round_double q = FFin r /\ 0 <= r.
Proof.
  intros Hk Hq Hle.
  pose proof (round_double_nonneg q Hq) as Hn.
  unfold Float.round_double in *.
  destruct (Qeq_bool q 0); [eexists; split; [reflexivity | exact Hn] |].
  assert (Hb : Qle_bool 0 q = true) by (apply Qle_bool_iff; exact Hq).
  rewrite Hb in *. cbn [negb] in *.
  assert (Ha : Qabs q == q) by (apply Qabs_pos; exact Hq).
  set (e := Z.max (Float.ilog2 (Qabs q) - 52) (-1074)) in *.
  set (p := 2 ^ e) in *.
  set (n := Float.round_half_even (Qabs q / p)) in *.
  assert (Hp : 0 < p) by apply pow2_pos.
  assert (He : (e <= k)%Z).
  { assert (Float.ilog2 (Qabs q) <= k)%Z by (apply ilog2_le; [lia | rewrite Ha; exact Hle]).
    unfold e. lia. }
  assert (Hpk : p <= 2 ^ k) by (apply Qpower_le_compat_l; [exact He | discriminate]).
  assert (Hk2 : 2 ^ k <= 2 ^ 1000) by (apply Qpower_le_compat_l; [lia | discriminate]).
  assert (Hx : 0 <= Qabs q / p).
  { apply Qle_shift_div_l; [exact Hp |]. rewrite Qmult_0_l. apply Qabs_nonneg. }
  destruct (round_half_even_bounds _ Hx) as [_ Hn1]. fold n in Hn1.
  assert (Hr : inject_Z n * p <= q + p).
  { apply Qle_trans with ((Qabs q / p + 1) * p).
    - apply Qmult_le_compat_r; [exact Hn1 | apply Qlt_le_weak; exact Hp].
    - rewrite Ha. apply Qle_lteq. right. field.
      intros E. rewrite E in Hp. discriminate Hp. }
  assert (Hfin : Qle_bool (2 ^ 1024) (inject_Z n * p) = false).
  { destruct (Qle_bool (2 ^ 1024) (inject_Z n * p)) eqn:Hc; [| reflexivity].
    apply Qle_bool_iff in Hc. exfalso.
    assert (Hs : 2 ^ 1024 <= 2 ^ 1000 + 2 ^ 1000).
    { apply Qle_trans with (inject_Z n * p); [exact Hc |].
      apply Qle_trans with (q + p); [exact Hr |].
      apply Qplus_le_compat.
      - apply Qle_trans with (2 ^ k); assumption.
      - apply Qle_trans with (2 ^ k); assumption. }
    revert Hs. vm_compute. intros Hs. apply Hs. reflexivity. }
  rewrite Hfin in *. eexists. split; [reflexivity | exact Hn].
Qed.

End FloatFacts.


(** ** Arithmetic of the evaluator *)

Module FloatArith.

Import FloatFacts.
Local Open Scope Q_scope.

(** [float(k)] of an integer from 0 to 2048 is finite and not negative. *)
Lemma of_int_small (k : Z) :
  (0 <= k <= 2048)%Z ->
  exists c, Float.of_int k = Ok (FFin c) /\ 0 <= c.
Proof.
  intros Hk. unfold Float.of_int.
  destruct (round_double_finite (inject_Z k) 11) as (c & -> & Hc).
  - lia.
  - change 0 with (inject_Z 0). rewrite <- Zle_Qle. lia.
  - change (2 ^ 11) with (inject_Z 2048). rewrite <- Zle_Qle. lia.
  - exists c. split; [reflexivity | exact Hc].
Qed.

Lemma of_int_60 : exists c, Float.of_int 60 = Ok (FFin c) /\ 0 < c.
Proof. eexists. split; [vm_compute; reflexivity | reflexivity]. Qed.

Lemma of_int_100 : exists c, Float.of_int 100 = Ok (FFin c) /\ 0 < c.
Proof. eexists. split; [vm_compute; reflexivity | reflexivity]. Qed.

Lemma gtb_0_positive (q : Q) :
  Float.gtb (FFin q) 0 = true -> 0 < q.
Proof.
  unfold Float.gtb. intros H. apply negb_true_iff in H.
  apply Qnot_le_lt. intros Hle. apply Qle_bool_iff in Hle.
  change (inject_Z 0) with 0 in H. congruence.
Qed.

End FloatArith.

Lemma py_min_100_within (x : pyfloat) :
  nonneg_float x ->
  exists p, py_min 100 (VFloat x) = Ok p /\ within 0 100 p.
Proof.
  intros Hx. unfold py_min. simpl py_lt. simpl bind.
  destruct x as [| neg | r]; simpl in Hx.
  - contradiction.
  - subst neg. simpl. eexists. split; [reflexivity |]. simpl. lia.
  - unfold Float.ltb. destruct (Qle_bool (inject_Z 100) r) eqn:E; simpl.
    + eexists. split; [reflexivity |]. simpl. lia.
    + eexists. split; [reflexivity |]. simpl. split; [exact Hx |].
      apply Qlt_le_weak, Qnot_le_lt. intros Hle.
      apply Qle_bool_iff in Hle. congruence.
Qed.

Lemma py_max_0_nonneg (d r : pyval) :
  py_max 0 d = Ok r -> nonneg r.
Proof.
  unfold py_max. destruct d as [| z | f | s]; simpl; try discriminate.
  - intros H. injection H as <-.
    destruct (z >? 0) eqn:E; simpl; [| lia].
    apply Z.gtb_lt in E. lia.
  - intros H. injection H as <-.
    destruct (Float.gtb f 0) eqn:E; simpl; [| lia].
    destruct f as [| neg | q]; simpl in *.
    + discriminate E.
    + apply negb_true_iff in E. exact E.
    + apply Qlt_le_weak. apply FloatArith.gtb_0_positive. exact E.
Qed.

(** ** More on rounding *)

Module FloatBounds.

Import FloatFacts.
Local Open Scope Q_scope.

Lemma pow2_inject (n : Z) : (0 <= n)%Z -> 2 ^ n == inject_Z (2 ^ n).
Proof.
  intros Hn. change 2 with (inject_Z 2) at 1.
  symmetry. apply Zpower_Qpower. exact Hn.
Qed.

Lemma pow2_add (n m : Z) : 2 ^ (n + m) == 2 ^ n * 2 ^ m.
Proof. apply Qpower_plus. discriminate. Qed.

Lemma pow2_opp_mul (e : Z) : 2 ^ e * 2 ^ (- e) == 1.
Proof.
  rewrite <- pow2_add. replace (e + - e)%Z with 0%Z by lia. reflexivity.
Qed.

(** [2 ^ ilog2 a <= a] for a positive rational. *)
Lemma ilog2_lower (a : Q) : 0 < a -> 2 ^ Float.ilog2 a <= a.
Proof.
  intros Ha. unfold Float.ilog2.
  set (ln := Z.log2 (Qnum a)). set (ld := Z.log2 (Zpos (Qden a))).
  destruct (Qle_bool (2 ^ (ln - ld)) a) eqn:E; [apply Qle_bool_iff; exact E |].
  assert (Hn : (0 < Qnum a)%Z).
  { unfold Qlt in Ha. simpl in Ha. lia. }
  destruct (Z.log2_spec (Qnum a) Hn) as [Hn1 _]. fold ln in Hn1.
  destruct (Z.log2_spec (Zpos (Qden a)) ltac:(lia)) as [_ Hd2]. fold ld in Hd2.
  assert (Hln : (0 <= ln)%Z) by apply Z.log2_nonneg.
  assert (Hld : (0 <= ld)%Z) by apply Z.log2_nonneg.
  assert (Ea : a == inject_Z (Qnum a) / inject_Z (Zpos (Qden a)))
    by (destruct a; apply Qmake_Qdiv).
  apply Qle_trans with (inject_Z (Qnum a) / inject_Z (Zpos (Qden a)));
    [| apply Qle_lteq; right; symmetry; exact Ea].
  apply Qle_shift_div_l; [reflexivity |].
  apply Qle_trans with (2 ^ (ln - ld - 1) * 2 ^ (ld + 1)).
  - apply Qmult_le_l; [apply pow2_pos |].
    rewrite pow2_inject by lia. rewrite <- Zle_Qle.
    replace (Z.succ ld) with (ld + 1)%Z in Hd2 by lia. lia.
  - rewrite <- pow2_add. replace (ln - ld - 1 + (ld + 1))%Z with ln by lia.
    rewrite pow2_inject by lia. rewrite <- Zle_Qle. exact Hn1.
Qed.

Lemma round_half_even_ge_floor (a : Q) :
  (Qfloor a <= Float.round_half_even a)%Z.
Proof.
  unfold Float.round_half_even.
  destruct (Qcompare _ _); [destruct (Z.even _) | |]; lia.
Qed.

(** Rounding does not go below an integer that the rational reaches. *)
Lemma round_double_ge (n : Z) (q : Q) :
  (1 <= n <= 2 ^ 52)%Z -> inject_Z n <= q ->
  match Float.round_double q with
  | FFin r => inject_Z n <= r
  | FInf neg => neg = false
  | FNan => False
  end.
Proof.
  intros Hn Hq.
  assert (Hq1 : 1 <= q).
  { apply Qle_trans with (inject_Z n); [| exact Hq].
    change 1 with (inject_Z 1). rewrite <- Zle_Qle. lia. }
  assert (Hq0 : 0 < q) by (apply Qlt_le_trans with 1; [reflexivity | exact Hq1]).
  unfold Float.round_double.
  destruct (Qeq_bool q 0) eqn:Ez.
  { apply Qeq_bool_eq in Ez. rewrite Ez in Hq0. discriminate Hq0. }
  assert (Hb : Qle_bool 0 q = true) by (apply Qle_bool_iff, Qlt_le_weak, Hq0).
  rewrite Hb. clear Hb. cbn [negb].
  assert (Ha : Qabs q == q) by (apply Qabs_pos, Qlt_le_weak, Hq0).
  set (e := Z.max (Float.ilog2 (Qabs q) - 52) (-1074)).
  set (p := 2 ^ e).
  assert (Hp : 0 < p) by apply pow2_pos.
  set (m := Float.round_half_even (Qabs q / p)).
  destruct (Qle_bool (2 ^ 1024) (inject_Z m * p)); [reflexivity |].
  pose proof (round_half_even_ge_floor (Qabs q / p)) as Hm. fold m in Hm.
  destruct (Z.le_gt_cases e 0) as [He | He].
  - (* the unit in the last place is at most 1 *)
    assert (Hpe : p * inject_Z (2 ^ (- e)) == 1).
    { unfold p. rewrite <- pow2_inject by lia. apply pow2_opp_mul. }
    assert (Hx : inject_Z (n * 2 ^ (- e)) <= Qabs q / p).
    { apply Qle_shift_div_l; [exact Hp |].
      rewrite inject_Z_mult, <- Qmult_assoc, (Qmult_comm _ p), Hpe, Qmult_1_r.
      rewrite Ha. exact Hq. }
    apply Qfloor_resp_le in Hx. rewrite Qfloor_Z in Hx.
    apply Qle_trans with (inject_Z (n * 2 ^ (- e)) * p).
    + rewrite inject_Z_mult, <- Qmult_assoc, (Qmult_comm _ p), Hpe, Qmult_1_r.
      apply Qle_refl.
    + apply Qmult_le_compat_r; [| apply Qlt_le_weak; exact Hp].
      rewrite <- Zle_Qle. lia.
  - (* the rational is at least [2^53] *)
    assert (Hi : Float.ilog2 (Qabs q) = (e + 52)%Z) by (unfold e in *; lia).
    assert (Hl : 2 ^ (e + 52) <= Qabs q).
    { rewrite <- Hi. apply ilog2_lower. rewrite Ha. exact Hq0. }
    assert (Hx : inject_Z (2 ^ 52) <= Qabs q / p).
    { apply Qle_shift_div_l; [exact Hp |].
      rewrite <- pow2_inject by lia. unfold p. rewrite <- pow2_add.
      replace (52 + e)%Z with (e + 52)%Z by lia. exact Hl. }
    apply Qfloor_resp_le in Hx. rewrite Qfloor_Z in Hx.
    assert (Hp1 : 1 <= p).
    { unfold p. change 1 with (2 ^ 0). apply Qpower_le_compat_l; [lia | discriminate]. }
    apply Qle_trans with (inject_Z m * 1).
    + rewrite Qmult_1_r. rewrite <- Zle_Qle. lia.
    + apply Qmult_le_l; [| exact Hp1].
      change 0 with (inject_Z 0). rewrite <- Zlt_Qlt.
      assert (0 < 2 ^ 52)%Z by reflexivity. lia.
Qed.

(** The double nearest to a rational that is not positive is not positive
    either. *)
Lemma round_double_nonpos (q : Q) :
  q <= 0 ->
  match Float.round_double q with
  | FFin r => r <= 0
  | FInf neg => neg = true
  | FNan => False
  end.
Proof.
  intros Hq. unfold Float.round_double.
  destruct (Qeq_bool q 0) eqn:Ez; [apply Qle_refl |].
  assert (Hb : Qle_bool 0 q = false).
  { destruct (Qle_bool 0 q) eqn:E; [| reflexivity].
    apply Qle_bool_iff in E.
    assert (q == 0) by (apply Qle_antisym; assumption).
    apply Qeq_eq_bool in H. congruence. }
  rewrite Hb. clear Hb. cbn [negb].
  set (e := Z.max (Float.ilog2 (Qabs q) - 52) (-1074)).
  destruct (Qle_bool _ _); cbv iota; [reflexivity |].
  assert (H0 : 0 <= inject_Z (Float.round_half_even (Qabs q / 2 ^ e)) * 2 ^ e).
  { apply Qmult_le_0_compat; [| apply Qlt_le_weak, pow2_pos].
    change 0 with (inject_Z 0). rewrite <- Zle_Qle.
    apply round_half_even_bounds.
    apply Qle_shift_div_l; [apply pow2_pos |].
    rewrite Qmult_0_l. apply Qabs_nonneg. }
  apply Qopp_le_compat in H0. exact H0.
Qed.

End FloatBounds.

(** ** The error of rounding *)

Module FloatError.

Import FloatFacts FloatBounds.
Local Open Scope Q_scope.

(** The nearest integer is within one half. *)
Lemma round_half_even_error (y : Q) :
  Qabs (inject_Z (Float.round_half_even y) - y) <= 1 # 2.
Proof.
  unfold Float.round_half_even.
  pose proof (Qfloor_le y) as Hlo. pose proof (Qlt_floor y) as Hhi.
  rewrite inject_Z_plus in Hhi. change (inject_Z 1) with 1 in Hhi.
  apply Qabs_Qle_condition.
  destruct (Qcompare_spec (y - inject_Z (Qfloor y)) (1 # 2)) as [E | E | E].
  - destruct (Z.even (Qfloor y)).
    + lra.
    + rewrite inject_Z_plus. change (inject_Z 1) with 1. lra.
  - lra.
  - rewrite inject_Z_plus. change (inject_Z 1) with 1. lra.
Qed.

(** [a < 2 ^ (ilog2 a + 1)] for a positive rational. *)
Lemma ilog2_upper (a : Q) : 0 < a -> a < 2 ^ (Float.ilog2 a + 1).
Proof.
  intros Ha. unfold Float.ilog2.
  set (ln := Z.log2 (Qnum a)). set (ld := Z.log2 (Zpos (Qden a))).
  destruct (Qle_bool (2 ^ (ln - ld)) a) eqn:E.
  - assert (Hn : (0 < Qnum a)%Z).
    { unfold Qlt in Ha. simpl in Ha. lia. }
    destruct (Z.log2_spec (Qnum a) Hn) as [_ Hn2]. fold ln in Hn2.
    destruct (Z.log2_spec (Zpos (Qden a)) ltac:(lia)) as [Hd1 _]. fold ld in Hd1.
    assert (Hln : (0 <= ln)%Z) by apply Z.log2_nonneg.
    assert (Hld : (0 <= ld)%Z) by apply Z.log2_nonneg.
    assert (Ea : a == inject_Z (Qnum a) / inject_Z (Zpos (Qden a)))
      by (destruct a; apply Qmake_Qdiv).
    rewrite Ea at 1.
    apply Qlt_shift_div_r; [reflexivity |].
    apply Qlt_le_trans with (2 ^ (ln + 1)).
    + rewrite pow2_inject by lia. rewrite <- Zlt_Qlt.
      replace (Z.succ ln) with (ln + 1)%Z in Hn2 by lia. exact Hn2.
    + replace (ln + 1)%Z with (ln - ld + 1 + ld)%Z by lia.
      rewrite pow2_add.
      apply Qmult_le_l; [apply pow2_pos |].
      rewrite pow2_inject by lia. rewrite <- Zle_Qle. exact Hd1.
  - replace (ln - ld - 1 + 1)%Z with (ln - ld)%Z by lia.
    apply Qnot_le_lt. intros H. apply Qle_bool_iff in H. congruence.
Qed.

Lemma round_half_even_le_floor (y : Q) :
  (Float.round_half_even y <= Qfloor y + 1)%Z.
Proof.
  unfold Float.round_half_even.
  destruct (Qcompare _ _); [destruct (Z.even _) | |]; lia.
Qed.

Lemma pow2_le (n m : Z) : (n <= m)%Z -> 2 ^ n <= 2 ^ m.
Proof. intros H. apply Qpower_le_compat_l; [exact H | discriminate]. Qed.

(** The magnitude [round_double] computes for a positive rational [a]: it
    is within half a unit in the last place of [a], it is at most the
    largest double when it is below [2^1024], and it is below [2^1024]
    when [a] is below the midpoint [2^1024 - 2^970]. *)
Lemma round_magnitude (a : Q) :
  0 < a ->
  let e := Z.max (Float.ilog2 a - 52) (-1074) in
  let r := inject_Z (Float.round_half_even (a / 2 ^ e)) * 2 ^ e in
  0 <= r /\
  Qabs (r - a) <= a * (1 # 9007199254740992) + 2 ^ (-1075) /\
  (r < 2 ^ 1024 -> r <= 2 ^ 1024 - 2 ^ 971) /\
  (a < 2 ^ 1024 - 2 ^ 970 -> r < 2 ^ 1024).
Proof.
  intros Ha e r.
  set (p := 2 ^ e) in *.
  assert (Hp : 0 < p) by apply pow2_pos.
  assert (Hpn : ~ p == 0) by (intros E; rewrite E in Hp; discriminate Hp).
  set (y := a / p) in *.
  set (n := Float.round_half_even y) in *.
  assert (Hy : y * p == a) by (unfold y; field; exact Hpn).
  assert (Hy0 : 0 <= y).
  { unfold y. apply Qle_shift_div_l; [exact Hp |]. lra. }
  pose proof (round_half_even_error y) as Herr. fold n in Herr.
  apply Qabs_Qle_condition in Herr. destruct Herr as [He1 He2].
  assert (Hhalf : Qabs (r - a) <= p * (1 # 2)).
  { apply Qabs_Qle_condition. unfold r. rewrite <- Hy. split; nra. }
  pose proof (ilog2_lower a Ha) as Hlo.
  pose proof (ilog2_upper a Ha) as Hup.
  assert (Hn0 : (0 <= n)%Z) by (apply round_half_even_bounds; exact Hy0).
  assert (Hr0 : 0 <= r).
  { unfold r. apply Qmult_le_0_compat; [| lra].
    change 0 with (inject_Z 0). rewrite <- Zle_Qle. exact Hn0. }
  (* the unit in the last place against [a] *)
  assert (Hulp : p * (1 # 2) <= a * (1 # 9007199254740992) + 2 ^ (-1075)).
  { destruct (Z.max_spec (Float.ilog2 a - 52) (-1074)) as [[_ E] | [_ E]];
      fold e in E.
    - assert (E1 : 2 ^ (-1074) == 2 ^ 1 * 2 ^ (-1075))
        by (rewrite <- pow2_add; reflexivity).
      unfold p. rewrite E, E1. change (2 ^ 1) with 2. lra.
    - assert (E1 : 2 ^ Float.ilog2 a == p * 2 ^ 52).
      { unfold p. rewrite <- pow2_add. rewrite E.
        replace (Float.ilog2 a - 52 + 52)%Z with (Float.ilog2 a) by lia.
        reflexivity. }
      rewrite E1 in Hlo.
      assert (E52 : 2 ^ 52 == 4503599627370496) by reflexivity.
      rewrite E52 in Hlo.
      assert (0 < 2 ^ (-1075)) by apply pow2_pos.
      lra. }
  (* the integer is at most [2^53] *)
  assert (Hn53 : (n <= 2 ^ 53)%Z).
  { assert (Hy53 : y < inject_Z (2 ^ 53)).
    { unfold y. apply Qlt_shift_div_r; [exact Hp |].
      rewrite <- pow2_inject by lia. unfold p. rewrite <- pow2_add.
      apply Qlt_le_trans with (2 ^ (Float.ilog2 a + 1)); [exact Hup |].
      apply pow2_le. lia. }
    pose proof (Qfloor_le y) as Hf.
    assert (Hfl : (Qfloor y < 2 ^ 53)%Z).
    { rewrite Zlt_Qlt. lra. }
    pose proof (round_half_even_le_floor y) as Hn. fold n in Hn. lia. }
  (* above the subnormal range the integer is at least [2^52] *)
  assert (Hn52 : (-1074 <= Float.ilog2 a - 52)%Z -> (2 ^ 52 <= n)%Z).
  { intros Hnorm.
    assert (E : e = (Float.ilog2 a - 52)%Z) by (unfold e; lia).
    assert (Hy52 : inject_Z (2 ^ 52) <= y).
    { unfold y. apply Qle_shift_div_l; [exact Hp |].
      rewrite <- pow2_inject by lia. unfold p. rewrite <- pow2_add.
      replace (52 + e)%Z with (Float.ilog2 a) by lia. exact Hlo. }
    apply Qfloor_resp_le in Hy52. rewrite Qfloor_Z in Hy52.
    pose proof (round_half_even_ge_floor y) as Hn. fold n in Hn. lia. }
  split; [exact Hr0 |].
  split; [apply Qle_trans with (p * (1 # 2)); assumption |].
  split.
  - intros Hfin.
    assert (He971 : (e <= 971)%Z).
    { destruct (Z.le_gt_cases e 971) as [H | H]; [exact H | exfalso].
      assert (Hnorm : (-1074 <= Float.ilog2 a - 52)%Z) by (unfold e in H; lia).
      specialize (Hn52 Hnorm).
      assert (Hp972 : 2 ^ 972 <= p) by (apply pow2_le; lia).
      assert (H52 : inject_Z (2 ^ 52) <= inject_Z n)
        by (rewrite <- Zle_Qle; exact Hn52).
      rewrite <- pow2_inject in H52 by lia.
      assert (Hrr : 2 ^ 52 * 2 ^ 972 <= r).
      { unfold r. apply Qle_trans with (inject_Z n * 2 ^ 972).
        - apply Qmult_le_compat_r; [exact H52 | apply Qlt_le_weak, pow2_pos].
        - apply Qmult_le_l; [| exact Hp972].
          apply Qlt_le_trans with (2 ^ 52); [apply pow2_pos | exact H52]. }
      rewrite <- pow2_add in Hrr. change (52 + 972)%Z with 1024%Z in Hrr.
      lra. }
    destruct (Z.eq_dec e 971) as [E | E].
    + assert (Hlt : inject_Z n < inject_Z (2 ^ 53)).
      { rewrite <- pow2_inject by lia.
        apply Qmult_lt_r with (2 ^ 971); [apply pow2_pos |].
        rewrite <- pow2_add. change (53 + 971)%Z with 1024%Z.
        unfold r, p in Hfin. rewrite E in Hfin. exact Hfin. }
      rewrite <- Zlt_Qlt in Hlt.
      assert (Hle : inject_Z n <= inject_Z (2 ^ 53 - 1))
        by (rewrite <- Zle_Qle; lia).
      apply Qle_trans with (inject_Z (2 ^ 53 - 1) * 2 ^ 971).
      * unfold r, p. rewrite E.
        apply Qmult_le_compat_r; [exact Hle | apply Qlt_le_weak, pow2_pos].
      * apply Qle_bool_iff. vm_compute. reflexivity.
    + assert (Hp970 : p <= 2 ^ 970) by (apply pow2_le; lia).
      assert (Hle : inject_Z n <= inject_Z (2 ^ 53))
        by (rewrite <- Zle_Qle; exact Hn53).
      apply Qle_trans with (inject_Z (2 ^ 53) * 2 ^ 970).
      * unfold r. apply Qle_trans with (inject_Z n * 2 ^ 970).
        -- rewrite (Qmult_comm _ p), (Qmult_comm _ (2 ^ 970)).
           apply Qmult_le_compat_r; [exact Hp970 |].
           change 0 with (inject_Z 0). rewrite <- Zle_Qle. exact Hn0.
        -- apply Qmult_le_compat_r; [exact Hle | apply Qlt_le_weak, pow2_pos].
      * apply Qle_bool_iff. vm_compute. reflexivity.
  - intros Hbelow.
    assert (Hi : (Float.ilog2 a <= 1023)%Z).
    { destruct (Z.le_gt_cases (Float.ilog2 a) 1023) as [H | H]; [exact H |].
      exfalso.
      assert (H1024 : 2 ^ 1024 <= 2 ^ Float.ilog2 a) by (apply pow2_le; lia).
      assert (0 < 2 ^ 970) by apply pow2_pos.
      lra. }
    assert (Hp971 : p <= 2 ^ 971) by (apply pow2_le; unfold e; lia).
    apply Qabs_Qle_condition in Hhalf.
    assert (E971 : 2 ^ 971 == 2 * 2 ^ 970)
      by (change 2 with (2 ^ 1) at 2; rewrite <- pow2_add; reflexivity).
    lra.
Qed.

(** What [round_double] returns: an infinity only from the midpoint
    [2^1024 - 2^970] on, and otherwise a double of the sign of [q], within
    the relative error [2^-53] (or [2^-1075] among the subnormals) and at
    most the largest double. *)
Lemma round_double_spec (q : Q) :
  match Float.round_double q with
  | FNan => False
  | FInf neg =>
      2 ^ 1024 - 2 ^ 970 <= Qabs q /\ neg = negb (Qle_bool 0 q)
  | FFin r =>
      Qabs (r - q) <= Qabs q * (1 # 9007199254740992) + 2 ^ (-1075) /\
      (0 <= q -> 0 <= r) /\
      (q <= 0 -> r <= 0) /\
      Qabs r <= 2 ^ 1024 - 2 ^ 971
  end.
Proof.
  unfold Float.round_double.
  assert (Hd : 0 < 2 ^ (-1075)) by apply pow2_pos.
  destruct (Qeq_bool q 0) eqn:Ez.
  - apply Qeq_bool_eq in Ez.
    split; [| split; [| split]].
    + rewrite Ez. change (Qabs (0 - 0)) with 0. change (Qabs 0) with 0. lra.
    + intros _. lra.
    + intros _. lra.
    + apply Qle_bool_iff. vm_compute. reflexivity.
  - assert (Hq : ~ q == 0).
    { intros E. apply Qeq_eq_bool in E. congruence. }
    assert (Ha : 0 < Qabs q).
    { destruct (Qlt_le_dec 0 (Qabs q)) as [H | H]; [exact H | exfalso].
      apply Hq. pose proof (Qabs_nonneg q) as H0.
      assert (E : Qabs q == 0) by lra.
      revert E. apply Qabs_case; intros; lra. }
    destruct (round_magnitude (Qabs q) Ha) as (Hr0 & Herr & Hmax & Hfin).
    set (e := Z.max (Float.ilog2 (Qabs q) - 52) (-1074)) in *.
    set (r := inject_Z (Float.round_half_even (Qabs q / 2 ^ e)) * 2 ^ e) in *.
    destruct (Qle_bool (2 ^ 1024) r) eqn:Eo.
    + split; [| reflexivity].
      apply Qle_bool_iff in Eo.
      destruct (Qlt_le_dec (Qabs q) (2 ^ 1024 - 2 ^ 970)) as [H | H];
        [| exact H].
      specialize (Hfin H). lra.
    + assert (Hlt : r < 2 ^ 1024).
      { apply Qnot_le_lt. intros H. apply Qle_bool_iff in H. congruence. }
      specialize (Hmax Hlt).
      apply Qabs_Qle_condition in Herr.
      destruct (Qle_bool 0 q) eqn:Es; cbn [negb].
      * apply Qle_bool_iff in Es.
        assert (Eq : Qabs q == q) by (apply Qabs_pos; exact Es).
        rewrite Eq in Herr.
        split; [| split; [| split]].
        -- apply Qabs_Qle_condition. rewrite Eq. lra.
        -- intros _. exact Hr0.
        -- intros H. exfalso. apply Hq. lra.
        -- rewrite Qabs_pos by exact Hr0. exact Hmax.
      * assert (Hneg : q < 0).
        { apply Qnot_le_lt. intros H. apply Qle_bool_iff in H. congruence. }
        assert (Eq : Qabs q == - q) by (apply Qabs_neg; lra).
        rewrite Eq in Herr.
        split; [| split; [| split]].
        -- apply Qabs_Qle_condition. rewrite Eq. lra.
        -- intros H. lra.
        -- intros _. lra.
        -- rewrite Qabs_neg by lra. lra.
Qed.

(** Below the midpoint the result is finite. *)
Lemma round_double_below (q : Q) :
  Qabs q < 2 ^ 1024 - 2 ^ 970 ->
  exists r, Float.round_double q = FFin r.
Proof.
  intros H. pose proof (round_double_spec q) as S.
  destruct (Float.round_double q) as [| neg | r].
  - contradiction.
  - destruct S as [S _]. lra.
  - exists r. reflexivity.
Qed.

End FloatError.

(** ** The evaluator up to rounding *)

Module Rounded.

Import FloatFacts FloatBounds FloatError.
Local Open Scope Q_scope.

Lemma of_int_minutes_check :
  forallb
    (fun k =>
       match Float.of_int k with
       | Ok (FFin c) => Qeq_bool c (inject_Z k)
       | _ => false
       end)
    (below 1440) = true.
Proof. vm_compute. reflexivity. Qed.

(** [float(k)] is exact on the minutes of a day (and so on 60 and 100). *)
Lemma of_int_minutes (k : Z) :
  (0 <= k <= 1439)%Z ->
  exists c, Float.of_int k = Ok (FFin c) /\ c == inject_Z k.
Proof.
  intros Hk.
  pose proof (below_forallb _ _ of_int_minutes_check k ltac:(lia)) as H.
  cbv beta in H.
  destruct (Float.of_int k) as [[| neg | c] | e]; try discriminate H.
  exists c. split; [reflexivity | apply Qeq_bool_eq; exact H].
Qed.

Lemma subnormal_unit :
  0 < 2 ^ (-1075) /\ 2 ^ (-1068) == 128 * 2 ^ (-1075) /\ 2 ^ (-1075) <= 1 # 4.
Proof.
  split; [apply pow2_pos |]. split.
  - change 128 with (2 ^ 7). rewrite <- pow2_add. reflexivity.
  - apply Qle_bool_iff. vm_compute. reflexivity.
Qed.

Lemma rounding_nonneg (t : Q) : 0 <= rounding t.
Proof.
  unfold rounding. pose proof (Qabs_nonneg t).
  assert (0 < 2 ^ (-1068)) by apply pow2_pos. lra.
Qed.

Lemma near_compat (v : pyval) (t t' : Q) : t == t' -> near v t -> near v t'.
Proof.
  unfold near, rounding. intros E. destruct (number v); [| exact (fun H => H)].
  rewrite E. exact (fun H => H).
Qed.

(** [min(100, ratio * 100)] for the rounded ratio of [x >= 0]. *)
Lemma percent_of_ratio (x : Q) :
  0 <= x ->
  exists scaled percent,
    py_mul (VFloat (Float.round_double x)) 100 = Ok scaled /\
    py_min 100 scaled = Ok percent /\
    near percent (Qmin 100 (x * 100)) /\
    within 0 100 percent.
Proof.
  intros Hx.
  destruct (of_int_minutes 100 ltac:(lia)) as (c & Hc & Ec).
  change (inject_Z 100) with 100 in Ec.
  destruct subnormal_unit as (Hd0 & Hd128 & Hd4).
  unfold py_mul. rewrite Hc. cbn [bind].
  assert (Hxa : Qabs x == x) by (apply Qabs_pos; exact Hx).
  pose proof (round_double_spec x) as S.
  destruct (Float.round_double x) as [| neg | rho]; [contradiction | |].
  - (* the ratio overflows *)
    destruct S as [S ->].
    replace (Qle_bool 0 x) with true by (symmetry; apply Qle_bool_iff; exact Hx).
    cbn [negb].
    assert (Hm : Float.mul (FInf false) (FFin c) = FInf false).
    { unfold Float.mul. cbn [Float.is_zero Float.is_neg orb xorb].
      replace (Qeq_bool c 0) with false
        by (symmetry; destruct (Qeq_bool c 0) eqn:E; [| reflexivity];
            apply Qeq_bool_eq in E; lra).
      replace (Qle_bool 0 c) with true
        by (symmetry; apply Qle_bool_iff; lra).
      reflexivity. }
    rewrite Hm. eexists. exists (VInt 100).
    split; [reflexivity |]. split; [reflexivity |]. split; [| simpl; lia].
    assert (Hbig : 1 <= 2 ^ 1024 - 2 ^ 970)
      by (apply Qle_bool_iff; vm_compute; reflexivity).
    destruct (Q.min_spec 100 (x * 100)) as [[_ E] | [H _]]; [| lra].
    apply near_compat with 100; [symmetry; exact E |].
    unfold near. cbn [number]. change (inject_Z 100) with 100.
    setoid_replace (100 - 100) with 0 by ring.
    change (Qabs 0) with 0. apply rounding_nonneg.
  - destruct S as (Serr & Spos & _ & _). specialize (Spos Hx).
    rewrite Hxa in Serr. apply Qabs_Qle_condition in Serr.
    assert (Hm : Float.mul (FFin rho) (FFin c) = Float.round_double (rho * c))
      by reflexivity.
    rewrite Hm.
    assert (Hrc : 0 <= rho * c) by (rewrite Ec; lra).
    assert (Hrca : Qabs (rho * c) == rho * 100)
      by (rewrite Qabs_pos by exact Hrc; rewrite Ec; reflexivity).
    pose proof (round_double_spec (rho * c)) as S2.
    destruct (Float.round_double (rho * c)) as [| neg | s]; [contradiction | |].
    + (* the product overflows *)
      destruct S2 as [S2 ->].
      replace (Qle_bool 0 (rho * c)) with true
        by (symmetry; apply Qle_bool_iff; exact Hrc).
      cbn [negb]. eexists. exists (VInt 100).
      split; [reflexivity |]. split; [reflexivity |]. split; [| simpl; lia].
      rewrite Hrca in S2.
      assert (Hbig : 400 <= 2 ^ 1024 - 2 ^ 970)
        by (apply Qle_bool_iff; vm_compute; reflexivity).
      destruct (Q.min_spec 100 (x * 100)) as [[_ E] | [H _]]; [| lra].
      apply near_compat with 100; [symmetry; exact E |].
      unfold near. cbn [number]. change (inject_Z 100) with 100.
      setoid_replace (100 - 100) with 0 by ring.
      change (Qabs 0) with 0. apply rounding_nonneg.
    + destruct S2 as (S2err & S2pos & _ & _). specialize (S2pos Hrc).
      rewrite Hrca in S2err. apply Qabs_Qle_condition in S2err.
      assert (Es : Qabs (s - rho * c) == Qabs (s - rho * 100))
        by (rewrite Ec; reflexivity).
      rewrite Ec in S2err.
      exists (VFloat (FFin s)).
      unfold py_min. simpl py_lt. cbn [bind]. unfold Float.ltb.
      destruct (Qle_bool (inject_Z 100) s) eqn:E100; cbn [negb].
      * apply Qle_bool_iff in E100. change (inject_Z 100) with 100 in E100.
        exists (VInt 100).
        split; [reflexivity |]. split; [reflexivity |]. split; [| simpl; lia].
        destruct (Q.min_spec 100 (x * 100)) as [[H E] | [H E]];
          (apply near_compat with (1 := Qeq_sym _ _ E));
          unfold near, rounding; cbn [number]; change (inject_Z 100) with 100;
          rewrite Hd128.
        -- setoid_replace (100 - 100) with 0 by ring.
           change (Qabs 0) with 0. change (Qabs 100) with 100. lra.
        -- rewrite (Qabs_pos (x * 100)) by lra.
           apply Qabs_Qle_condition. lra.
      * assert (Hs : s < 100).
        { apply Qnot_le_lt. intros H. apply Qle_bool_iff in H.
          change (inject_Z 100) with 100 in E100. congruence. }
        exists (VFloat (FFin s)).
        split; [reflexivity |]. split; [reflexivity |].
        split; [| simpl; change (inject_Z 0) with 0;
                  change (inject_Z 100) with 100; lra].
        destruct (Q.min_spec 100 (x * 100)) as [[H E] | [H E]];
          (apply near_compat with (1 := Qeq_sym _ _ E));
          unfold near, rounding; cbn [number]; rewrite Hd128.
        -- change (Qabs 100) with 100. apply Qabs_Qle_condition. lra.
        -- rewrite (Qabs_pos (x * 100)) by lra.
           apply Qabs_Qle_condition. lra.
Qed.

(** [max(0, a - m)] for a finite float [a] and the minutes [m]. *)
Lemma remaining_of_difference (a cm : Q) (m : Z) :
  cm == inject_Z m -> (0 <= m <= 1439)%Z ->
  Qabs a <= 2 ^ 1024 - 2 ^ 971 ->
  exists remaining,
    py_max 0 (VFloat (Float.round_double (a - cm))) = Ok remaining /\
    near remaining (Qmax 0 (a - inject_Z m)) /\
    nonneg remaining.
Proof.
  intros Ec Hm Ha.
  destruct subnormal_unit as (Hd0 & Hd128 & Hd4).
  assert (Hm0 : 0 <= inject_Z m)
    by (change 0 with (inject_Z 0); rewrite <- Zle_Qle; lia).
  assert (Hm1 : inject_Z m <= 1439)
    by (change 1439 with (inject_Z 1439); rewrite <- Zle_Qle; lia).
  assert (Hroom : 1439 < 2 ^ 970).
  { apply Qlt_alt. vm_compute. reflexivity. }
  assert (E971 : 2 ^ 971 == 2 * 2 ^ 970)
    by (change 2 with (2 ^ 1) at 2; rewrite <- pow2_add; reflexivity).
  assert (Hbelow : Qabs (a - cm) < 2 ^ 1024 - 2 ^ 970).
  { rewrite Ec. apply Qabs_Qle_condition in Ha.
    apply Qabs_case; intros; lra. }
  destruct (round_double_below _ Hbelow) as (d & Hd).
  pose proof (round_double_spec (a - cm)) as S. rewrite Hd in S.
  destruct S as (Serr & Spos & Sneg & _).
  rewrite Hd. unfold py_max. simpl py_gt. cbn [bind]. unfold Float.gtb.
  change (inject_Z 0) with 0.
  assert (Hx : Qabs (a - cm) == Qabs (a - inject_Z m))
    by (rewrite Ec; reflexivity).
  rewrite Hx in Serr. rewrite Ec in Serr, Spos, Sneg.
  apply Qabs_Qle_condition in Serr.
  destruct (Qle_bool d 0) eqn:E0; cbn [negb].
  - apply Qle_bool_iff in E0. exists (VInt 0).
    split; [reflexivity |]. split; [| simpl; lia].
    destruct (Q.max_spec 0 (a - inject_Z m)) as [[H E] | [H E]];
      (apply near_compat with (1 := Qeq_sym _ _ E));
      unfold near, rounding; cbn [number]; change (inject_Z 0) with 0;
      rewrite Hd128.
    + specialize (Spos ltac:(lra)).
      rewrite (Qabs_pos (a - inject_Z m)) in * by lra.
      apply Qabs_Qle_condition. lra.
    + setoid_replace (0 - 0) with 0 by ring. change (Qabs 0) with 0. lra.
  - assert (Hd1 : 0 < d).
    { apply Qnot_le_lt. intros H. apply Qle_bool_iff in H. congruence. }
    exists (VFloat (FFin d)).
    split; [reflexivity |]. split; [| simpl; lra].
    assert (Hpos : 0 < a - inject_Z m).
    { apply Qnot_le_lt. intros H. specialize (Sneg H). lra. }
    destruct (Q.max_spec 0 (a - inject_Z m)) as [[H E] | [H E]]; [| lra].
    apply near_compat with (1 := Qeq_sym _ _ E).
    unfold near, rounding. cbn [number]. rewrite Hd128.
    rewrite (Qabs_pos (a - inject_Z m)) in * by lra.
    apply Qabs_Qle_condition. lra.
Qed.

(** The product [q * 60]. *)
Lemma product_sixty (q c : Q) :
  c == 60 ->
  match Float.round_double (q * c) with
  | FNan => False
  | FInf neg => 2 ^ 990 <= Qabs q /\ neg = negb (Qle_bool 0 q)
  | FFin a =>
      Qabs (a - q * 60) <= rounding (q * 60) /\
      Qabs a <= 2 ^ 1024 - 2 ^ 971
  end.
Proof.
  intros Ec.
  destruct subnormal_unit as (Hd0 & Hd128 & Hd4).
  pose proof (round_double_spec (q * c)) as S.
  destruct (Float.round_double (q * c)) as [| neg | a]; [exact S | |].
  - destruct S as [S ->]. split.
    + assert (E : Qabs (q * c) == Qabs q * 60).
      { rewrite Ec, Qabs_Qmult. reflexivity. }
      rewrite E in S.
      assert (Hbig : 2 ^ 990 * 60 <= 2 ^ 1024 - 2 ^ 970)
        by (apply Qle_bool_iff; vm_compute; reflexivity).
      lra.
    + f_equal.
      destruct (Qle_bool 0 q) eqn:E1; destruct (Qle_bool 0 (q * c)) eqn:E2;
        try reflexivity; exfalso.
      * apply Qle_bool_iff in E1.
        assert (H : 0 <= q * c) by (rewrite Ec; lra).
        apply Qle_bool_iff in H. congruence.
      * apply Qle_bool_iff in E2. rewrite Ec in E2.
        assert (H : 0 <= q) by lra.
        apply Qle_bool_iff in H. congruence.
  - destruct S as (Serr & _ & _ & Smax). split; [| exact Smax].
    assert (E : Qabs (a - q * c) == Qabs (a - q * 60))
      by (rewrite Ec; reflexivity).
    assert (E' : Qabs (q * c) == Qabs (q * 60))
      by (rewrite Ec; reflexivity).
    rewrite E, E' in Serr. unfold rounding. rewrite Hd128.
    pose proof (Qabs_nonneg (q * 60)). lra.
Qed.

(** [calculate_progress_data] from [max_minutes] on, for a float
    [max_minutes]. *)
Lemma float_numbers (g : pyfloat) (m : Z) :
  (0 <= m <= 1439)%Z ->
  (forall a, g = FFin a -> Qabs a <= 2 ^ 1024 - 2 ^ 971) ->
  exists remaining percent,
    (difference <- py_sub (VFloat g) m ;;
     remaining_minutes <- py_max 0 difference ;;
     positive <- py_gt (VFloat g) 0 ;;
     progress_percent <-
       (if positive : bool then
          ratio <- py_rtruediv m (VFloat g) ;;
          scaled <- py_mul ratio 100 ;;
          py_min 100 scaled
        else Ok (VInt 0)) ;;
     Ok (VFloat g, remaining_minutes, progress_percent))
    = Ok (VFloat g, remaining, percent) /\
    nonneg remaining /\
    within 0 100 percent /\
    (forall a, g = FFin a ->
       near remaining (Qmax 0 (a - inject_Z m)) /\
       (a <= 0 -> percent = VInt 0) /\
       (0 < a -> near percent (Qmin 100 (inject_Z m / a * 100)))) /\
    (g = FInf false ->
       remaining = VFloat (FInf false) /\ percent = VFloat (FFin 0)) /\
    (g = FInf true \/ g = FNan ->
       remaining = VInt 0 /\ percent = VInt 0).
Proof.
  intros Hm Hmax.
  destruct (of_int_minutes m Hm) as (cm & Hcm & Ecm).
  destruct (of_int_minutes 100 ltac:(lia)) as (c100 & Hc100 & Ec100).
  unfold py_sub, py_rtruediv. rewrite Hcm. cbn [bind].
  destruct g as [| [|] | a].
  - (* NaN *)
    exists (VInt 0), (VInt 0).
    split; [reflexivity |]. split; [simpl; lia |]. split; [simpl; lia |].
    split; [intros a E; discriminate E |].
    split; [intros E; discriminate E |]. intros _. split; reflexivity.
  - (* minus infinity *)
    exists (VInt 0), (VInt 0).
    split; [reflexivity |]. split; [simpl; lia |]. split; [simpl; lia |].
    split; [intros a E; discriminate E |].
    split; [intros E; discriminate E |]. intros _. split; reflexivity.
  - (* plus infinity *)
    exists (VFloat (FInf false)), (VFloat (FFin 0)).
    split.
    + simpl Float.sub. unfold py_max. simpl py_gt. cbn [bind].
      unfold Float.div. cbn [Float.is_zero bind].
      unfold py_mul. rewrite Hc100. cbn [bind].
      assert (E : Float.mul (FFin 0) (FFin c100) = FFin 0).
      { unfold Float.mul, Float.round_double.
        replace (Qeq_bool (0 * c100) 0) with true; [reflexivity |].
        symmetry. apply Qeq_bool_iff. apply Qmult_0_l. }
      rewrite E. reflexivity.
    + split; [reflexivity |].
      split; [simpl; split; discriminate |].
      split; [intros a E; discriminate E |].
      split; [intros _; split; reflexivity |].
      intros [E | E]; discriminate E.
  - (* a finite float *)
    specialize (Hmax a eq_refl).
    destruct (remaining_of_difference a cm m Ecm Hm Hmax)
      as (remaining & Hrem & Hnear & Hnn).
    change (Float.sub (FFin a) (FFin cm)) with (Float.round_double (a - cm)).
    rewrite Hrem. cbn [bind]. simpl py_gt. cbn [bind]. unfold Float.gtb.
    change (inject_Z 0) with 0.
    destruct (Qle_bool a 0) eqn:E0; cbn [negb].
    + apply Qle_bool_iff in E0.
      exists remaining, (VInt 0).
      split; [reflexivity |]. split; [exact Hnn |]. split; [simpl; lia |].
      split.
      * intros a' E. injection E as <-.
        split; [exact Hnear |]. split; [reflexivity |]. intros H. lra.
      * split; [intros E; discriminate E |]. intros [E | E]; discriminate E.
    + assert (Ha : 0 < a).
      { apply Qnot_le_lt. intros H. apply Qle_bool_iff in H. congruence. }
      unfold Float.div, Float.is_zero.
      replace (Qeq_bool a 0) with false
        by (symmetry; destruct (Qeq_bool a 0) eqn:E; [| reflexivity];
            apply Qeq_bool_eq in E; lra).
      cbn [bind].
      assert (Hm0 : 0 <= inject_Z m)
        by (change 0 with (inject_Z 0); rewrite <- Zle_Qle; lia).
      assert (Hx : 0 <= cm / a).
      { apply Qle_shift_div_l; [exact Ha |]. rewrite Ecm. lra. }
      destruct (percent_of_ratio (cm / a) Hx)
        as (scaled & percent & H1 & H2 & H3 & H4).
      rewrite H1. cbn [bind]. rewrite H2. cbn [bind].
      exists remaining, percent.
      split; [reflexivity |]. split; [exact Hnn |]. split; [exact H4 |].
      split.
      * intros a' E. injection E as <-.
        split; [exact Hnear |]. split; [intros H; lra |]. intros _.
        apply near_compat with (2 := H3). rewrite Ecm. reflexivity.
      * split; [intros E; discriminate E |]. intros [E | E]; discriminate E.
Qed.

(** The same for an integer [max_minutes = z]. *)
Lemma int_numbers (z m : Z) :
  (0 <= m <= 1439)%Z ->
  exists percent,
    (difference <- py_sub (VInt z) m ;;
     remaining_minutes <- py_max 0 difference ;;
     positive <- py_gt (VInt z) 0 ;;
     progress_percent <-
       (if positive : bool then
          ratio <- py_rtruediv m (VInt z) ;;
          scaled <- py_mul ratio 100 ;;
          py_min 100 scaled
        else Ok (VInt 0)) ;;
     Ok (VInt z, remaining_minutes, progress_percent))
    = Ok (VInt z, VInt (Z.max 0 (z - m)), percent) /\
    within 0 100 percent /\
    ((z <= 0)%Z -> percent = VInt 0) /\
    ((0 < z)%Z ->
     near percent (Qmin 100 (inject_Z m / inject_Z z * 100))).
Proof.
  intros Hm.
  assert (Hrem : py_max 0 (VInt (z - m)) = Ok (VInt (Z.max 0 (z - m)))).
  { unfold py_max. simpl py_gt. cbn [bind].
    destruct (z - m >? 0)%Z eqn:E.
    - apply Z.gtb_lt in E. do 2 f_equal. lia.
    - rewrite Z.gtb_ltb in E. apply Z.ltb_ge in E. do 2 f_equal. lia. }
  simpl py_sub. cbn [bind]. rewrite Hrem. cbn [bind].
  simpl py_gt. cbn [bind].
  destruct (z >? 0)%Z eqn:Ez.
  - apply Z.gtb_lt in Ez.
    assert (Hz : 0 < inject_Z z)
      by (change 0 with (inject_Z 0); rewrite <- Zlt_Qlt; lia).
    assert (Hx : 0 <= inject_Z m / inject_Z z).
    { apply Qle_shift_div_l; [exact Hz |]. rewrite Qmult_0_l.
      change 0 with (inject_Z 0). rewrite <- Zle_Qle. lia. }
    destruct (round_double_finite (inject_Z m / inject_Z z) 11)
      as (r & Hr & _); [lia | exact Hx | |].
    { apply Qle_shift_div_r; [exact Hz |].
      change (2 ^ 11) with (inject_Z 2048).
      rewrite <- inject_Z_mult, <- Zle_Qle. nia. }
    destruct (percent_of_ratio (inject_Z m / inject_Z z) Hx)
      as (scaled & percent & H1 & H2 & H3 & H4).
    unfold py_rtruediv.
    replace (z =? 0)%Z with false by (symmetry; apply Z.eqb_neq; lia).
    rewrite Hr in *. cbn [bind]. rewrite H1. cbn [bind]. rewrite H2.
    cbn [bind]. exists percent.
    split; [reflexivity |]. split; [exact H4 |].
    split; [intros; lia |]. intros _. exact H3.
  - rewrite Z.gtb_ltb in Ez. apply Z.ltb_ge in Ez.
    exists (VInt 0). cbn [bind].
    split; [reflexivity |]. split; [simpl; lia |].
    split; [reflexivity |]. intros; lia.
Qed.

End Rounded.

(** C4. For a numeric maximum and an elapsed value the decoder accepts,
    the evaluator returns [max_minutes = max_time * 60], the remaining
    minutes [max(0, max_minutes - elapsed_minutes)], never negative, and a
    percentage between 0 and 100 that is [min(100, elapsed_minutes /
    max_minutes * 100)] when [max_minutes > 0] and 0 otherwise.
    - With an integer maximum [h] the first two are the integers [h * 60]
      and [max 0 (h * 60 - elapsed_minutes)], and the percentage is the
      rational [min(100, elapsed_minutes / (h * 60) * 100)] up to rounding.
    - With a finite float maximum [q] the product is [q * 60] up to
      rounding (or, beyond [2^990] hours, the infinity of its sign); for
      the float [a] it gives, the remaining minutes are
      [max(0, a - elapsed_minutes)] and the percentage
      [min(100, elapsed_minutes / a * 100)], both up to rounding.
    - With a maximum that is, or multiplies to, plus infinity the remaining
      time is infinite and the percentage 0.0; with minus infinity or NaN
      both are the integer 0. *)
Theorem progress_numbers_formulas (max_time elapsed : pyval) (elapsed_minutes : Z) :
  is_number max_time ->
  hhmm_to_minutes elapsed = Ok elapsed_minutes ->
  exists max_minutes remaining_minutes percent,
    progress_numbers max_time elapsed
    = Ok (max_minutes, remaining_minutes, percent) /\
    nonneg remaining_minutes /\
    within 0 100 percent /\
    (forall h, max_time = VInt h ->
       max_minutes = VInt (h * 60) /\
       remaining_minutes = VInt (Z.max 0 (h * 60 - elapsed_minutes)) /\
       (h * 60 <= 0 -> percent = VInt 0) /\
       (0 < h * 60 ->
        near percent
             (Qmin 100 (inject_Z elapsed_minutes / inject_Z (h * 60) * 100)))) /\
    (forall q, max_time = VFloat (FFin q) ->
       near max_minutes (q * 60) \/
       ((2 ^ 990 <= Qabs q)%Q /\
        max_minutes = VFloat (FInf (negb (Qle_bool 0 q))))) /\
    (forall f, max_time = VFloat f ->
       f = FNan \/ (exists neg, f = FInf neg) ->
       max_minutes = VFloat f) /\
    (forall a, max_minutes = VFloat (FFin a) ->
       near remaining_minutes (Qmax 0 (a - inject_Z elapsed_minutes)) /\
       ((a <= 0)%Q -> percent = VInt 0) /\
       ((0 < a)%Q ->
        near percent (Qmin 100 (inject_Z elapsed_minutes / a * 100)))) /\
    (max_minutes = VFloat (FInf false) ->
       remaining_minutes = VFloat (FInf false) /\
       percent = VFloat (FFin 0)) /\
    (max_minutes = VFloat (FInf true) \/ max_minutes = VFloat FNan ->
       remaining_minutes = VInt 0 /\ percent = VInt 0).
Proof.
  intros Hn He.
  pose proof (hhmm_to_minutes_range _ _ He) as Hr.
  unfold progress_numbers.
  destruct max_time as [| h | f | s]; simpl in Hn; try contradiction.
  - (* an integer maximum *)
    simpl py_mul. cbn [bind]. rewrite He. cbn [bind].
    destruct (Rounded.int_numbers (h * 60) elapsed_minutes Hr)
      as (percent & Hp & Hw & P0 & P1).
    exists (VInt (h * 60)), (VInt (Z.max 0 (h * 60 - elapsed_minutes))), percent.
    split; [exact Hp |]. split; [simpl; lia |]. split; [exact Hw |].
    split.
    { intros h' E. injection E as <-.
      split; [reflexivity |]. split; [reflexivity |].
      split; [exact P0 | exact P1]. }
    split; [intros q E; discriminate E |].
    split; [intros f E; discriminate E |].
    split; [intros a E; discriminate E |].
    split; [intros E; discriminate E |].
    intros [E | E]; discriminate E.
  - (* a float maximum *)
    destruct (Rounded.of_int_minutes 60 ltac:(lia)) as (c60 & Hc60 & Ec60).
    change (inject_Z 60) with 60%Q in Ec60.
    unfold py_mul at 1. rewrite Hc60. cbn [bind]. rewrite He. cbn [bind].
    set (g := Float.mul f (FFin c60)).
    assert (Hg : (forall q, f = FFin q ->
                    match g with
                    | FNan => False
                    | FInf neg =>
                        (2 ^ 990 <= Qabs q)%Q /\ neg = negb (Qle_bool 0 q)
                    | FFin a =>
                        (Qabs (a - q * 60) <= rounding (q * 60))%Q /\
                        (Qabs a <= 2 ^ 1024 - 2 ^ 971)%Q
                    end) /\
                 (f = FNan \/ (exists neg, f = FInf neg) -> g = f)).
    { split.
      - intros q ->. exact (Rounded.product_sixty q c60 Ec60).
      - intros [-> | [neg ->]]; [reflexivity |].
        unfold g, Float.mul. cbn [Float.is_zero Float.is_neg orb].
        replace (Qeq_bool c60 0) with false
          by (symmetry; destruct (Qeq_bool c60 0) eqn:E; [| reflexivity];
              apply Qeq_bool_eq in E; rewrite Ec60 in E; discriminate E).
        replace (Qle_bool 0 c60) with true
          by (symmetry; apply Qle_bool_iff; rewrite Ec60; discriminate).
        destruct neg; reflexivity. }
    destruct Hg as [Hfin Hinf].
    assert (Hmax : forall a, g = FFin a -> (Qabs a <= 2 ^ 1024 - 2 ^ 971)%Q).
    { intros a Ea. destruct f as [| neg | q].
      - rewrite (Hinf (or_introl eq_refl)) in Ea. discriminate Ea.
      - rewrite (Hinf (or_intror (ex_intro _ neg eq_refl))) in Ea.
        discriminate Ea.
      - specialize (Hfin q eq_refl). rewrite Ea in Hfin. apply Hfin. }
    destruct (Rounded.float_numbers g elapsed_minutes Hr Hmax)
      as (remaining & percent & Hp & Hnn & Hw & Pfin & Pinf & Pnan).
    exists (VFloat g), remaining, percent.
    split; [exact Hp |]. split; [exact Hnn |]. split; [exact Hw |].
    split; [intros h E; discriminate E |].
    split.
    { intros q E. injection E as ->. specialize (Hfin q eq_refl).
      destruct g as [| neg | a]; [contradiction | |].
      - right. destruct Hfin as [H1 ->]. split; [exact H1 | reflexivity].
      - left. unfold near. cbn [number]. apply Hfin. }
    split.
    { intros f' E H. injection E as <-. f_equal. exact (Hinf H). }
    split.
    { intros a E. injection E as E. exact (Pfin a E). }
    split.
    { intros E. injection E as E. exact (Pinf E). }
    intros [E | E]; injection E as E; apply Pnan; [left | right]; exact E.
Qed.

Lemma progress_numbers_formulas_witness :
  exists max_minutes remaining_minutes percent,
    progress_numbers (VFloat (FFin 13)) (VStr "0430")
    = Ok (max_minutes, remaining_minutes, percent) /\
    nonneg remaining_minutes /\
    within 0 100 percent /\
    (forall h, VFloat (FFin 13) = VInt h ->
       max_minutes = VInt (h * 60) /\
       remaining_minutes = VInt (Z.max 0 (h * 60 - 270)) /\
       (h * 60 <= 0 -> percent = VInt 0) /\
       (0 < h * 60 ->
        near percent (Qmin 100 (inject_Z 270 / inject_Z (h * 60) * 100)))) /\
    (forall q, VFloat (FFin 13) = VFloat (FFin q) ->
       near max_minutes (q * 60) \/
       ((2 ^ 990 <= Qabs q)%Q /\
        max_minutes = VFloat (FInf (negb (Qle_bool 0 q))))) /\
    (forall f, VFloat (FFin 13) = VFloat f ->
       f = FNan \/ (exists neg, f = FInf neg) ->
       max_minutes = VFloat f) /\
    (forall a, max_minutes = VFloat (FFin a) ->
       near remaining_minutes (Qmax 0 (a - inject_Z 270)) /\
       ((a <= 0)%Q -> percent = VInt 0) /\
       ((0 < a)%Q -> near percent (Qmin 100 (inject_Z 270 / a * 100)))) /\
    (max_minutes = VFloat (FInf false) ->
       remaining_minutes = VFloat (FInf false) /\
       percent = VFloat (FFin 0)) /\
    (max_minutes = VFloat (FInf true) \/ max_minutes = VFloat FNan ->
       remaining_minutes = VInt 0 /\ percent = VInt 0).
Proof.
  assert (He : hhmm_to_minutes (VStr "0430") = Ok 270)
    by (vm_compute; reflexivity).
  exact (progress_numbers_formulas (VFloat (FFin 13)) (VStr "0430") 270 I He).
Defined.

(** ** Status tiers *)

Lemma color_status_tiers (remaining : pyval) :
  nonneg remaining ->
  exists tier,
    color_status remaining = Ok tier /\
    (at_most remaining 60 -> tier = ("#e74c3c", "critical")) /\
    (~ at_most remaining 60 -> at_most remaining 120 ->
     tier = ("#f39c12", "warning")) /\
    (~ at_most remaining 120 -> tier = ("#2ecc71", "ok")).
Proof.
  intros Hn. unfold color_status.
  destruct remaining as [| z | [| neg | q] | s]; simpl in Hn; try contradiction.
  - simpl. destruct (Z.leb_spec z 60) as [H60 | H60]; simpl.
    + eexists. split; [reflexivity |].
      split; [| split]; intros; solve [reflexivity | lia].
    + destruct (Z.leb_spec z 120) as [H120 | H120]; simpl.
      * eexists. split; [reflexivity |].
        split; [| split]; intros; solve [reflexivity | lia].
      * eexists. split; [reflexivity |].
        split; [| split]; intros; solve [reflexivity | lia].
  - subst neg. simpl. eexists. split; [reflexivity |].
    split; [| split]; intros; solve [reflexivity | discriminate].
  - simpl. destruct (Qle_bool q (inject_Z 60)) eqn:H60; simpl.
    + apply Qle_bool_iff in H60. eexists. split; [reflexivity |].
      split; [| split]; intros; try solve [reflexivity | contradiction].
      exfalso. apply H. apply Qle_trans with (inject_Z 60); [exact H60 |].
      rewrite <- Zle_Qle. lia.
    + assert (N60 : ~ (q <= inject_Z 60)%Q).
      { intros H. apply Qle_bool_iff in H. congruence. }
      destruct (Qle_bool q (inject_Z 120)) eqn:H120; simpl.
      * apply Qle_bool_iff in H120. eexists. split; [reflexivity |].
        split; [| split]; intros; solve [reflexivity | contradiction].
      * assert (N120 : ~ (q <= inject_Z 120)%Q).
        { intros H. apply Qle_bool_iff in H. congruence. }
        eexists. split; [reflexivity |].
        split; [| split]; intros; solve [reflexivity | contradiction].
Qed.

Lemma progress_numbers_nonneg (max_time elapsed max_minutes remaining percent : pyval) :
  progress_numbers max_time elapsed = Ok (max_minutes, remaining, percent) ->
  nonneg remaining.
Proof.
  unfold progress_numbers. intros H.
  apply bind_ok in H as (mm & _ & H).
  apply bind_ok in H as (em & _ & H).
  apply bind_ok in H as (d & _ & H).
  apply bind_ok in H as (r & Hr & H).
  apply bind_ok in H as (pos & _ & H).
  apply bind_ok in H as (pct & _ & H).
  injection H as _ <- _. exact (py_max_0_nonneg _ _ Hr).
Qed.

(** C3. Whenever the evaluator returns a status from its computation, that
    status is fixed by the remaining minutes alone: "critical" up to 60
    inclusive, "warning" above 60 and up to 120 inclusive, "ok" (the normal
    tier) above 120; 60 is critical, 61 and 120 are warning, 121 is normal. *)
Theorem status_by_remaining (row : aircraft_row) (crew_type : string)
  (data : progress_data) :
  calculate_progress_data_try row crew_type = Ok data ->
  (exists max_minutes remaining percent,
     progress_numbers (fst (crew_cells row crew_type))
                      (snd (crew_cells row crew_type))
     = Ok (max_minutes, remaining, percent) /\
     nonneg remaining /\
     (at_most remaining 60 -> status data = "critical") /\
     (~ at_most remaining 60 -> at_most remaining 120 ->
      status data = "warning") /\
     (~ at_most remaining 120 -> status data = "ok")) /\
  color_status (VInt 60) = Ok ("#e74c3c", "critical") /\
  color_status (VInt 61) = Ok ("#f39c12", "warning") /\
  color_status (VInt 120) = Ok ("#f39c12", "warning") /\
  color_status (VInt 121) = Ok ("#2ecc71", "ok") /\
  color_status (VFloat (FFin 60)) = Ok ("#e74c3c", "critical") /\
  color_status (VFloat (FFin (601 # 10))) = Ok ("#f39c12", "warning") /\
  color_status (VFloat (FFin 120)) = Ok ("#f39c12", "warning") /\
  color_status (VFloat (FFin (1201 # 10))) = Ok ("#2ecc71", "ok").
Proof.
  intros H. split; [| repeat split; reflexivity].
  unfold calculate_progress_data_try in H.
  destruct (crew_cells row crew_type) as [max_time elapsed]. simpl fst. simpl snd.
  apply bind_ok in H as ([[max_minutes remaining] percent] & Hn & H).
  apply bind_ok in H as (tier & Ht & H).
  apply bind_ok in H as (rs & _ & H).
  apply bind_ok in H as (ms & _ & H).
  injection H as <-. simpl status.
  pose proof (progress_numbers_nonneg _ _ _ _ _ Hn) as Hnn.
  destruct (color_status_tiers remaining Hnn) as (tier' & Ht' & T1 & T2 & T3).
  assert (tier' = tier) by congruence. subst tier'.
  exists max_minutes, remaining, percent.
  split; [exact Hn |]. split; [exact Hnn |].
  split; [intros A; rewrite (T1 A); reflexivity |].
  split; [intros A B; rewrite (T2 A B); reflexivity |].
  intros A; rewrite (T3 A); reflexivity.
Qed.

Lemma status_by_remaining_witness :
  exists max_minutes remaining percent,
    progress_numbers (fst (crew_cells tail2 "CA")) (snd (crew_cells tail2 "CA"))
    = Ok (max_minutes, remaining, percent) /\
    nonneg remaining /\
    (at_most remaining 60 -> status (calculate_progress_data tail2 "CA") = "critical") /\
    (~ at_most remaining 60 -> at_most remaining 120 ->
     status (calculate_progress_data tail2 "CA") = "warning") /\
    (~ at_most remaining 120 -> status (calculate_progress_data tail2 "CA") = "ok").
Proof.
  apply (status_by_remaining tail2 "CA" (calculate_progress_data tail2 "CA")).
  vm_compute. reflexivity.
Defined.

(** ** Absorbed failures *)

Lemma progress_numbers_text (s : string) (elapsed : pyval) :
  exists e, progress_numbers (VStr s) elapsed = Raise e.
Proof.
  unfold progress_numbers. simpl py_mul. simpl bind.
  destruct (hhmm_to_minutes elapsed) as [m | e]; simpl; eexists; reflexivity.
Qed.

Lemma progress_numbers_none (elapsed : pyval) :
  progress_numbers VNone elapsed = Raise TypeError.
Proof. reflexivity. Qed.

(** C8. [calculate_progress_data] always returns a dictionary: the one its
    computation yields, or, when anything in it raises, the "error" one,
    whose clocks are "0000", whose percentage is 0 and whose colour is none
    of the three tier colours.  A maximum that is a text or [None] ends
    there.  So a table of [n] rows gets [n] triples of evaluations. *)
Theorem calculate_progress_data_absorbs :
  (forall row crew_type,
     (exists data, calculate_progress_data_try row crew_type = Ok data /\
                   calculate_progress_data row crew_type = data) \/
     (exists e, calculate_progress_data_try row crew_type = Raise e /\
                calculate_progress_data row crew_type = error_data)) /\
  (status error_data = "error" /\
   progress_percent error_data = VInt 0 /\
   remaining_hhmm error_data = "0000" /\
   elapsed_hhmm error_data = VStr "0000" /\
   max_hhmm error_data = "0000" /\
   color error_data <> "#e74c3c" /\
   color error_data <> "#f39c12" /\
   color error_data <> "#2ecc71") /\
  (forall row crew_type,
     (exists s, fst (crew_cells row crew_type) = VStr s) \/
     fst (crew_cells row crew_type) = VNone ->
     calculate_progress_data row crew_type = error_data) /\
  (forall table,
     List.length (map crew_data table) = List.length table /\
     Forall (fun evaluations => List.length evaluations = 3%nat)
            (map crew_data table)).
Proof.
  split; [| split; [| split]].
  - intros row crew_type. unfold calculate_progress_data.
    destruct (calculate_progress_data_try row crew_type) as [data | e].
    + left. exists data. split; reflexivity.
    + right. exists e. split; reflexivity.
  - repeat split; try reflexivity; discriminate.
  - intros row crew_type H.
    unfold calculate_progress_data, calculate_progress_data_try.
    destruct (crew_cells row crew_type) as [max_time elapsed]. simpl in H.
    destruct H as [[s ->] | ->].
    + destruct (progress_numbers_text s elapsed) as (e & ->). reflexivity.
    + rewrite progress_numbers_none. reflexivity.
  - intros table. split; [apply length_map |].
    apply Forall_forall. intros l Hl. apply in_map_iff in Hl as (a & <- & _).
    reflexivity.
Qed.

Lemma calculate_progress_data_absorbs_witness :
  calculate_progress_data unreadable_captain "CA" = error_data.
Proof.
  apply (proj1 (proj2 (proj2 calculate_progress_data_absorbs))).
  left. exists "abc". reflexivity.
Defined.

(** ** Aircraft card *)

Lemma any_status_py_in (s : string) (l : list progress_data) :
  any_status s l = py_in s (map status l).
Proof.
  unfold any_status, py_in. induction l as [| d r IH]; simpl; [reflexivity |].
  rewrite IH, (String.eqb_sym (status d) s). reflexivity.
Qed.

(** The card class of an aircraft, by the tests of the loops of [main]. *)
Lemma aircraft_class_cases (aircraft : aircraft_row) :
  aircraft_class aircraft =
  if any_status "critical" (crew_data aircraft) then "critical-card"
  else if any_status "warning" (crew_data aircraft) then "warning-card"
  else "aircraft-card".
Proof.
  unfold aircraft_class, card_style. rewrite !any_status_py_in.
  change (map status (dict_values (aircraft_progress aircraft)))
    with (map status (crew_data aircraft)).
  destruct (py_in "critical" _); [reflexivity |].
  destruct (py_in "warning" _); reflexivity.
Qed.

(** C9. The remaining time in the heading of a card is the captain's: for
    any three evaluations it is the ["CA"] entry's [remaining_hhmm], and for
    a captain with 12 hours left next to a first officer with 4 the heading
    shows "1200", not the least of the three. *)
Theorem card_remaining_is_captain :
  (forall tail_number ca fo cabin,
     exists card,
       create_aircraft_card tail_number [("CA", ca); ("FO", fo); ("Cabin", cabin)]
       = Ok card /\
       card_remaining card = remaining_hhmm ca /\
       card_tail card = tail_number) /\
  (forall aircraft,
     exists card,
       create_aircraft_card (Tail_Number aircraft) (aircraft_progress aircraft)
       = Ok card /\
       card_remaining card
       = remaining_hhmm (calculate_progress_data aircraft "CA")) /\
  (exists card,
     create_aircraft_card (Tail_Number late_first_officer)
                          (aircraft_progress late_first_officer) = Ok card /\
     card_remaining card = "1200" /\
     remaining_hhmm (calculate_progress_data late_first_officer "FO") = "0400" /\
     remaining_hhmm (calculate_progress_data late_first_officer "Cabin") = "1200").
Proof.
  assert (H : forall tail_number ca fo cabin,
             exists card,
               create_aircraft_card tail_number
                 [("CA", ca); ("FO", fo); ("Cabin", cabin)] = Ok card /\
               card_remaining card = remaining_hhmm ca /\
               card_tail card = tail_number).
  { intros tail_number ca fo cabin. unfold create_aircraft_card.
    destruct (card_style _) as [class pictograph]. simpl.
    eexists. split; [reflexivity |]. split; reflexivity. }
  split; [exact H |]. split.
  - intros aircraft.
    destruct (H (Tail_Number aircraft)
                (calculate_progress_data aircraft "CA")
                (calculate_progress_data aircraft "FO")
                (calculate_progress_data aircraft "Cabin")) as (card & Hc & Hr & _).
    exists card. split; [exact Hc | exact Hr].
  - eexists. split; [vm_compute; reflexivity |].
    repeat split; vm_compute; reflexivity.
Qed.

(** C2, as the code has it.  The card of an aircraft takes the class of the
    most severe of its three statuses, where "critical" ranks above
    "warning" and every other status, "ok" and "error" alike, ranks lowest;
    the counters of [main] follow the same classes. *)
Theorem card_class_is_max_severity :
  (forall tail_number ca fo cabin,
     exists card,
       create_aircraft_card tail_number [("CA", ca); ("FO", fo); ("Cabin", cabin)]
       = Ok card /\
       card_class card
       = class_of_severity
           (Nat.max (severity (status ca))
              (Nat.max (severity (status fo)) (severity (status cabin))))) /\
  severity "critical" = 2%nat /\
  severity "warning" = 1%nat /\
  severity "ok" = 0%nat /\
  severity "error" = 0%nat /\
  (forall aircraft critical_count warning_count,
     count_alert (critical_count, warning_count) aircraft
     = (critical_count
        + (if String.eqb (aircraft_class aircraft) "critical-card" then 1 else 0),
        warning_count
        + (if String.eqb (aircraft_class aircraft) "warning-card" then 1 else 0))).
Proof.
  split; [| repeat (split; [reflexivity |])].
  - intros tail_number ca fo cabin.
    unfold create_aircraft_card, card_style, severity.
    change (dict_get [("CA", ca); ("FO", fo); ("Cabin", cabin)] "CA") with (Ok ca).
    change (map status (dict_values [("CA", ca); ("FO", fo); ("Cabin", cabin)]))
      with [status ca; status fo; status cabin].
    unfold py_in. cbn [existsb].
    rewrite !(String.eqb_sym "critical"), !(String.eqb_sym "warning").
    destruct (String.eqb (status ca) "critical") eqn:C1;
      destruct (String.eqb (status fo) "critical") eqn:C2;
      destruct (String.eqb (status cabin) "critical") eqn:C3;
      destruct (String.eqb (status ca) "warning") eqn:W1;
      destruct (String.eqb (status fo) "warning") eqn:W2;
      destruct (String.eqb (status cabin) "warning") eqn:W3;
      simpl; eexists; split; reflexivity.
  - intros aircraft c w. unfold count_alert.
    rewrite (aircraft_class_cases aircraft).
    destruct (any_status "critical" (crew_data aircraft));
      destruct (any_status "warning" (crew_data aircraft));
      simpl; f_equal; lia.
Qed.

(** C2, as worded, fails: with a captain whose maximum is the text "abc"
    the statuses are error, ok, ok, none of them critical, and the aircraft
    gets the normal card and check mark and enters neither count nor list. *)
Lemma error_shown_as_normal :
  map status (crew_data unreadable_captain) = ["error"; "ok"; "ok"] /\
  create_aircraft_card (Tail_Number unreadable_captain)
                       (aircraft_progress unreadable_captain)
  = Ok {| card_class := "aircraft-card";
          status_emoji := Check_mark;
          card_tail := VStr "N123AA";
          card_remaining := "0000" |} /\
  statistics [unreadable_captain] = Some (1, 0, 0) /\
  alert_summary [unreadable_captain] = Some ([], []).
Proof. repeat split; vm_compute; reflexivity. Qed.

(** ** Fleet summary *)

Lemma list_alert_fold (table : list aircraft_row) :
  forall critical_aircraft warning_aircraft,
    fold_left list_alert table (critical_aircraft, warning_aircraft)
    = ((critical_aircraft ++ map Tail_Number (critical_rows table))%list,
       (warning_aircraft ++ map Tail_Number (warning_rows table))%list).
Proof.
  induction table as [| a r IH]; intros c w.
  - simpl. rewrite !app_nil_r. reflexivity.
  - cbn [fold_left]. unfold critical_rows, warning_rows. cbn [filter].
    fold (critical_rows r). fold (warning_rows r).
    unfold list_alert at 2. rewrite (aircraft_class_cases a).
    destruct (any_status "critical" (crew_data a)).
    + rewrite IH. cbn. rewrite <- app_assoc. reflexivity.
    + destruct (any_status "warning" (crew_data a)).
      * rewrite IH. cbn. rewrite <- app_assoc. reflexivity.
      * rewrite IH. reflexivity.
Qed.

Lemma count_alert_fold (table : list aircraft_row) :
  forall critical_count warning_count,
    fold_left count_alert table (critical_count, warning_count)
    = (critical_count + Z.of_nat (List.length (critical_rows table)),
       warning_count + Z.of_nat (List.length (warning_rows table))).
Proof.
  induction table as [| a r IH]; intros c w.
  - simpl. f_equal; lia.
  - cbn [fold_left]. unfold critical_rows, warning_rows. cbn [filter].
    fold (critical_rows r). fold (warning_rows r).
    unfold count_alert at 2. rewrite (aircraft_class_cases a).
    destruct (any_status "critical" (crew_data a)).
    + rewrite IH. cbn [String.eqb Ascii.eqb Bool.eqb List.length].
      f_equal; lia.
    + destruct (any_status "warning" (crew_data a)); rewrite IH;
        cbn [String.eqb Ascii.eqb Bool.eqb List.length]; f_equal; lia.
Qed.

Lemma aircraft_class_values (aircraft : aircraft_row) :
  aircraft_class aircraft = "critical-card" \/
  aircraft_class aircraft = "warning-card" \/
  aircraft_class aircraft = "aircraft-card".
Proof.
  rewrite aircraft_class_cases.
  destruct (any_status "critical" _); [left; reflexivity |].
  destruct (any_status "warning" _); [right; left | right; right]; reflexivity.
Qed.

Lemma class_rows_length (table : list aircraft_row) :
  (List.length (critical_rows table) + List.length (warning_rows table)
   + List.length (normal_rows table) = List.length table)%nat.
Proof.
  unfold critical_rows, warning_rows, normal_rows.
  induction table as [| a r IH]; [reflexivity |].
  cbn [filter List.length].
  destruct (aircraft_class_values a) as [-> | [-> | ->]]; simpl; lia.
Qed.

Lemma map_NoDup_inj {A B : Type} (f : A -> B) (l : list A) :
  NoDup (map f l) ->
  forall a b, In a l -> In b l -> f a = f b -> a = b.
Proof.
  induction l as [| x r IH]; intros Hnd a b Ha Hb E; [contradiction |].
  simpl in Hnd. inversion Hnd as [| ? ? Hx Hr]; subst.
  destruct Ha as [-> | Ha]; destruct Hb as [-> | Hb].
  - reflexivity.
  - exfalso. apply Hx. rewrite E. apply in_map. exact Hb.
  - exfalso. apply Hx. rewrite <- E. apply in_map. exact Ha.
  - apply IH; assumption.
Qed.

(** C7. For every table, the alert loop lists the tail numbers of the
    aircraft whose card is critical and, separately, of those whose card is
    warning, in table order; the counters of the statistics loop are the
    lengths of these lists and the total is the number of rows; every row is
    in exactly one of the critical, warning and normal classes; and when
    tail numbers are distinct no tail number is in both lists.  Three
    aircraft that are critical, warning and normal give total 3, [tail1]
    critical, [tail2] warning, and [tail3] in neither list. *)
Theorem fleet_summary_partition (table : list aircraft_row) :
  let critical_list := map Tail_Number (critical_rows table) in
  let warning_list := map Tail_Number (warning_rows table) in
  fold_left list_alert table ([], []) = (critical_list, warning_list) /\
  fold_left count_alert table (0, 0)
  = (Z.of_nat (List.length critical_list), Z.of_nat (List.length warning_list)) /\
  (table <> [] ->
   statistics table
   = Some (Z.of_nat (List.length table),
           Z.of_nat (List.length critical_list),
           Z.of_nat (List.length warning_list)) /\
   alert_summary table = Some (critical_list, warning_list)) /\
  (forall aircraft, In aircraft table ->
     (In aircraft (critical_rows table) /\ ~ In aircraft (warning_rows table)) \/
     (~ In aircraft (critical_rows table) /\ In aircraft (warning_rows table)) \/
     (~ In aircraft (critical_rows table) /\ ~ In aircraft (warning_rows table))) /\
  (List.length (critical_rows table) + List.length (warning_rows table)
   + List.length (normal_rows table) = List.length table)%nat /\
  (NoDup (map Tail_Number table) ->
   forall tail_number,
     ~ (In tail_number critical_list /\ In tail_number warning_list)) /\
  statistics [tail1; tail2; tail3] = Some (3, 1, 1) /\
  alert_summary [tail1; tail2; tail3] = Some ([VStr "tail1"], [VStr "tail2"]).
Proof.
  intros critical_list warning_list.
  assert (Hl : fold_left list_alert table ([], []) = (critical_list, warning_list))
    by apply list_alert_fold.
  assert (Hc : fold_left count_alert table (0, 0)
               = (Z.of_nat (List.length critical_list),
                  Z.of_nat (List.length warning_list))).
  { rewrite count_alert_fold. unfold critical_list, warning_list.
    rewrite !length_map. reflexivity. }
  split; [exact Hl |]. split; [exact Hc |]. split; [| split; [| split; [| split]]].
  - intros Hne. destruct table as [| a r]; [contradiction |].
    unfold statistics, alert_summary. rewrite Hc, Hl. split; reflexivity.
  - intros a Ha. unfold critical_rows, warning_rows.
    rewrite !filter_In.
    destruct (aircraft_class_values a) as [E | [E | E]]; rewrite E; simpl.
    + left. split; [split; [exact Ha | reflexivity] |]. intros [_ H]. discriminate H.
    + right. left. split; [intros [_ H]; discriminate H |].
      split; [exact Ha | reflexivity].
    + right. right. split; intros [_ H]; discriminate H.
  - apply class_rows_length.
  - intros Hnd t [H1 H2]. unfold critical_list, warning_list in *.
    apply in_map_iff in H1 as (a & Ea & Ha).
    apply in_map_iff in H2 as (b & Eb & Hb).
    unfold critical_rows in Ha. unfold warning_rows in Hb.
    apply filter_In in Ha as (Ha & Ca). apply filter_In in Hb as (Hb & Cb).
    assert (a = b) by (apply (map_NoDup_inj Tail_Number table Hnd); congruence).
    subst b. apply String.eqb_eq in Ca. rewrite Ca in Cb. discriminate Cb.
  - split; vm_compute; reflexivity.
Qed.

Lemma fleet_summary_partition_witness :
  (statistics [N123AA; N456BB; N789CC]
   = Some (Z.of_nat (List.length [N123AA; N456BB; N789CC]),
           Z.of_nat (List.length (map Tail_Number (critical_rows [N123AA; N456BB; N789CC]))),
           Z.of_nat (List.length (map Tail_Number (warning_rows [N123AA; N456BB; N789CC])))) /\
   alert_summary [N123AA; N456BB; N789CC]
   = Some (map Tail_Number (critical_rows [N123AA; N456BB; N789CC]),
           map Tail_Number (warning_rows [N123AA; N456BB; N789CC]))) /\
  (forall tail_number,
     ~ (In tail_number (map Tail_Number (critical_rows [N123AA; N456BB; N789CC])) /\
        In tail_number (map Tail_Number (warning_rows [N123AA; N456BB; N789CC])))).
Proof.
  split.
  - apply (fleet_summary_partition [N123AA; N456BB; N789CC]). discriminate.
  - apply (fleet_summary_partition [N123AA; N456BB; N789CC]).
    cbv [map Tail_Number N123AA N456BB N789CC sample_row].
    constructor; [cbv [In]; intros [H | [H | H]];
                  [discriminate H | discriminate H | exact H] |].
    constructor; [cbv [In]; intros [H | H]; [discriminate H | exact H] |].
    constructor; [cbv [In]; intros H; exact H | constructor].
Defined.

(** ** More on the time codec *)

Lemma int_of_str_raises (s : string) (e : exn) :
  int_of_str s = Raise e -> e = ValueError.
Proof.
  unfold int_of_str.
  destruct (Str.split_sign (Str.strip (list_ascii_of_string s))) as [neg ds].
  destruct (Str.digitpart ds) as [[n k] |]; [discriminate |].
  intros H. injection H as <-. reflexivity.
Qed.

Lemma hours_minutes_raises (n : Z) (e : exn) :
  hours_minutes n = Raise e -> e = ValueError.
Proof.
  unfold hours_minutes. cbv zeta.
  destruct (int_of_str (Str.take 2 (Str.zfill 4 (str_of_int n))))
    as [h | e1] eqn:E1; cbn [bind].
  - destruct (int_of_str (Str.drop 2 (Str.zfill 4 (str_of_int n))))
      as [m | e2] eqn:E2; cbn [bind].
    + match goal with
      | |- (if ?c then _ else _) = _ -> _ => destruct c
      end; discriminate.
    + intros H. injection H as <-. exact (int_of_str_raises _ _ E2).
  - intros H. injection H as <-. exact (int_of_str_raises _ _ E1).
Qed.

Lemma hhmm_to_minutes_overflows (hhmm : pyval) :
  overflows hhmm -> hhmm_to_minutes hhmm = Raise OverflowError.
Proof.
  intros H. unfold hhmm_to_minutes, hhmm_to_minutes_try, int_float.
  assert (G : (pd_isna hhmm || is_empty_str hhmm || is_none hhmm)%bool = false).
  { destruct hhmm as [| z | [| neg | q] | [| c r]]; try reflexivity;
      destruct H as [H | [neg' H]]; cbv in H; discriminate H. }
  rewrite G. destruct H as [-> | [neg ->]]; reflexivity.
Qed.

Lemma hhmm_to_minutes_raise_inv (hhmm : pyval) (e : exn) :
  hhmm_to_minutes hhmm = Raise e -> e = OverflowError /\ overflows hhmm.
Proof.
  unfold hhmm_to_minutes, hhmm_to_minutes_try, int_float, overflows.
  destruct (pd_isna hhmm || is_empty_str hhmm || is_none hhmm)%bool;
    [discriminate |].
  destruct (py_float hhmm) as [f | e1] eqn:Ef; simpl.
  - destruct f as [| neg | q]; simpl.
    + discriminate.
    + intros H. injection H as <-. split; [reflexivity |].
      right. exists neg. reflexivity.
    + destruct (hours_minutes _) as [m | e2] eqn:Eh; simpl; [discriminate |].
      rewrite (hours_minutes_raises _ _ Eh). discriminate.
  - destruct hhmm as [| z | f | s]; simpl in Ef.
    + injection Ef as <-. discriminate.
    + unfold Float.of_int in Ef.
      destruct (Float.round_double (inject_Z z)); try discriminate Ef.
      injection Ef as <-. simpl. intros H. injection H as <-.
      split; [reflexivity | left; reflexivity].
    + discriminate Ef.
    + rewrite (of_str_raises _ _ Ef). discriminate.
Qed.

(** X1. [hhmm_to_minutes] has two outcomes only: on input that [float()]
    turns into an infinity (or cannot hold) it raises [OverflowError]; on
    all other input it returns a minute of the day, from 0 to 1439. *)
Theorem hhmm_to_minutes_outcomes (hhmm : pyval) :
  (overflows hhmm /\ hhmm_to_minutes hhmm = Raise OverflowError) \/
  (~ overflows hhmm /\
   exists m, hhmm_to_minutes hhmm = Ok m /\ 0 <= m <= 1439).
Proof.
  destruct (hhmm_to_minutes hhmm) as [m | e] eqn:E.
  - right. split.
    + intros H. rewrite (hhmm_to_minutes_overflows _ H) in E. discriminate E.
    + exists m. split; [reflexivity | exact (hhmm_to_minutes_range _ _ E)].
  - left. destruct (hhmm_to_minutes_raise_inv _ _ E) as [-> H].
    split; [exact H | reflexivity].
Qed.

(** ** Clock texts *)

Lemma is_digit_cases (c : ascii) :
  Str.is_digit c = true ->
  In c ["0"; "1"; "2"; "3"; "4"; "5"; "6"; "7"; "8"; "9"]%char.
Proof.
  destruct c as [[] [] [] [] [] [] [] []]; intros H;
    try discriminate H; simpl; tauto.
Qed.

Lemma format_02d_digits (a b : ascii) :
  Str.is_digit a = true -> Str.is_digit b = true ->
  format_02d (10 * Str.digit_val a + Str.digit_val b)
  = String a (String b EmptyString).
Proof.
  intros Ha Hb.
  apply is_digit_cases in Ha. apply is_digit_cases in Hb.
  simpl in Ha, Hb.
  repeat (destruct Ha as [<- | Ha]; [| ]);
    try contradiction;
    repeat (destruct Hb as [<- | Hb]; [| ]);
    try contradiction; reflexivity.
Qed.

(** A clock text is the clock of the minute it names. *)
Lemma clock_text_clock (t : string) :
  clock_text t = true ->
  exists k, 0 <= k < 1440 /\ t = clock k.
Proof.
  destruct t as [| a [| b [| c [| d [| x r]]]]]; try discriminate.
  unfold clock_text. intros H.
  apply andb_true_iff in H as [H Hm]. apply andb_true_iff in H as [H Hh].
  apply andb_true_iff in H as [H Hd]. apply andb_true_iff in H as [H Hc].
  apply andb_true_iff in H as [Ha Hb].
  apply Z.ltb_lt in Hh, Hm.
  pose proof (digit_val_range a Ha) as Ra.
  pose proof (digit_val_range b Hb) as Rb.
  pose proof (digit_val_range c Hc) as Rc.
  pose proof (digit_val_range d Hd) as Rd.
  set (h := 10 * Str.digit_val a + Str.digit_val b) in *.
  set (m := 10 * Str.digit_val c + Str.digit_val d) in *.
  exists (h * 60 + m). split; [lia |].
  unfold clock.
  replace ((h * 60 + m) / 60) with h
    by (apply Z.div_unique with (r := m); lia).
  replace ((h * 60 + m) mod 60) with m
    by (apply Z.mod_unique with (q := h); lia).
  unfold h, m. rewrite !format_02d_digits by assumption. reflexivity.
Qed.

Lemma clock_is_clock_text_check :
  forallb (fun k => clock_text (clock k)) (below 1440) = true.
Proof. vm_compute. reflexivity. Qed.

Lemma clock_is_clock_text (k : Z) :
  0 <= k < 1440 -> clock_text (clock k) = true.
Proof. apply (below_forallb _ _ clock_is_clock_text_check). Qed.

Lemma minutes_to_hhmm_clock (k : Z) :
  0 <= k < 1440 -> minutes_to_hhmm (VInt k) = Ok (clock k).
Proof.
  intros Hk. destruct (Z.eq_dec k 0) as [-> | Hz]; [reflexivity |].
  rewrite minutes_to_hhmm_int by lia.
  rewrite Z.mod_small by lia. reflexivity.
Qed.

(** X2. Decoding a clock text and encoding the minutes gives the text
    back: for four digits HHMM with HH below 24 and MM below 60,
    [hhmm_to_minutes] returns HH*60+MM and [minutes_to_hhmm] of that is the
    same text. *)
Theorem encode_decode_clock_text (t : string) :
  clock_text t = true ->
  exists k,
    0 <= k < 1440 /\
    hhmm_to_minutes (VStr t) = Ok k /\
    minutes_to_hhmm (VInt k) = Ok t.
Proof.
  intros H. destruct (clock_text_clock t H) as (k & Hk & ->).
  exists k. split; [exact Hk |]. split.
  - apply decode_encode_day. exact Hk.
  - apply minutes_to_hhmm_clock. exact Hk.
Qed.

Lemma encode_decode_clock_text_witness :
  exists k,
    0 <= k < 1440 /\
    hhmm_to_minutes (VStr "2359") = Ok k /\
    minutes_to_hhmm (VInt k) = Ok "2359".
Proof. apply (encode_decode_clock_text "2359"). reflexivity. Defined.

Lemma quot_nonpos (a : Z) (b : positive) :
  a <= 0 -> Z.quot a (Zpos b) <= 0.
Proof.
  intros Ha. replace a with (- (- a)) by lia.
  rewrite Z.quot_opp_l by lia.
  pose proof (Z.quot_pos (- a) (Zpos b) ltac:(lia) ltac:(lia)). lia.
Qed.

Lemma quot_nonneg (a : Z) (b : positive) :
  0 <= a -> 0 <= Z.quot a (Zpos b).
Proof. intros Ha. apply Z.quot_pos; lia. Qed.

Lemma minutes_to_hhmm_any_int (n : Z) :
  minutes_to_hhmm (VInt n) = Ok (clock (Z.max 0 n mod 1440)).
Proof.
  destruct (Z.leb_spec n 0) as [Hn | Hn].
  - unfold minutes_to_hhmm. simpl py_le. cbn [bind].
    replace (n <=? 0) with true by (symmetry; apply Z.leb_le; exact Hn).
    replace (Z.max 0 n) with 0 by lia. reflexivity.
  - rewrite minutes_to_hhmm_int by exact Hn.
    replace (Z.max 0 n) with n by lia. reflexivity.
Qed.

Lemma minutes_to_hhmm_finite (q : Q) :
  minutes_to_hhmm (VFloat (FFin q))
  = minutes_to_hhmm (VInt (Z.quot (Qnum q) (Zpos (Qden q)))).
Proof.
  unfold minutes_to_hhmm. simpl py_le. cbn [bind]. simpl py_int.
  unfold Float.leb, Float.to_int.
  destruct (Qle_bool q (inject_Z 0)) eqn:E.
  - apply Qle_bool_iff in E. unfold Qle in E. simpl in E.
    replace (Z.quot (Qnum q) (Zpos (Qden q)) <=? 0) with true; [reflexivity |].
    symmetry. apply Z.leb_le. apply quot_nonpos. lia.
  - assert (Hq : 0 < Qnum q).
    { destruct (Z.ltb_spec 0 (Qnum q)) as [H | H]; [exact H |].
      assert (Qle_bool q (inject_Z 0) = true); [| congruence].
      apply Qle_bool_iff. unfold Qle. simpl. lia. }
    pose proof (quot_nonneg (Qnum q) (Qden q) ltac:(lia)) as Ht.
    cbn [bind].
    destruct (Z.leb_spec (Z.quot (Qnum q) (Zpos (Qden q))) 0) as [H0 | H0];
      [| reflexivity].
    replace (Z.quot (Qnum q) (Zpos (Qden q))) with 0 by lia. reflexivity.
Qed.

(** X3. [minutes_to_hhmm] returns nothing but clock texts: for an integer,
    or the integer part of a finite float, it is the clock of the minutes
    modulo 1440, and "0000" for what is not positive (minus infinity
    included); NaN, plus infinity, a text and [None] raise. *)
Theorem minutes_to_hhmm_clock_text :
  (forall n, minutes_to_hhmm (VInt n) = Ok (clock (Z.max 0 n mod 1440))) /\
  (forall q,
     minutes_to_hhmm (VFloat (FFin q))
     = Ok (clock (Z.max 0 (Z.quot (Qnum q) (Zpos (Qden q))) mod 1440))) /\
  (forall n, clock_text (clock (n mod 1440)) = true) /\
  clock 0 = "0000" /\
  minutes_to_hhmm (VFloat (FInf true)) = Ok "0000" /\
  minutes_to_hhmm (VFloat (FInf false)) = Raise OverflowError /\
  minutes_to_hhmm (VFloat FNan) = Raise ValueError /\
  minutes_to_hhmm VNone = Raise TypeError /\
  (forall s, minutes_to_hhmm (VStr s) = Raise TypeError).
Proof.
  split; [exact minutes_to_hhmm_any_int |].
  split; [intros q; rewrite minutes_to_hhmm_finite; apply minutes_to_hhmm_any_int |].
  split; [intros n; apply clock_is_clock_text, Z.mod_pos_bound; lia |].
  repeat split; reflexivity.
Qed.

(** ** The "+30min" button *)

Lemma clock_not_midnight (k : Z) :
  0 < k < 1440 -> py_ne_str (VStr (clock k)) "0000" = true.
Proof.
  intros Hk. unfold py_ne_str. apply negb_true_iff.
  destruct (String.eqb (clock k) "0000") eqn:E; [| reflexivity].
  apply String.eqb_eq in E.
  pose proof (decode_encode_day k ltac:(lia)) as D.
  fold (clock k) in D. rewrite E in D.
  assert (D0 : hhmm_to_minutes (VStr "0000") = Ok 0) by reflexivity.
  rewrite D0 in D. injection D as D. lia.
Qed.

Lemma advance_cell_minutes (current : pyval) (m : Z) :
  py_ne_str current "0000" = true ->
  hhmm_to_minutes current = Ok m ->
  advance_cell current = Ok (VStr (clock ((m + 30) mod 1440))).
Proof.
  intros Hne Hm. unfold advance_cell. rewrite Hne, Hm. cbn [bind].
  pose proof (hhmm_to_minutes_range _ _ Hm) as R.
  rewrite minutes_to_hhmm_int by lia. reflexivity.
Qed.

Lemma py_ne_str_false (current : pyval) (s : string) :
  py_ne_str current s = false -> current = VStr s.
Proof.
  destruct current as [| z | f | t]; simpl; try discriminate.
  intros H. apply negb_false_iff, String.eqb_eq in H. congruence.
Qed.

(** X4. One click on one elapsed cell: the text "0000" is left alone; a
    cell whose value [float()] turns into an infinity makes the click
    raise [OverflowError]; every other cell, decoding to [m] minutes
    (0 for a missing or unreadable one), becomes the clock text of
    [(m + 30) mod 1440], which decodes to just that: past midnight the
    elapsed time starts again from 0. *)
Theorem advance_cell_outcomes (current : pyval) :
  (current = VStr "0000" /\ advance_cell current = Ok current) \/
  (overflows current /\ advance_cell current = Raise OverflowError) \/
  (exists m,
     current <> VStr "0000" /\
     hhmm_to_minutes current = Ok m /\
     advance_cell current = Ok (VStr (clock ((m + 30) mod 1440))) /\
     hhmm_to_minutes (VStr (clock ((m + 30) mod 1440)))
     = Ok ((m + 30) mod 1440)).
Proof.
  destruct (py_ne_str current "0000") eqn:Hne.
  - right. destruct (hhmm_to_minutes current) as [m | e] eqn:Hm.
    + right. exists m. split; [| split; [reflexivity | split]].
      * intros ->. discriminate Hne.
      * exact (advance_cell_minutes _ _ Hne Hm).
      * apply decode_encode_day. apply Z.mod_pos_bound. lia.
    + left. destruct (hhmm_to_minutes_raise_inv _ _ Hm) as [-> Ho].
      split; [exact Ho |]. unfold advance_cell. rewrite Hne, Hm. reflexivity.
  - left. split; [exact (py_ne_str_false _ _ Hne) |].
    unfold advance_cell. rewrite Hne. reflexivity.
Qed.

(** X5. A missing, empty or unreadable elapsed cell, and the number 0,
    count as 0 minutes and become "0030" at the first click, while the text
    "0000" never moves. *)
Theorem advance_cell_from_nothing (current : pyval) :
  hhmm_to_minutes current = Ok 0 ->
  current <> VStr "0000" ->
  advance_cell current = Ok (VStr "0030").
Proof.
  intros Hm Hne.
  destruct (py_ne_str current "0000") eqn:E.
  - rewrite (advance_cell_minutes _ _ E Hm). reflexivity.
  - elim Hne. exact (py_ne_str_false _ _ E).
Qed.

Lemma advance_cell_from_nothing_witness :
  advance_cell VNone = Ok (VStr "0030") /\
  advance_cell (VStr "") = Ok (VStr "0030") /\
  advance_cell (VStr "n/a") = Ok (VStr "0030") /\
  advance_cell (VStr "0") = Ok (VStr "0030") /\
  advance_cell (VInt 0) = Ok (VStr "0030").
Proof.
  split; [apply advance_cell_from_nothing; [reflexivity | discriminate] |].
  split; [apply advance_cell_from_nothing; [reflexivity | discriminate] |].
  split; [apply advance_cell_from_nothing; [reflexivity | discriminate] |].
  split; apply advance_cell_from_nothing;
    solve [reflexivity | discriminate].
Defined.

Lemma advance_cell_times_add (a b : nat) (current : pyval) :
  advance_cell_times (a + b) current
  = (next <- advance_cell_times a current ;; advance_cell_times b next).
Proof.
  revert current. induction a as [| a IH]; intros current; [reflexivity |].
  cbn [Nat.add advance_cell_times].
  destruct (advance_cell current) as [v | e]; cbn [bind]; [apply IH | reflexivity].
Qed.

Lemma advance_cell_times_midnight (n : nat) :
  advance_cell_times n (VStr "0000") = Ok (VStr "0000").
Proof. induction n as [| n IH]; [reflexivity | exact IH]. Qed.

Lemma advance_clock (k : Z) :
  0 < k < 1440 ->
  advance_cell (VStr (clock k)) = Ok (VStr (clock ((k + 30) mod 1440))).
Proof.
  intros Hk. apply advance_cell_minutes.
  - apply clock_not_midnight. exact Hk.
  - apply decode_encode_day. lia.
Qed.

(** [n] clicks that do not pass through midnight on the way. *)
Lemma advance_cell_times_clock (n : nat) :
  forall k,
    0 <= k < 1440 ->
    (forall j, (j < n)%nat -> (k + 30 * Z.of_nat j) mod 1440 <> 0) ->
    advance_cell_times n (VStr (clock k))
    = Ok (VStr (clock ((k + 30 * Z.of_nat n) mod 1440))).
Proof.
  induction n as [| n IH]; intros k Hk Hj.
  - cbn [advance_cell_times]. do 2 f_equal. f_equal.
    rewrite Z.mod_small; lia.
  - cbn [advance_cell_times].
    assert (Hk0 : k <> 0).
    { intros ->. apply (Hj 0%nat); [lia | reflexivity]. }
    rewrite advance_clock by lia. cbn [bind].
    rewrite IH.
    + do 2 f_equal. f_equal.
      rewrite Zplus_mod_idemp_l. f_equal. lia.
    + apply Z.mod_pos_bound. lia.
    + intros j Hlt. rewrite Zplus_mod_idemp_l.
      replace (k + 30 + 30 * Z.of_nat j) with (k + 30 * Z.of_nat (S j)) by lia.
      apply Hj. lia.
Qed.

(** X6. Repeated clicks on a clock cell of [k] minutes, [0 < k < 1440].
    If [k] is a multiple of 30 the cell reaches "0000" when the elapsed
    time gets to 24 hours, after [(1440 - k) / 30] clicks, and then stays
    there whatever the number of further clicks.  Otherwise it never gets
    to "0000": after [n] clicks it is the clock of [(k + 30 n) mod 1440],
    wrapping past midnight for ever. *)
Theorem advance_cell_times_fate (k : Z) :
  0 < k < 1440 ->
  (k mod 30 = 0 ->
   forall more,
     advance_cell_times (Z.to_nat ((1440 - k) / 30) + more) (VStr (clock k))
     = Ok (VStr "0000")) /\
  (k mod 30 <> 0 ->
   forall n,
     advance_cell_times n (VStr (clock k))
     = Ok (VStr (clock ((k + 30 * Z.of_nat n) mod 1440))) /\
     (k + 30 * Z.of_nat n) mod 1440 <> 0).
Proof.
  intros Hk. split.
  - intros Hm more.
    pose proof (Z.div_mod k 30 ltac:(lia)) as Ek. rewrite Hm in Ek.
    set (c := k / 30) in *.
    assert (Hc : (1440 - k) / 30 = 48 - c).
    { symmetry. apply Z.div_unique with (r := 0); lia. }
    rewrite Hc. rewrite advance_cell_times_add.
    rewrite advance_cell_times_clock.
    + cbn [bind].
      replace (k + 30 * Z.of_nat (Z.to_nat (48 - c))) with (1 * 1440) by lia.
      rewrite Z.mod_mul by lia.
      apply advance_cell_times_midnight.
    + lia.
    + intros j Hj. rewrite Z.mod_small; lia.
  - intros Hm n.
    assert (Hnz : forall j : nat, (k + 30 * Z.of_nat j) mod 1440 <> 0).
    { intros j E.
      apply Hm.
      pose proof (Z.div_mod (k + 30 * Z.of_nat j) 1440 ltac:(lia)) as D.
      rewrite E in D.
      replace k with (0 + (48 * ((k + 30 * Z.of_nat j) / 1440) - Z.of_nat j) * 30)
        by lia.
      rewrite Z.mod_add by lia. reflexivity. }
    split; [| apply Hnz].
    apply advance_cell_times_clock; [lia |].
    intros j _. apply Hnz.
Qed.

Lemma advance_cell_times_fate_witness :
  (forall more,
     advance_cell_times (Z.to_nat ((1440 - 1380) / 30) + more) (VStr (clock 1380))
     = Ok (VStr "0000")) /\
  (forall n,
     advance_cell_times n (VStr (clock 1395))
     = Ok (VStr (clock ((1395 + 30 * Z.of_nat n) mod 1440))) /\
     (1395 + 30 * Z.of_nat n) mod 1440 <> 0).
Proof.
  split.
  - apply (advance_cell_times_fate 1380); [lia | reflexivity].
  - apply (advance_cell_times_fate 1395); [lia | discriminate].
Defined.

(** ** The table under the button *)

Lemma text_0000_finite : ~ overflows (VStr "0000").
Proof. intros [H | [neg H]]; vm_compute in H; discriminate H. Qed.

(** One column of the inner loop, on a cell [c]: the text "0000" is
    skipped, a cell the click gets past is written, and any other cell
    ends the loop. *)
Lemma advance_columns_step (numeric : string -> bool) (col : string)
  (rest : list string) (aircraft row : aircraft_row) (c : pyval) :
  get_cell aircraft col = Ok c ->
  (c = VStr "0000" /\ cell_passes numeric col c /\ advance_cell c = Ok c /\
   advance_columns numeric (col :: rest) aircraft row
   = advance_columns numeric rest aircraft row) \/
  (cell_passes numeric col c /\
   exists t, advance_cell c = Ok (VStr t) /\
             advance_columns numeric (col :: rest) aircraft row
             = advance_columns numeric rest aircraft
                               (set_cell row col (VStr t))) \/
  (~ cell_passes numeric col c /\
   exists e, raised_by c e /\
             (e = OverflowError \/ e = TypeError /\ numeric col = true) /\
             advance_columns numeric (col :: rest) aircraft row
             = (row, Some e)).
Proof.
  intros Hget. cbn [advance_columns]. rewrite Hget.
  destruct (py_ne_str c "0000") eqn:E.
  - destruct (hhmm_to_minutes c) as [m | e] eqn:Hm; cbn [bind].
    + pose proof (hhmm_to_minutes_range _ _ Hm) as Rm.
      assert (Hfin : ~ overflows c).
      { intros Ho. apply hhmm_to_minutes_overflows in Ho. congruence. }
      cbv zeta. rewrite minutes_to_hhmm_int by lia. cbn [bind].
      set (t := (format_02d ((m + 30) mod 1440 / 60)
                 ++ format_02d (((m + 30) mod 1440) mod 60))%string).
      unfold at_set. destruct (numeric col) eqn:En.
      * right. right. split.
        -- intros [_ H]. specialize (H En). subst c.
           discriminate E.
        -- exists TypeError. split; [| split; [right; split |]];
             try reflexivity.
           split; [intros Ho; contradiction | reflexivity].
      * right. left. split.
        -- split; [exact Hfin | intros H; congruence].
        -- exists t. split; [| reflexivity].
           unfold advance_cell. rewrite E, Hm. cbn [bind]. cbv zeta.
           rewrite minutes_to_hhmm_int by lia. reflexivity.
    + destruct (hhmm_to_minutes_raise_inv _ _ Hm) as [-> Ho].
      right. right. split.
      * intros [H _]. contradiction.
      * exists OverflowError. split; [| split; [left |]]; try reflexivity.
        split; [reflexivity | intros H; contradiction].
  - apply py_ne_str_false in E. subst c. left.
    split; [reflexivity |].
    split; [split; [exact text_0000_finite | reflexivity] |].
    split; reflexivity.
Qed.

(** The inner loop on one row: either every cell gets past and the row is
    advanced, or the first cell that does not ends the loop, with the
    cells before it advanced and the others as they were. *)
Lemma advance_row_spec (numeric : string -> bool) (a : aircraft_row) :
  same_fixed_cells a (fst (advance_row numeric a)) /\
  ((row_passes numeric a /\
    snd (advance_row numeric a) = None /\
    advanced_cells a (fst (advance_row numeric a))) \/
   (~ row_passes numeric a /\
    exists e,
      snd (advance_row numeric a) = Some e /\
      (e = OverflowError \/ e = TypeError /\ ~ text_columns numeric) /\
      (~ cell_passes numeric "CA Elapsed FDP (HHMM)" (CA_Elapsed_FDP_HHMM a) ->
       raised_by (CA_Elapsed_FDP_HHMM a) e /\
       CA_Elapsed_FDP_HHMM (fst (advance_row numeric a)) = CA_Elapsed_FDP_HHMM a /\
       FO_Elapsed_FDP_HHMM (fst (advance_row numeric a)) = FO_Elapsed_FDP_HHMM a /\
       Cabin_Elapsed_FDP_HHMM (fst (advance_row numeric a))
       = Cabin_Elapsed_FDP_HHMM a) /\
      (cell_passes numeric "CA Elapsed FDP (HHMM)" (CA_Elapsed_FDP_HHMM a) ->
       ~ cell_passes numeric "FO Elapsed FDP (HHMM)" (FO_Elapsed_FDP_HHMM a) ->
       raised_by (FO_Elapsed_FDP_HHMM a) e /\
       advance_cell (CA_Elapsed_FDP_HHMM a)
       = Ok (CA_Elapsed_FDP_HHMM (fst (advance_row numeric a))) /\
       FO_Elapsed_FDP_HHMM (fst (advance_row numeric a)) = FO_Elapsed_FDP_HHMM a /\
       Cabin_Elapsed_FDP_HHMM (fst (advance_row numeric a))
       = Cabin_Elapsed_FDP_HHMM a) /\
      (cell_passes numeric "CA Elapsed FDP (HHMM)" (CA_Elapsed_FDP_HHMM a) ->
       cell_passes numeric "FO Elapsed FDP (HHMM)" (FO_Elapsed_FDP_HHMM a) ->
       raised_by (Cabin_Elapsed_FDP_HHMM a) e /\
       advance_cell (CA_Elapsed_FDP_HHMM a)
       = Ok (CA_Elapsed_FDP_HHMM (fst (advance_row numeric a))) /\
       advance_cell (FO_Elapsed_FDP_HHMM a)
       = Ok (FO_Elapsed_FDP_HHMM (fst (advance_row numeric a))) /\
       Cabin_Elapsed_FDP_HHMM (fst (advance_row numeric a))
       = Cabin_Elapsed_FDP_HHMM a))).
Proof.
  assert (Hnum : forall col, In col elapsed_columns ->
                   numeric col = true -> ~ text_columns numeric).
  { intros col Hin Hc Ht. rewrite (Ht col Hin) in Hc. discriminate Hc. }
  assert (In1 : In "CA Elapsed FDP (HHMM)" elapsed_columns)
    by (left; reflexivity).
  assert (In2 : In "FO Elapsed FDP (HHMM)" elapsed_columns)
    by (right; left; reflexivity).
  assert (In3 : In "Cabin Elapsed FDP (HHMM)" elapsed_columns)
    by (right; right; left; reflexivity).
  destruct a as [tail caci camax ca foci fomax fo cabci cabmax cabin].
  unfold advance_row, elapsed_columns, row_passes.
  cbn [CA_Elapsed_FDP_HHMM FO_Elapsed_FDP_HHMM Cabin_Elapsed_FDP_HHMM].
  set (a := {| Tail_Number := tail; CA_Check_in := caci;
               CA_Max_FDP_hours := camax; CA_Elapsed_FDP_HHMM := ca;
               FO_Check_in := foci; FO_Max_FDP_hours := fomax;
               FO_Elapsed_FDP_HHMM := fo; Cabin_Check_in := cabci;
               Cabin_Max_FDP_hours := cabmax;
               Cabin_Elapsed_FDP_HHMM := cabin |}).
  assert (G1 : get_cell a "CA Elapsed FDP (HHMM)" = Ok ca) by reflexivity.
  assert (G2 : get_cell a "FO Elapsed FDP (HHMM)" = Ok fo) by reflexivity.
  assert (G3 : get_cell a "Cabin Elapsed FDP (HHMM)" = Ok cabin) by reflexivity.
  destruct (advance_columns_step numeric "CA Elapsed FDP (HHMM)"
              ["FO Elapsed FDP (HHMM)"; "Cabin Elapsed FDP (HHMM)"] a a ca G1)
    as [(E1 & P1 & A1 & ->) | [(P1 & t1 & A1 & ->) | (N1 & e & R1 & X1 & ->)]].
  3: { cbn [fst snd]. split; [repeat split |]. right.
       split; [intros (H & _); contradiction |].
       exists e. split; [reflexivity |].
       split; [destruct X1 as [-> | [-> Hc]];
               [left; reflexivity | right; split; [reflexivity | eauto]] |].
       split; [intros _; repeat split; apply R1 |].
       split; intros H; contradiction. }
  - (* the captain's cell is not written *)
    destruct (advance_columns_step numeric "FO Elapsed FDP (HHMM)"
                ["Cabin Elapsed FDP (HHMM)"] a a fo G2)
      as [(E2 & P2 & A2 & ->) | [(P2 & t2 & A2 & ->) | (N2 & e & R2 & X2 & ->)]].
    3: { cbn [fst snd]. split; [repeat split |]. right.
         split; [intros (_ & H & _); contradiction |].
         exists e. split; [reflexivity |].
         split; [destruct X2 as [-> | [-> Hc]];
                 [left; reflexivity | right; split; [reflexivity | eauto]] |].
         split; [intros H; contradiction |].
         split; [intros _ _; repeat split; solve [apply R2 | exact A1] |].
         intros _ H; contradiction. }
    + destruct (advance_columns_step numeric "Cabin Elapsed FDP (HHMM)"
                  [] a a cabin G3)
        as [(E3 & P3 & A3 & ->) | [(P3 & t3 & A3 & ->) | (N3 & e & R3 & X3 & ->)]].
      3: { cbn [fst snd]. split; [repeat split |]. right.
           split; [intros (_ & _ & H); contradiction |].
           exists e. split; [reflexivity |].
           split; [destruct X3 as [-> | [-> Hc]];
                   [left; reflexivity | right; split; [reflexivity | eauto]] |].
           split; [intros H; contradiction |].
           split; [intros _ H; contradiction |].
           intros _ _; repeat split; solve [apply R3 | exact A1 | exact A2]. }
      * cbn [advance_columns fst snd]. split; [repeat split |]. left.
        split; [repeat split; solve [apply P1 | apply P2 | apply P3] |].
        split; [reflexivity |]. repeat split; assumption.
      * cbn [advance_columns fst snd]. split; [repeat split |]. left.
        split; [repeat split; solve [apply P1 | apply P2 | apply P3] |].
        split; [reflexivity |]. repeat split; assumption.
    + destruct (advance_columns_step numeric "Cabin Elapsed FDP (HHMM)" [] a
                  (set_cell a "FO Elapsed FDP (HHMM)" (VStr t2)) cabin G3)
        as [(E3 & P3 & A3 & ->) | [(P3 & t3 & A3 & ->) | (N3 & e & R3 & X3 & ->)]].
      3: { cbn [fst snd]. split; [repeat split |]. right.
           split; [intros (_ & _ & H); contradiction |].
           exists e. split; [reflexivity |].
           split; [destruct X3 as [-> | [-> Hc]];
                   [left; reflexivity | right; split; [reflexivity | eauto]] |].
           split; [intros H; contradiction |].
           split; [intros _ H; contradiction |].
           intros _ _; repeat split; solve [apply R3 | exact A1 | exact A2]. }
      * cbn [advance_columns fst snd]. split; [repeat split |]. left.
        split; [repeat split; solve [apply P1 | apply P2 | apply P3] |].
        split; [reflexivity |]. repeat split; assumption.
      * cbn [advance_columns fst snd]. split; [repeat split |]. left.
        split; [repeat split; solve [apply P1 | apply P2 | apply P3] |].
        split; [reflexivity |]. repeat split; assumption.
  - (* the captain's cell is written *)
    destruct (advance_columns_step numeric "FO Elapsed FDP (HHMM)"
                ["Cabin Elapsed FDP (HHMM)"] a
                (set_cell a "CA Elapsed FDP (HHMM)" (VStr t1)) fo G2)
      as [(E2 & P2 & A2 & ->) | [(P2 & t2 & A2 & ->) | (N2 & e & R2 & X2 & ->)]].
    3: { cbn [fst snd]. split; [repeat split |]. right.
         split; [intros (_ & H & _); contradiction |].
         exists e. split; [reflexivity |].
         split; [destruct X2 as [-> | [-> Hc]];
                 [left; reflexivity | right; split; [reflexivity | eauto]] |].
         split; [intros H; contradiction |].
         split; [intros _ _; repeat split; solve [apply R2 | exact A1] |].
         intros _ H; contradiction. }
    + destruct (advance_columns_step numeric "Cabin Elapsed FDP (HHMM)" [] a
                  (set_cell a "CA Elapsed FDP (HHMM)" (VStr t1)) cabin G3)
        as [(E3 & P3 & A3 & ->) | [(P3 & t3 & A3 & ->) | (N3 & e & R3 & X3 & ->)]].
      3: { cbn [fst snd]. split; [repeat split |]. right.
           split; [intros (_ & _ & H); contradiction |].
           exists e. split; [reflexivity |].
           split; [destruct X3 as [-> | [-> Hc]];
                   [left; reflexivity | right; split; [reflexivity | eauto]] |].
           split; [intros H; contradiction |].
           split; [intros _ H; contradiction |].
           intros _ _; repeat split; solve [apply R3 | exact A1 | exact A2]. }
      * cbn [advance_columns fst snd]. split; [repeat split |]. left.
        split; [repeat split; solve [apply P1 | apply P2 | apply P3] |].
        split; [reflexivity |]. repeat split; assumption.
      * cbn [advance_columns fst snd]. split; [repeat split |]. left.
        split; [repeat split; solve [apply P1 | apply P2 | apply P3] |].
        split; [reflexivity |]. repeat split; assumption.
    + destruct (advance_columns_step numeric "Cabin Elapsed FDP (HHMM)" [] a
                  (set_cell (set_cell a "CA Elapsed FDP (HHMM)" (VStr t1))
                            "FO Elapsed FDP (HHMM)" (VStr t2)) cabin G3)
        as [(E3 & P3 & A3 & ->) | [(P3 & t3 & A3 & ->) | (N3 & e & R3 & X3 & ->)]].
      3: { cbn [fst snd]. split; [repeat split |]. right.
           split; [intros (_ & _ & H); contradiction |].
           exists e. split; [reflexivity |].
           split; [destruct X3 as [-> | [-> Hc]];
                   [left; reflexivity | right; split; [reflexivity | eauto]] |].
           split; [intros H; contradiction |].
           split; [intros _ H; contradiction |].
           intros _ _; repeat split; solve [apply R3 | exact A1 | exact A2]. }
      * cbn [advance_columns fst snd]. split; [repeat split |]. left.
        split; [repeat split; solve [apply P1 | apply P2 | apply P3] |].
        split; [reflexivity |]. repeat split; assumption.
      * cbn [advance_columns fst snd]. split; [repeat split |]. left.
        split; [repeat split; solve [apply P1 | apply P2 | apply P3] |].
        split; [reflexivity |]. repeat split; assumption.
Qed.

Lemma simulate_30min_cons (numeric : string -> bool) (a : aircraft_row)
  (rest : list aircraft_row) :
  simulate_30min numeric (a :: rest) =
  match snd (advance_row numeric a) with
  | Some e => (fst (advance_row numeric a) :: rest, Some e)
  | None =>
      (fst (advance_row numeric a) :: fst (simulate_30min numeric rest),
       snd (simulate_30min numeric rest))
  end.
Proof.
  cbn [simulate_30min]. fold (advance_row numeric a).
  destruct (advance_row numeric a) as [row [e |]]; simpl; [reflexivity |].
  destruct (simulate_30min numeric rest); reflexivity.
Qed.

Lemma same_fixed_cells_refl (a : aircraft_row) : same_fixed_cells a a.
Proof. repeat split. Qed.

(** With text columns a cell gets past the click unless it is infinite. *)
Lemma row_passes_text (numeric : string -> bool) (a : aircraft_row) :
  text_columns numeric ->
  (row_passes numeric a <->
   ~ overflows (CA_Elapsed_FDP_HHMM a) /\
   ~ overflows (FO_Elapsed_FDP_HHMM a) /\
   ~ overflows (Cabin_Elapsed_FDP_HHMM a)).
Proof.
  intros Ht. unfold row_passes, cell_passes.
  rewrite !Ht by (simpl; tauto).
  split.
  - intros ((H1 & _) & (H2 & _) & (H3 & _)). tauto.
  - intros (H1 & H2 & H3).
    repeat split; solve [assumption | intros H; discriminate H].
Qed.

(** The outer loop, by induction on the table. *)
Lemma simulate_30min_rows (numeric : string -> bool)
  (table : list aircraft_row) :
  List.length (fst (simulate_30min numeric table)) = List.length table /\
  Forall2 same_fixed_cells table (fst (simulate_30min numeric table)) /\
  (snd (simulate_30min numeric table) = None \/
   snd (simulate_30min numeric table) = Some OverflowError \/
   snd (simulate_30min numeric table) = Some TypeError /\
   ~ text_columns numeric) /\
  (snd (simulate_30min numeric table) = None
   <-> Forall (row_passes numeric) table) /\
  (Forall (row_passes numeric) table ->
   Forall2 advanced_cells table (fst (simulate_30min numeric table))).
Proof.
  induction table as [| a rest (IH1 & IH2 & IH3 & IH4 & IH5)].
  - simpl. repeat split; auto.
  - rewrite simulate_30min_cons.
    destruct (advance_row_spec numeric a)
      as (Hf & [(Hp & Hs & Ha) | (Hn & e & Hs & He & _)]); rewrite Hs;
      cbn [fst snd].
    + split; [simpl; congruence |].
      split; [constructor; assumption |].
      split; [exact IH3 |].
      split.
      * split.
        -- intros H. constructor; [exact Hp | apply IH4; exact H].
        -- intros H. inversion H. apply IH4. assumption.
      * intros H. inversion H; subst. constructor.
        -- exact Ha.
        -- apply IH5. assumption.
    + split; [reflexivity |].
      split; [constructor; [exact Hf |];
              clear; induction rest; constructor;
              [apply same_fixed_cells_refl | assumption] |].
      split; [destruct He as [-> | [-> Ht]]; [right; left; reflexivity |
              right; right; split; [reflexivity | exact Ht]] |].
      split; [split; [discriminate | intros H; inversion H; contradiction] |].
      intros H. inversion H. contradiction.
Qed.

(** X7. A click on the button, over the whole table, whatever the dtypes
    of its elapsed columns: the table keeps its length and order, and
    every row its tail number, check-in and maximum cells.  The click
    either runs through or stops on an [OverflowError] or a [TypeError],
    nothing else.  It runs through exactly when every row gets past it (no
    elapsed cell is infinite, and every cell of a numeric column is the
    text "0000"), and then every elapsed cell holds what one click leaves
    of it.  With text columns, as the application builds them, it never
    raises [TypeError], and it runs through exactly when no elapsed cell
    is infinite. *)
Theorem simulate_30min_table (numeric : string -> bool)
  (table : list aircraft_row) :
  List.length (fst (simulate_30min numeric table)) = List.length table /\
  Forall2 same_fixed_cells table (fst (simulate_30min numeric table)) /\
  (snd (simulate_30min numeric table) = None \/
   snd (simulate_30min numeric table) = Some OverflowError \/
   snd (simulate_30min numeric table) = Some TypeError) /\
  (snd (simulate_30min numeric table) = None
   <-> Forall (row_passes numeric) table) /\
  (Forall (row_passes numeric) table ->
   Forall2 advanced_cells table (fst (simulate_30min numeric table))) /\
  (text_columns numeric ->
   snd (simulate_30min numeric table) <> Some TypeError /\
   (snd (simulate_30min numeric table) = None
    <-> Forall (fun a => ~ overflows (CA_Elapsed_FDP_HHMM a) /\
                         ~ overflows (FO_Elapsed_FDP_HHMM a) /\
                         ~ overflows (Cabin_Elapsed_FDP_HHMM a)) table)).
Proof.
  destruct (simulate_30min_rows numeric table) as (M1 & M2 & M3 & M4 & M5).
  split; [exact M1 |]. split; [exact M2 |].
  split; [destruct M3 as [H | [H | [H _]]]; auto |].
  split; [exact M4 |]. split; [exact M5 |].
  intros Ht. split.
  - destruct M3 as [H | [H | [_ H]]]; [rewrite H | rewrite H |];
      solve [discriminate | contradiction].
  - rewrite M4. clear - Ht. induction table as [| a rest IH].
    + split; constructor.
    + split; intros H; inversion H; subst; constructor;
        solve [apply (row_passes_text numeric a Ht); assumption
              | apply IH; assumption].
Qed.

Lemma simulate_30min_table_witness :
  Forall2 advanced_cells [N123AA; N456BB; N789CC]
          (fst (simulate_30min (fun _ => false) [N123AA; N456BB; N789CC])).
Proof.
  apply (simulate_30min_table (fun _ => false) [N123AA; N456BB; N789CC]).
  repeat (apply Forall_cons;
          [repeat split;
           solve [ intros [H | [neg H]]; vm_compute in H; discriminate H
                 | intros H; discriminate H ] |]).
  apply Forall_nil.
Defined.

(** X8. A row that does not get past the click cuts it short and leaves
    the table half written.  The rows before it are advanced and the rows
    after it untouched.  In the row itself the cells before the first one
    that does not get past are advanced, that cell and those after it are
    as they were, and the other columns are unchanged.  The exception is
    [OverflowError] when that cell is infinite and [TypeError] otherwise
    (a cell to write in a numeric column). *)
Theorem simulate_30min_cut_short (numeric : string -> bool)
  (before after : list aircraft_row) (bad : aircraft_row) :
  Forall (row_passes numeric) before ->
  ~ row_passes numeric bad ->
  exists before' bad' e,
    simulate_30min numeric (before ++ bad :: after)%list
    = ((before' ++ bad' :: after)%list, Some e) /\
    Forall2 advanced_cells before before' /\
    Forall2 same_fixed_cells before before' /\
    same_fixed_cells bad bad' /\
    (e = OverflowError \/ e = TypeError /\ ~ text_columns numeric) /\
    (~ cell_passes numeric "CA Elapsed FDP (HHMM)" (CA_Elapsed_FDP_HHMM bad) ->
     raised_by (CA_Elapsed_FDP_HHMM bad) e /\
     CA_Elapsed_FDP_HHMM bad' = CA_Elapsed_FDP_HHMM bad /\
     FO_Elapsed_FDP_HHMM bad' = FO_Elapsed_FDP_HHMM bad /\
     Cabin_Elapsed_FDP_HHMM bad' = Cabin_Elapsed_FDP_HHMM bad) /\
    (cell_passes numeric "CA Elapsed FDP (HHMM)" (CA_Elapsed_FDP_HHMM bad) ->
     ~ cell_passes numeric "FO Elapsed FDP (HHMM)" (FO_Elapsed_FDP_HHMM bad) ->
     raised_by (FO_Elapsed_FDP_HHMM bad) e /\
     advance_cell (CA_Elapsed_FDP_HHMM bad) = Ok (CA_Elapsed_FDP_HHMM bad') /\
     FO_Elapsed_FDP_HHMM bad' = FO_Elapsed_FDP_HHMM bad /\
     Cabin_Elapsed_FDP_HHMM bad' = Cabin_Elapsed_FDP_HHMM bad) /\
    (cell_passes numeric "CA Elapsed FDP (HHMM)" (CA_Elapsed_FDP_HHMM bad) ->
     cell_passes numeric "FO Elapsed FDP (HHMM)" (FO_Elapsed_FDP_HHMM bad) ->
     raised_by (Cabin_Elapsed_FDP_HHMM bad) e /\
     advance_cell (CA_Elapsed_FDP_HHMM bad) = Ok (CA_Elapsed_FDP_HHMM bad') /\
     advance_cell (FO_Elapsed_FDP_HHMM bad) = Ok (FO_Elapsed_FDP_HHMM bad') /\
     Cabin_Elapsed_FDP_HHMM bad' = Cabin_Elapsed_FDP_HHMM bad).
Proof.
  intros Hb Hbad.
  destruct (advance_row_spec numeric bad)
    as (Hf & [(Hp & _) | (_ & e & Hs & He & C1 & C2 & C3)]);
    [contradiction |].
  exists (fst (simulate_30min numeric before)),
         (fst (advance_row numeric bad)), e.
  split; [| split; [| split; [| split; [exact Hf |]]]].
  - induction before as [| a rest IH].
    + cbn [app]. rewrite simulate_30min_cons, Hs. reflexivity.
    + inversion Hb as [| ? ? Ha Hrest]; subst.
      cbn [app]. rewrite !simulate_30min_cons.
      destruct (advance_row_spec numeric a)
        as (_ & [(_ & -> & _) | (Hn & _)]); [| contradiction].
      rewrite (IH Hrest). reflexivity.
  - apply (simulate_30min_rows numeric before). exact Hb.
  - apply (simulate_30min_rows numeric before).
  - split; [exact He |]. split; [exact C1 |]. split; [exact C2 | exact C3].
Qed.

Lemma simulate_30min_cut_short_witness :
  exists before' bad' e,
    simulate_30min (fun _ => false)
                   ([N123AA] ++ endless_first_officer :: [N789CC])%list
    = ((before' ++ bad' :: [N789CC])%list, Some e) /\
    Forall2 advanced_cells [N123AA] before' /\
    raised_by (FO_Elapsed_FDP_HHMM endless_first_officer) e /\
    advance_cell (CA_Elapsed_FDP_HHMM endless_first_officer)
    = Ok (CA_Elapsed_FDP_HHMM bad') /\
    FO_Elapsed_FDP_HHMM bad' = FO_Elapsed_FDP_HHMM endless_first_officer /\
    Cabin_Elapsed_FDP_HHMM bad' = Cabin_Elapsed_FDP_HHMM endless_first_officer.
Proof.
  assert (Hinf : overflows (FO_Elapsed_FDP_HHMM endless_first_officer))
    by (right; exists false; vm_compute; reflexivity).
  assert (Hb : Forall (row_passes (fun _ => false)) [N123AA]).
  { apply Forall_cons; [| apply Forall_nil].
    repeat split;
      solve [ intros [H | [neg H]]; vm_compute in H; discriminate H
            | intros H; discriminate H ]. }
  assert (Hbad : ~ row_passes (fun _ => false) endless_first_officer).
  { intros (_ & (H & _) & _). exact (H Hinf). }
  destruct (simulate_30min_cut_short (fun _ => false) [N123AA] [N789CC]
              endless_first_officer Hb Hbad)
    as (before' & bad' & e & E & A & _ & _ & _ & _ & C2 & _).
  exists before', bad', e.
  split; [exact E |]. split; [exact A |].
  apply C2.
  - split; [| intros H; discriminate H].
    intros [H | [neg H]]; vm_compute in H; discriminate H.
  - intros (H & _). exact (H Hinf).
Defined.

(** ** The form *)

Lemma fdp_limit_two_segments (start_time_hhmm : string) :
  calculate_fdp_limits start_time_hhmm 2 = 9 \/
  calculate_fdp_limits start_time_hhmm 2 = 11.
Proof.
  destruct (calculate_fdp_limits_values start_time_hhmm 2) as [H | H];
    [left | right]; exact H.
Qed.

(** The evaluation of a crew with a limit from the form and nothing
    elapsed. *)
Lemma fresh_crew (row : aircraft_row) (crew_type start_time_hhmm : string) :
  crew_cells row crew_type
  = (VInt (calculate_fdp_limits start_time_hhmm 2), VStr "0000") ->
  status (calculate_progress_data row crew_type) = "ok" /\
  (remaining_hhmm (calculate_progress_data row crew_type) = "0900" \/
   remaining_hhmm (calculate_progress_data row crew_type) = "1100").
Proof.
  intros H. unfold calculate_progress_data, calculate_progress_data_try.
  rewrite H.
  destruct (fdp_limit_two_segments start_time_hhmm) as [-> | ->].
  - split; [| left]; vm_compute; reflexivity.
  - split; [| right]; vm_compute; reflexivity.
Qed.

Lemma any_status_crew (s : string) (aircraft : aircraft_row) :
  any_status s (crew_data aircraft)
  = (String.eqb (status (calculate_progress_data aircraft "CA")) s
     || String.eqb (status (calculate_progress_data aircraft "FO")) s
     || String.eqb (status (calculate_progress_data aircraft "Cabin")) s)%bool.
Proof.
  unfold any_status, crew_data. cbn [existsb].
  rewrite orb_false_r, orb_assoc. reflexivity.
Qed.

Lemma fresh_aircraft_class
  (tail_number ca_checkin fo_checkin cabin_checkin : string) :
  aircraft_class (new_aircraft tail_number ca_checkin fo_checkin cabin_checkin
                               "0000" "0000" "0000") = "aircraft-card".
Proof.
  set (a := new_aircraft _ _ _ _ _ _ _).
  destruct (fresh_crew a "CA" ca_checkin eq_refl) as [H1 _].
  destruct (fresh_crew a "FO" fo_checkin eq_refl) as [H2 _].
  destruct (fresh_crew a "Cabin" cabin_checkin eq_refl) as [H3 _].
  rewrite aircraft_class_cases, !any_status_crew, H1, H2, H3. reflexivity.
Qed.

Lemma list_alert_normal (aircraft : aircraft_row)
  (lists : list pyval * list pyval) :
  aircraft_class aircraft = "aircraft-card" -> list_alert lists aircraft = lists.
Proof.
  rewrite aircraft_class_cases. unfold list_alert. destruct lists as [c w].
  destruct (any_status "critical" (crew_data aircraft)); [discriminate |].
  destruct (any_status "warning" (crew_data aircraft)); [discriminate |].
  reflexivity.
Qed.

Lemma count_alert_normal (aircraft : aircraft_row) (counts : Z * Z) :
  aircraft_class aircraft = "aircraft-card" -> count_alert counts aircraft = counts.
Proof.
  rewrite aircraft_class_cases. unfold count_alert. destruct counts as [c w].
  destruct (any_status "critical" (crew_data aircraft)); [discriminate |].
  destruct (any_status "warning" (crew_data aircraft)); [discriminate |].
  reflexivity.
Qed.

(** X9. Submitting the form with a tail number and the elapsed times left
    at "0000": whatever the check-in texts, the new row is appended with a
    limit of 11 hours (9 when the check-in does not parse) for each role,
    every role is "ok" with 9 or 11 hours left, the total goes up by one and
    the critical and warning counts and lists are those of the table
    before. *)
Theorem add_aircraft_fresh (table : list aircraft_row)
  (tail_number ca_checkin fo_checkin cabin_checkin : string) :
  tail_number <> "" ->
  let row := new_aircraft tail_number ca_checkin fo_checkin cabin_checkin
                          "0000" "0000" "0000" in
  let table' := add_aircraft table tail_number ca_checkin fo_checkin
                             cabin_checkin "0000" "0000" "0000" in
  table' = (table ++ [row])%list /\
  (forall crew_type,
     status (calculate_progress_data row crew_type) = "ok" /\
     (remaining_hhmm (calculate_progress_data row crew_type) = "0900" \/
      remaining_hhmm (calculate_progress_data row crew_type) = "1100")) /\
  statistics table'
  = Some (Z.of_nat (List.length table) + 1,
          fst (fold_left count_alert table (0, 0)),
          snd (fold_left count_alert table (0, 0))) /\
  alert_summary table' = Some (fold_left list_alert table ([], [])).
Proof.
  intros Hne row table'.
  assert (Ht : table' = (table ++ [row])%list).
  { unfold table', add_aircraft. destruct tail_number; [contradiction | reflexivity]. }
  assert (Hc : aircraft_class row = "aircraft-card")
    by apply fresh_aircraft_class.
  split; [exact Ht |]. split; [| split].
  - intros crew_type.
    destruct (String.eqb crew_type "CA") eqn:E1;
      [| destruct (String.eqb crew_type "FO") eqn:E2].
    + apply (fresh_crew row crew_type ca_checkin).
      unfold crew_cells. rewrite E1. reflexivity.
    + apply (fresh_crew row crew_type fo_checkin).
      unfold crew_cells. rewrite E1, E2. reflexivity.
    + apply (fresh_crew row crew_type cabin_checkin).
      unfold crew_cells. rewrite E1, E2. reflexivity.
  - rewrite Ht. unfold statistics.
    destruct (table ++ [row])%list eqn:E;
      [destruct table; discriminate E |].
    rewrite <- E. rewrite fold_left_app. cbn [fold_left].
    rewrite (count_alert_normal row _ Hc).
    destruct (fold_left count_alert table (0, 0)) as [c w]. cbn [fst snd].
    rewrite length_app. cbn [List.length]. do 2 f_equal. f_equal. lia.
  - rewrite Ht. unfold alert_summary.
    destruct (table ++ [row])%list eqn:E;
      [destruct table; discriminate E |].
    rewrite <- E. rewrite fold_left_app. cbn [fold_left].
    rewrite (list_alert_normal row _ Hc). reflexivity.
Qed.

Lemma add_aircraft_fresh_witness :
  statistics (add_aircraft [N123AA; N456BB; N789CC] "N900ZZ" "0800" "0800"
                           "0730" "0000" "0000" "0000")
  = Some (Z.of_nat (List.length [N123AA; N456BB; N789CC]) + 1,
          fst (fold_left count_alert [N123AA; N456BB; N789CC] (0, 0)),
          snd (fold_left count_alert [N123AA; N456BB; N789CC] (0, 0))).
Proof.
  apply (add_aircraft_fresh [N123AA; N456BB; N789CC] "N900ZZ" "0800" "0800" "0730").
  discriminate.
Defined.

(** X10. The form checks the tail number for emptiness only: an empty one
    leaves the table as it is, any other is appended after the rows already
    there, which are kept, even when a row with that tail number exists,
    and then the tail numbers of the table are no longer distinct. *)
Theorem add_aircraft_appends (table : list aircraft_row)
  (tail_number ca_checkin fo_checkin cabin_checkin
   ca_elapsed fo_elapsed cabin_elapsed : string) :
  let table' := add_aircraft table tail_number ca_checkin fo_checkin
                             cabin_checkin ca_elapsed fo_elapsed cabin_elapsed in
  (tail_number = "" -> table' = table) /\
  (tail_number <> "" ->
   map Tail_Number table' = (map Tail_Number table ++ [VStr tail_number])%list /\
   firstn (List.length table) table' = table /\
   List.length table' = S (List.length table) /\
   (In (VStr tail_number) (map Tail_Number table) ->
    ~ NoDup (map Tail_Number table'))).
Proof.
  intros table'. split.
  - intros ->. reflexivity.
  - intros Hne.
    assert (Ht : table' = (table ++ [new_aircraft tail_number ca_checkin fo_checkin
                                       cabin_checkin ca_elapsed fo_elapsed
                                       cabin_elapsed])%list).
    { unfold table', add_aircraft.
      destruct tail_number; [contradiction | reflexivity]. }
    rewrite Ht. split; [| split; [| split]].
    + rewrite map_app. reflexivity.
    + rewrite firstn_app, Nat.sub_diag, firstn_all. cbn [firstn].
      apply app_nil_r.
    + rewrite length_app. cbn [List.length]. lia.
    + intros Hin Hnd. rewrite map_app in Hnd. cbn [map] in Hnd.
      apply NoDup_remove_2 in Hnd. apply Hnd.
      rewrite app_nil_r. exact Hin.
Qed.

(** ** Cards *)

Lemma dict_get_missing {A : Type} (d : dict A) (key : string) :
  (forall v, ~ In (key, v) d) <-> dict_get d key = Raise KeyError.
Proof.
  induction d as [| [k v] r IH]; simpl.
  - split; [reflexivity | intros _ v H; exact H].
  - destruct (String.eqb k key) eqn:E.
    + apply String.eqb_eq in E. subst k. split; [| discriminate].
      intros H. elim (H v). left. reflexivity.
    + apply String.eqb_neq in E. rewrite <- IH. split.
      * intros H x Hx. apply (H x). right. exact Hx.
      * intros H x [Hx | Hx]; [congruence | exact (H x Hx)].
Qed.

Lemma dict_get_raises {A : Type} (d : dict A) (key : string) (e : exn) :
  dict_get d key = Raise e -> e = KeyError.
Proof.
  induction d as [| [k v] r IH]; simpl.
  - intros H. injection H as <-. reflexivity.
  - destruct (String.eqb k key); [discriminate | exact IH].
Qed.

Lemma py_in_statuses (s : string) (d : dict progress_data) :
  py_in s (map status (dict_values d)) = true <-> has_status s d.
Proof.
  unfold py_in, has_status, dict_values. rewrite existsb_exists. split.
  - intros (x & Hx & E). apply String.eqb_eq in E. subst x.
    apply in_map_iff in Hx as (data & Hs & Hd).
    apply in_map_iff in Hd as ([key data'] & Hk & Hin). simpl in Hk. subst data'.
    exists key, data. split; assumption.
  - intros (key & data & Hin & Hs). exists s. split; [| apply String.eqb_refl].
    rewrite <- Hs. apply in_map. apply in_map_iff. exists (key, data).
    split; [reflexivity | exact Hin].
Qed.

(** X11. A card for any dictionary of evaluations, whatever its keys and
    their number.  Without a "CA" entry [create_aircraft_card] raises
    [KeyError] (so for the empty dictionary).  With one it returns a card
    whose heading shows that entry's remaining time, whose class is
    critical exactly when some entry is "critical", warning exactly when
    none is critical and some entry is "warning", and normal otherwise, and
    whose pictograph goes with the class. *)
Theorem create_aircraft_card_any (tail_number : pyval) (d : dict progress_data) :
  ((forall data, ~ In ("CA", data) d) ->
   create_aircraft_card tail_number d = Raise KeyError) /\
  (forall captain,
     dict_get d "CA" = Ok captain ->
     exists card,
       create_aircraft_card tail_number d = Ok card /\
       card_tail card = tail_number /\
       card_remaining card = remaining_hhmm captain /\
       (card_class card = "critical-card" <-> has_status "critical" d) /\
       (card_class card = "warning-card" <->
        ~ has_status "critical" d /\ has_status "warning" d) /\
       (card_class card = "aircraft-card" <->
        ~ has_status "critical" d /\ ~ has_status "warning" d) /\
       (status_emoji card = Rotating_light <-> card_class card = "critical-card") /\
       (status_emoji card = Warning_sign <-> card_class card = "warning-card") /\
       (status_emoji card = Check_mark <-> card_class card = "aircraft-card")).
Proof.
  split.
  - intros H. apply dict_get_missing in H.
    unfold create_aircraft_card. destruct (card_style _) as [c p].
    rewrite H. reflexivity.
  - intros captain Hc. unfold create_aircraft_card, card_style. rewrite Hc.
    pose proof (py_in_statuses "critical" d) as Pc.
    pose proof (py_in_statuses "warning" d) as Pw.
    destruct (py_in "critical" (map status (dict_values d))) eqn:Ec.
    + assert (Hcr : has_status "critical" d) by (apply Pc; reflexivity).
      eexists. split; [reflexivity |]. cbn.
      repeat split; try reflexivity; try discriminate; try tauto;
        intros; try discriminate; tauto.
    + assert (Hcr : ~ has_status "critical" d)
        by (intros H; apply Pc in H; discriminate H).
      destruct (py_in "warning" (map status (dict_values d))) eqn:Ew.
      * assert (Hwa : has_status "warning" d) by (apply Pw; reflexivity).
        eexists. split; [reflexivity |]. cbn.
        repeat split; try reflexivity; try discriminate; try tauto;
          intros; try discriminate; tauto.
      * assert (Hwa : ~ has_status "warning" d)
          by (intros H; apply Pw in H; discriminate H).
        eexists. split; [reflexivity |]. cbn.
        repeat split; try reflexivity; try discriminate; try tauto;
          intros; try discriminate; tauto.
Qed.

Lemma dashboard_card (aircraft : aircraft_row) :
  create_aircraft_card (Tail_Number aircraft) (aircraft_progress aircraft)
  = Ok {| card_class := aircraft_class aircraft;
          status_emoji :=
            snd (card_style (map status (dict_values (aircraft_progress aircraft))));
          card_tail := Tail_Number aircraft;
          card_remaining := remaining_hhmm (calculate_progress_data aircraft "CA") |}.
Proof.
  unfold create_aircraft_card, aircraft_class.
  destruct (card_style _) as [c p]. reflexivity.
Qed.

Lemma cards_of_class_dashboard (c : string) (table : list aircraft_row) :
  cards_of_class c (dashboard table)
  = List.length (filter (fun a => String.eqb (aircraft_class a) c) table).
Proof.
  unfold cards_of_class, dashboard.
  induction table as [| a r IH]; [reflexivity |].
  cbn [map filter]. rewrite dashboard_card. cbn [card_class].
  destruct (String.eqb (aircraft_class a) c); cbn [List.length]; rewrite IH;
    reflexivity.
Qed.

(** X12. The panels agree.  The dashboard draws one card per row, never
    failing, with the row's tail number and its captain's remaining time;
    the critical and warning counts of the statistics panel are the numbers
    of critical and warning cards drawn, and the total is the number of
    cards. *)
Theorem dashboard_matches_statistics (table : list aircraft_row) :
  List.length (dashboard table) = List.length table /\
  Forall2
    (fun aircraft drawn =>
       exists card,
         drawn = Ok card /\
         card_tail card = Tail_Number aircraft /\
         card_class card = aircraft_class aircraft /\
         card_remaining card
         = remaining_hhmm (calculate_progress_data aircraft "CA"))
    table (dashboard table) /\
  fold_left count_alert table (0, 0)
  = (Z.of_nat (cards_of_class "critical-card" (dashboard table)),
     Z.of_nat (cards_of_class "warning-card" (dashboard table))) /\
  (cards_of_class "critical-card" (dashboard table)
   + cards_of_class "warning-card" (dashboard table)
   + cards_of_class "aircraft-card" (dashboard table)
   = List.length table)%nat.
Proof.
  split; [apply length_map |]. split; [| split].
  - unfold dashboard. induction table as [| a r IH]; constructor; [| exact IH].
    rewrite dashboard_card. eexists. split; [reflexivity |].
    repeat split.
  - rewrite count_alert_fold, !cards_of_class_dashboard. reflexivity.
  - rewrite !cards_of_class_dashboard. apply class_rows_length.
Qed.

(** ** The evaluator on an integer maximum *)

Lemma color_status_int (r : Z) :
  color_status (VInt r) = Ok (tier_of_minutes r).
Proof.
  unfold color_status, tier_of_minutes. simpl py_le. cbn [bind].
  destruct (r <=? 60); [reflexivity |]. cbn [bind].
  destruct (r <=? 120); reflexivity.
Qed.

Lemma of_int_100_exact :
  exists c, Float.of_int 100 = Ok (FFin c) /\ (c == 100)%Q.
Proof. eexists. split; [vm_compute; reflexivity | reflexivity]. Qed.

(** The percentage of [m] elapsed minutes over [z > 0] minutes. *)
Lemma percent_int (m z : Z) :
  0 <= m <= 1439 -> 0 < z ->
  exists ratio scaled percent,
    py_rtruediv m (VInt z) = Ok ratio /\
    py_mul ratio 100 = Ok scaled /\
    py_min 100 scaled = Ok percent /\
    within 0 100 percent /\
    (m = 0 -> percent = VFloat (FFin 0)) /\
    (z <= m -> percent = VInt 100).
Proof.
  intros Hm Hz.
  destruct of_int_100_exact as (c & Hc & Ec).
  assert (Hq0 : (0 <= inject_Z m / inject_Z z)%Q).
  { apply Qle_shift_div_l.
    - change 0%Q with (inject_Z 0). rewrite <- Zlt_Qlt. lia.
    - rewrite Qmult_0_l. change 0%Q with (inject_Z 0). rewrite <- Zle_Qle. lia. }
  destruct (FloatFacts.round_double_finite (inject_Z m / inject_Z z) 11)
    as (r & Hr & Hr0); [lia | exact Hq0 | |].
  { apply Qle_shift_div_r.
    - change 0%Q with (inject_Z 0). rewrite <- Zlt_Qlt. lia.
    - change (2 ^ 11)%Q with (inject_Z 2048).
      rewrite <- inject_Z_mult, <- Zle_Qle. nia. }
  assert (Hrat : py_rtruediv m (VInt z) = Ok (VFloat (FFin r))).
  { unfold py_rtruediv.
    replace (z =? 0) with false by (symmetry; apply Z.eqb_neq; lia).
    rewrite Hr. reflexivity. }
  assert (Hmul : py_mul (VFloat (FFin r)) 100
                 = Ok (VFloat (Float.round_double (r * c)))).
  { unfold py_mul. rewrite Hc. reflexivity. }
  assert (Hrc : (0 <= r * c)%Q).
  { apply Qmult_le_0_compat; [exact Hr0 | rewrite Ec; discriminate]. }
  pose proof (FloatFacts.round_double_nonneg _ Hrc) as Hnn.
  destruct (py_min_100_within (Float.round_double (r * c)) Hnn)
    as (percent & Hmin & Hw).
  exists (VFloat (FFin r)), (VFloat (Float.round_double (r * c))), percent.
  split; [exact Hrat |]. split; [exact Hmul |]. split; [exact Hmin |].
  split; [exact Hw |]. split.
  - intros ->.
    assert (Er : r = 0%Q).
    { unfold Float.round_double in Hr.
      replace (Qeq_bool (inject_Z 0 / inject_Z z) 0) with true in Hr.
      - injection Hr as <-. reflexivity.
      - symmetry. apply Qeq_bool_iff. unfold Qdiv. apply Qmult_0_l. }
    subst r.
    assert (Es : Float.round_double (0 * c) = FFin 0).
    { unfold Float.round_double.
      replace (Qeq_bool (0 * c) 0) with true; [reflexivity |].
      symmetry. apply Qeq_bool_iff. apply Qmult_0_l. }
    rewrite Es in Hmin. vm_compute in Hmin. injection Hmin as <-. reflexivity.
  - intros Hle.
    assert (H1 : (inject_Z 1 <= inject_Z m / inject_Z z)%Q).
    { apply Qle_shift_div_l.
      - change 0%Q with (inject_Z 0). rewrite <- Zlt_Qlt. lia.
      - rewrite <- inject_Z_mult, <- Zle_Qle. lia. }
    pose proof (FloatBounds.round_double_ge 1 _ ltac:(split; [lia | discriminate]) H1)
      as Hge.
    rewrite Hr in Hge.
    assert (H100 : (inject_Z 100 <= r * c)%Q).
    { rewrite Ec. change (inject_Z 100) with (1 * 100)%Q.
      apply Qmult_le_compat_r; [exact Hge | discriminate]. }
    pose proof (FloatBounds.round_double_ge 100 _ ltac:(split; [lia | discriminate]) H100)
      as Hge2.
    unfold py_min in Hmin. simpl py_lt in Hmin. cbn [bind] in Hmin.
    destruct (Float.round_double (r * c)) as [| neg | s]; [contradiction | |].
    + subst neg. simpl in Hmin. injection Hmin as <-. reflexivity.
    + unfold Float.ltb in Hmin.
      replace (Qle_bool (inject_Z 100) s) with true in Hmin
        by (symmetry; apply Qle_bool_iff; exact Hge2).
      simpl in Hmin. injection Hmin as <-. reflexivity.
Qed.

(** What [calculate_progress_data] returns for an integer maximum [h] and
    an elapsed value decoding to [m]. *)
Lemma evaluation_int (row : aircraft_row) (crew_type : string) (h m : Z)
  (elapsed : pyval) :
  crew_cells row crew_type = (VInt h, elapsed) ->
  hhmm_to_minutes elapsed = Ok m ->
  exists percent,
    calculate_progress_data row crew_type
    = {| progress_percent := percent;
         remaining_hhmm := clock (Z.max 0 (h * 60 - m) mod 1440);
         elapsed_hhmm := elapsed;
         max_hhmm := clock (Z.max 0 (h * 60) mod 1440);
         color := fst (tier_of_minutes (Z.max 0 (h * 60 - m)));
         status := snd (tier_of_minutes (Z.max 0 (h * 60 - m))) |} /\
    within 0 100 percent /\
    (h <= 0 -> percent = VInt 0) /\
    (0 < h -> m = 0 -> percent = VFloat (FFin 0)) /\
    (0 < h -> h * 60 <= m -> percent = VInt 100).
Proof.
  intros Hcells Hm.
  pose proof (hhmm_to_minutes_range _ _ Hm) as Rm.
  assert (Hrem : py_max 0 (VInt (h * 60 - m)) = Ok (VInt (Z.max 0 (h * 60 - m)))).
  { unfold py_max. simpl py_gt. cbn [bind].
    destruct (h * 60 - m >? 0) eqn:E.
    - apply Z.gtb_lt in E. do 2 f_equal. lia.
    - rewrite Z.gtb_ltb in E. apply Z.ltb_ge in E. do 2 f_equal. lia. }
  assert (Hpct : exists percent,
             (if h * 60 >? 0
              then ratio <- py_rtruediv m (VInt (h * 60)) ;;
                   scaled <- py_mul ratio 100 ;; py_min 100 scaled
              else Ok (VInt 0)) = Ok percent /\
             within 0 100 percent /\
             (h <= 0 -> percent = VInt 0) /\
             (0 < h -> m = 0 -> percent = VFloat (FFin 0)) /\
             (0 < h -> h * 60 <= m -> percent = VInt 100)).
  { destruct (h * 60 >? 0) eqn:E.
    - apply Z.gtb_lt in E.
      destruct (percent_int m (h * 60) Rm E)
        as (ratio & scaled & percent & H1 & H2 & H3 & H4 & H5 & H6).
      exists percent. rewrite H1. cbn [bind]. rewrite H2. cbn [bind].
      split; [exact H3 |]. split; [exact H4 |].
      split; [intros; lia |]. split; [intros _; exact H5 | intros _; exact H6].
    - rewrite Z.gtb_ltb in E. apply Z.ltb_ge in E.
      exists (VInt 0). split; [reflexivity |].
      split; [simpl; lia |]. split; [reflexivity |]. split; intros; lia. }
  destruct Hpct as (percent & Hpct & Hw & P1 & P2 & P3).
  exists percent. split; [| repeat split; assumption].
  unfold calculate_progress_data, calculate_progress_data_try.
  rewrite Hcells. unfold progress_numbers.
  simpl py_mul. cbn [bind]. rewrite Hm. cbn [bind].
  simpl py_sub. cbn [bind]. rewrite Hrem. cbn [bind].
  simpl py_gt. cbn [bind]. rewrite Hpct. cbn [bind].
  rewrite color_status_int. cbn [bind].
  rewrite !minutes_to_hhmm_any_int. cbn [bind].
  rewrite (Z.max_r 0 (Z.max 0 (h * 60 - m))) by lia.
  reflexivity.
Qed.

Lemma tier_of_minutes_cases (r : Z) :
  (r <= 60 -> tier_of_minutes r = ("#e74c3c", "critical")) /\
  (60 < r <= 120 -> tier_of_minutes r = ("#f39c12", "warning")) /\
  (120 < r -> tier_of_minutes r = ("#2ecc71", "ok")).
Proof.
  unfold tier_of_minutes.
  destruct (Z.leb_spec r 60); destruct (Z.leb_spec r 120);
    repeat split; intros; solve [reflexivity | lia].
Qed.

(** X13. The evaluation of a crew with an integer maximum of [h] hours and
    an elapsed value decoding to [m] minutes never ends in the error tier.
    With [r = max 0 (60 h - m)] minutes left, the status and colour are
    those of [r] (critical up to 60, warning up to 120, ok above), the
    remaining and maximum times are shown as clocks modulo 24 hours, so
    that the remaining text decodes to [r mod 1440], and the percentage is
    between 0 and 100. *)
Theorem evaluation_of_integer_maximum (row : aircraft_row) (crew_type : string)
  (h m : Z) (elapsed : pyval) :
  crew_cells row crew_type = (VInt h, elapsed) ->
  hhmm_to_minutes elapsed = Ok m ->
  let r := Z.max 0 (h * 60 - m) in
  let data := calculate_progress_data row crew_type in
  (r <= 60 -> status data = "critical" /\ color data = "#e74c3c") /\
  (60 < r <= 120 -> status data = "warning" /\ color data = "#f39c12") /\
  (120 < r -> status data = "ok" /\ color data = "#2ecc71") /\
  remaining_hhmm data = clock (r mod 1440) /\
  hhmm_to_minutes (VStr (remaining_hhmm data)) = Ok (r mod 1440) /\
  max_hhmm data = clock (Z.max 0 (h * 60) mod 1440) /\
  elapsed_hhmm data = elapsed /\
  within 0 100 (progress_percent data) /\
  status data <> "error".
Proof.
  intros Hc Hm r data.
  destruct (evaluation_int row crew_type h m elapsed Hc Hm)
    as (percent & E & Hw & _).
  fold r in E. fold data in E.
  destruct (tier_of_minutes_cases r) as (T1 & T2 & T3).
  rewrite E. cbn [status color remaining_hhmm max_hhmm elapsed_hhmm progress_percent].
  split; [intros H; rewrite (T1 H); split; reflexivity |].
  split; [intros H; rewrite (T2 H); split; reflexivity |].
  split; [intros H; rewrite (T3 H); split; reflexivity |].
  split; [reflexivity |].
  split; [apply decode_encode_day, Z.mod_pos_bound; lia |].
  split; [reflexivity |]. split; [reflexivity |]. split; [exact Hw |].
  unfold tier_of_minutes.
  destruct (r <=? 60); [discriminate |]. destruct (r <=? 120); discriminate.
Qed.

Lemma evaluation_of_integer_maximum_witness :
  hhmm_to_minutes
    (VStr (remaining_hhmm
             (calculate_progress_data
                (new_aircraft "N1" "0800" "0800" "0800" "0430" "0000" "0000")
                "CA")))
  = Ok (Z.max 0 (11 * 60 - 270) mod 1440).
Proof.
  assert (Hc : crew_cells
                 (new_aircraft "N1" "0800" "0800" "0800" "0430" "0000" "0000")
                 "CA" = (VInt 11, VStr "0430")) by (vm_compute; reflexivity).
  assert (Hm : hhmm_to_minutes (VStr "0430") = Ok 270)
    by (vm_compute; reflexivity).
  pose proof (evaluation_of_integer_maximum _ _ _ _ _ Hc Hm) as H.
  cbv zeta in H. destruct H as (_ & _ & _ & _ & H & _). exact H.
Defined.

(** X14. The ends of the percentage, for an integer maximum [h > 0].  With
    nothing elapsed (an elapsed value decoding to 0, as "0000" or a missing
    or unreadable one does) the percentage is the float 0 and the
    remaining time shown is the maximum.  With the elapsed minutes at or
    beyond [60 h] the percentage is the integer 100, the remaining time is
    "0000" and the status is critical. *)
Theorem percent_extremes (row : aircraft_row) (crew_type : string)
  (h m : Z) (elapsed : pyval) :
  crew_cells row crew_type = (VInt h, elapsed) ->
  hhmm_to_minutes elapsed = Ok m ->
  0 < h ->
  let data := calculate_progress_data row crew_type in
  (m = 0 ->
   progress_percent data = VFloat (FFin 0) /\
   remaining_hhmm data = max_hhmm data) /\
  (h * 60 <= m ->
   progress_percent data = VInt 100 /\
   remaining_hhmm data = "0000" /\
   status data = "critical").
Proof.
  intros Hc Hm Hh data.
  destruct (evaluation_int row crew_type h m elapsed Hc Hm)
    as (percent & E & _ & _ & P0 & P100).
  fold data in E. rewrite E.
  cbn [status remaining_hhmm max_hhmm progress_percent]. split.
  - intros ->. split; [exact (P0 Hh eq_refl) |].
    rewrite Z.sub_0_r. reflexivity.
  - intros Hle. split; [exact (P100 Hh Hle) |].
    replace (Z.max 0 (h * 60 - m)) with 0 by lia. split; reflexivity.
Qed.

Lemma percent_extremes_witness :
  progress_percent
    (calculate_progress_data
       (new_aircraft "N1" "0800" "0800" "0800" "0000" "0000" "0000") "FO")
  = VFloat (FFin 0) /\
  remaining_hhmm
    (calculate_progress_data
       (new_aircraft "N1" "0800" "0800" "0800" "0000" "0000" "0000") "FO")
  = max_hhmm
      (calculate_progress_data
         (new_aircraft "N1" "0800" "0800" "0800" "0000" "0000" "0000") "FO").
Proof.
  assert (Hc : crew_cells
                 (new_aircraft "N1" "0800" "0800" "0800" "0000" "0000" "0000")
                 "FO" = (VInt 11, VStr "0000")) by (vm_compute; reflexivity).
  assert (Hm : hhmm_to_minutes (VStr "0000") = Ok 0)
    by (vm_compute; reflexivity).
  pose proof (percent_extremes _ _ _ _ _ Hc Hm ltac:(lia)) as H.
  cbv zeta in H. destruct H as (H & _). exact (H eq_refl).
Defined.

(** X15. More elapsed time never improves a crew: for the same integer
    maximum, of two elapsed values the one decoding to more minutes leaves
    no more minutes and gives a status at least as severe. *)
Theorem more_elapsed_is_no_better (row1 row2 : aircraft_row)
  (crew1 crew2 : string) (h m1 m2 : Z) (elapsed1 elapsed2 : pyval) :
  crew_cells row1 crew1 = (VInt h, elapsed1) ->
  crew_cells row2 crew2 = (VInt h, elapsed2) ->
  hhmm_to_minutes elapsed1 = Ok m1 ->
  hhmm_to_minutes elapsed2 = Ok m2 ->
  m1 <= m2 ->
  Z.max 0 (h * 60 - m2) <= Z.max 0 (h * 60 - m1) /\
  (severity (status (calculate_progress_data row1 crew1))
   <= severity (status (calculate_progress_data row2 crew2)))%nat.
Proof.
  intros C1 C2 H1 H2 Hle. split; [lia |].
  destruct (evaluation_int row1 crew1 h m1 elapsed1 C1 H1) as (p1 & -> & _).
  destruct (evaluation_int row2 crew2 h m2 elapsed2 C2 H2) as (p2 & -> & _).
  cbn [status]. unfold tier_of_minutes.
  destruct (Z.leb_spec (Z.max 0 (h * 60 - m1)) 60);
    destruct (Z.leb_spec (Z.max 0 (h * 60 - m1)) 120);
    destruct (Z.leb_spec (Z.max 0 (h * 60 - m2)) 60);
    destruct (Z.leb_spec (Z.max 0 (h * 60 - m2)) 120);
    cbn; lia.
Qed.

Lemma more_elapsed_is_no_better_witness :
  Z.max 0 (11 * 60 - 600) <= Z.max 0 (11 * 60 - 270) /\
  (severity
     (status (calculate_progress_data
                (new_aircraft "N1" "0800" "0800" "0800" "0430" "1000" "0000")
                "CA"))
   <= severity
        (status (calculate_progress_data
                   (new_aircraft "N1" "0800" "0800" "0800" "0430" "1000" "0000")
                   "FO")))%nat.
Proof.
  assert (C1 : crew_cells
                 (new_aircraft "N1" "0800" "0800" "0800" "0430" "1000" "0000")
                 "CA" = (VInt 11, VStr "0430")) by (vm_compute; reflexivity).
  assert (C2 : crew_cells
                 (new_aircraft "N1" "0800" "0800" "0800" "0430" "1000" "0000")
                 "FO" = (VInt 11, VStr "1000")) by (vm_compute; reflexivity).
  assert (H1 : hhmm_to_minutes (VStr "0430") = Ok 270)
    by (vm_compute; reflexivity).
  assert (H2 : hhmm_to_minutes (VStr "1000") = Ok 600)
    by (vm_compute; reflexivity).
  exact (more_elapsed_is_no_better _ _ _ _ _ _ _ _ _ C1 C2 H1 H2 ltac:(lia)).
Defined.

(** X16. The click that takes an elapsed clock past midnight resets the
    crew: with an integer maximum from 3 to 24 hours and an elapsed clock
    from 23:30 on, the crew is critical before the click and ok after it. *)
Theorem click_past_midnight_resets (row row' : aircraft_row) (crew_type : string)
  (h k : Z) (new : pyval) :
  3 <= h <= 24 ->
  1410 <= k < 1440 ->
  crew_cells row crew_type = (VInt h, VStr (clock k)) ->
  advance_cell (VStr (clock k)) = Ok new ->
  crew_cells row' crew_type = (VInt h, new) ->
  status (calculate_progress_data row crew_type) = "critical" /\
  new = VStr (clock (k - 1410)) /\
  status (calculate_progress_data row' crew_type) = "ok".
Proof.
  intros Hh Hk C Ha C'.
  rewrite advance_clock in Ha by lia. injection Ha as <-.
  replace ((k + 30) mod 1440) with (k - 1410) in *
    by (apply Z.mod_unique with (q := 1); lia).
  destruct (evaluation_int row crew_type h k (VStr (clock k)) C
              (decode_encode_day k ltac:(lia))) as (p & -> & _).
  destruct (evaluation_int row' crew_type h (k - 1410) (VStr (clock (k - 1410))) C'
              (decode_encode_day (k - 1410) ltac:(lia))) as (p' & -> & _).
  cbn [status].
  destruct (tier_of_minutes_cases (Z.max 0 (h * 60 - k))) as (T1 & _).
  destruct (tier_of_minutes_cases (Z.max 0 (h * 60 - (k - 1410)))) as (_ & _ & T3).
  rewrite T1 by lia. rewrite T3 by lia. repeat split.
Qed.

(** X17. A maximum that is a number not above 0 (zero, a negative
    number, minus infinity) makes the crew critical whatever has elapsed:
    0 percent, and "0000" for both the remaining and the maximum time. *)
Theorem nonpositive_maximum (row : aircraft_row) (crew_type : string)
  (max_time elapsed : pyval) (m : Z) :
  crew_cells row crew_type = (max_time, elapsed) ->
  hhmm_to_minutes elapsed = Ok m ->
  not_positive max_time ->
  calculate_progress_data row crew_type = spent_data elapsed.
Proof.
  intros Hc Hm Hnp.
  pose proof (hhmm_to_minutes_range _ _ Hm) as Rm.
  destruct max_time as [| h | f | s]; simpl in Hnp; try contradiction.
  - destruct (evaluation_int row crew_type h m elapsed Hc Hm)
      as (p & -> & _ & P & _).
    rewrite (P Hnp).
    replace (Z.max 0 (h * 60 - m)) with 0 by lia.
    replace (Z.max 0 (h * 60)) with 0 by lia. reflexivity.
  - unfold calculate_progress_data, calculate_progress_data_try.
    rewrite Hc. unfold progress_numbers.
    destruct FloatArith.of_int_60 as (c60 & E60 & P60).
    destruct (FloatArith.of_int_small m ltac:(lia)) as (cm & Em & Pm).
    unfold py_mul at 1. rewrite E60. cbn [bind]. rewrite Hm. cbn [bind].
    unfold py_sub. rewrite Em. cbn [bind].
    set (M := Float.mul f (FFin c60)).
    assert (HM : Float.leb M 0 = true).
    { unfold M. destruct f as [| neg | q]; simpl in Hnp.
      - discriminate Hnp.
      - subst neg. unfold Float.mul. cbn [Float.is_zero Float.is_neg orb].
        assert (Hz : Qeq_bool c60 0 = false).
        { destruct (Qeq_bool c60 0) eqn:E; [| reflexivity].
          apply Qeq_bool_eq in E. rewrite E in P60. discriminate P60. }
        assert (Hp : Qle_bool 0 c60 = true)
          by (apply Qle_bool_iff, Qlt_le_weak, P60).
        rewrite Hz, Hp. reflexivity.
      - apply Qle_bool_iff in Hnp. unfold Float.mul.
        assert (Hq : (q * c60 <= 0)%Q).
        { rewrite <- (Qmult_0_l c60).
          apply Qmult_le_compat_r; [exact Hnp | apply Qlt_le_weak, P60]. }
        pose proof (FloatBounds.round_double_nonpos _ Hq) as R.
        destruct (Float.round_double (q * c60)) as [| neg | r];
          [contradiction | subst neg; reflexivity |].
        apply Qle_bool_iff. exact R. }
    set (D := Float.sub M (FFin cm)).
    assert (HD : Float.gtb D 0 = false).
    { unfold D. destruct M as [| neg | a]; simpl in HM.
      - discriminate HM.
      - subst neg. reflexivity.
      - apply Qle_bool_iff in HM. unfold Float.sub.
        assert (Hq : (a - cm <= 0)%Q).
        { apply Qle_minus_iff. 
          setoid_replace (0 + - (a - cm))%Q with (cm + - a)%Q by ring.
          rewrite <- (Qplus_0_l 0).
          apply Qplus_le_compat; [exact Pm |].
          apply Qopp_le_compat in HM. exact HM. }
        pose proof (FloatBounds.round_double_nonpos _ Hq) as R.
        destruct (Float.round_double (a - cm)) as [| neg | r];
          [contradiction | subst neg; reflexivity |].
        unfold Float.gtb. apply negb_false_iff. apply Qle_bool_iff. exact R. }
    assert (HG : Float.gtb M 0 = false).
    { destruct M as [| neg | a]; simpl in HM |- *.
      - reflexivity.
      - subst neg. reflexivity.
      - rewrite HM. reflexivity. }
    unfold py_max. simpl py_gt. rewrite HD, HG. cbn [bind].
    rewrite color_status_int. cbn [bind].
    rewrite minutes_to_hhmm_any_int. cbn [bind].
    unfold minutes_to_hhmm at 1. simpl py_le. rewrite HM. cbn [bind].
    reflexivity.
Qed.

Lemma nonpositive_maximum_witness :
  calculate_progress_data
    (sample_row "N1" "0800" "0800" "0730" (-13) 0 14 "0430" "0430" "0500") "CA"
  = spent_data (VStr "0430").
Proof.
  assert (Hc : crew_cells
                 (sample_row "N1" "0800" "0800" "0730" (-13) 0 14
                             "0430" "0430" "0500") "CA"
               = (VFloat (FFin (-13)), VStr "0430")) by (vm_compute; reflexivity).
  assert (Hm : hhmm_to_minutes (VStr "0430") = Ok 270)
    by (vm_compute; reflexivity).
  assert (Hn : not_positive (VFloat (FFin (-13)))) by (vm_compute; reflexivity).
  exact (nonpositive_maximum _ _ _ _ _ Hc Hm Hn).
Defined.

Lemma click_past_midnight_resets_witness :
  status (calculate_progress_data
            (new_aircraft "N1" "0800" "0800" "0800" "2345" "0000" "0000") "CA")
  = "critical" /\
  VStr "0015" = VStr (clock (1425 - 1410)) /\
  status (calculate_progress_data
            (new_aircraft "N1" "0800" "0800" "0800" "0015" "0000" "0000") "CA")
  = "ok".
Proof.
  assert (C : crew_cells
                (new_aircraft "N1" "0800" "0800" "0800" "2345" "0000" "0000")
                "CA" = (VInt 11, VStr (clock 1425))) by (vm_compute; reflexivity).
  assert (A : advance_cell (VStr (clock 1425)) = Ok (VStr "0015"))
    by (vm_compute; reflexivity).
  assert (C' : crew_cells
                 (new_aircraft "N1" "0800" "0800" "0800" "0015" "0000" "0000")
                 "CA" = (VInt 11, VStr "0015")) by (vm_compute; reflexivity).
  exact (click_past_midnight_resets _ _ _ 11 1425 _
           ltac:(lia) ltac:(lia) C A C').
Defined.

(** ** The error tier *)

Lemma mul_zero_100 (c : Q) : Float.mul (FFin 0) (FFin c) = FFin 0.
Proof.
  unfold Float.mul, Float.round_double.
  replace (Qeq_bool (0 * c) 0) with true; [reflexivity |].
  symmetry. apply Qeq_bool_iff. apply Qmult_0_l.
Qed.

(** X18. Besides a maximum that is no number, two things end an
    evaluation in the error tier: an elapsed value that [float()] turns
    into an infinity, whatever the maximum; and, with any elapsed value
    that decodes, a maximum that is NaN or plus infinity, for which the
    status is computed but the maximum cannot be shown as a clock. *)
Theorem error_tier_sources (row : aircraft_row) (crew_type : string)
  (max_time elapsed : pyval) :
  crew_cells row crew_type = (max_time, elapsed) ->
  (overflows elapsed -> calculate_progress_data row crew_type = error_data) /\
  (forall m,
     hhmm_to_minutes elapsed = Ok m ->
     max_time = VFloat FNan \/ max_time = VFloat (FInf false) ->
     calculate_progress_data row crew_type = error_data).
Proof.
  intros Hc. split.
  - intros Ho. apply hhmm_to_minutes_overflows in Ho.
    unfold calculate_progress_data, calculate_progress_data_try.
    rewrite Hc. unfold progress_numbers.
    destruct (py_mul max_time 60); cbn [bind]; [| reflexivity].
    rewrite Ho. reflexivity.
  - intros m Hm Hmax.
    pose proof (hhmm_to_minutes_range _ _ Hm) as Rm.
    destruct FloatArith.of_int_60 as (c60 & E60 & P60).
    destruct FloatArith.of_int_100 as (c100 & E100 & P100).
    destruct (FloatArith.of_int_small m ltac:(lia)) as (cm & Em & Pm).
    unfold calculate_progress_data, calculate_progress_data_try.
    rewrite Hc. unfold progress_numbers.
    destruct Hmax as [-> | ->].
    + unfold py_mul at 1. rewrite E60. cbn [bind]. rewrite Hm. cbn [bind].
      unfold py_sub. rewrite Em. cbn [bind].
      reflexivity.
    + unfold py_mul at 1. rewrite E60. cbn [bind]. rewrite Hm. cbn [bind].
      assert (HM : Float.mul (FInf false) (FFin c60) = FInf false).
      { unfold Float.mul. cbn [Float.is_zero Float.is_neg orb xorb].
        assert (Hz : Qeq_bool c60 0 = false).
        { destruct (Qeq_bool c60 0) eqn:E; [| reflexivity].
          apply Qeq_bool_eq in E. rewrite E in P60. discriminate P60. }
        assert (Hp : Qle_bool 0 c60 = true)
          by (apply Qle_bool_iff, Qlt_le_weak, P60).
        rewrite Hz, Hp. reflexivity. }
      rewrite HM. unfold py_sub. rewrite Em. cbn [bind].
      unfold py_rtruediv. rewrite Em. cbn [bind].
      unfold py_mul. rewrite E100. cbn [bind].
      change (Float.div (FFin cm) (FInf false)) with (Ok (FFin 0)).
      cbn [bind]. rewrite mul_zero_100.
      reflexivity.
Qed.

Lemma error_tier_sources_witness :
  calculate_progress_data endless_first_officer "FO" = error_data.
Proof.
  assert (Hc : crew_cells endless_first_officer "FO"
               = (VFloat (FFin 14), VStr "inf")) by (vm_compute; reflexivity).
  assert (Ho : overflows (VStr "inf"))
    by (right; exists false; vm_compute; reflexivity).
  exact (proj1 (error_tier_sources _ _ _ _ Hc) Ho).
Defined.
